(** * Order pipeline: validator, payment processor and refund handler

    A shallow embedding of the two Step Functions tasks of the repository,

      - [dev1-backend-core/lambdas/validate_order_handler/app.py]
      - [dev1-backend-core/lambdas/process_payment_handler/app.py]

    and of the properties the specification states about them.

    Conventions.
      - A Python value that can occur in an event or in a DynamoDB item is a
        [value]; a [dict] keeps its keys in insertion order.
      - A Python [float] is a binary64 [float] of the kernel, so [abs(a - b) >
        0.01] is computed exactly as CPython computes it.
      - A Python [str] is a [string], one [ascii] per character.
      - What the handlers take from their surroundings is explicit: the parts
        of the Python runtime that are not re-implemented here ([PyRuntime]),
        the products table ([table]), and the clock and random draws of one
        payment ([gateway]).
      - Exceptions are results ([Raise]); the calls a handler makes are
        recorded in a trace.  [print] and [time.sleep] are left out. *)

From Stdlib Require Import ZArith List String Ascii Bool Lia Floats DecimalString.
Import ListNotations.

Set Warnings "-register-all,-inexact-float".

Local Open Scope string_scope.
Local Open Scope Z_scope.
Local Open Scope list_scope.

(** ** Values *)

Inductive value : Type :=
| VNone
| VBool (b : bool)
| VInt (z : Z)
| VFloat (f : float)
| VDecimal (coefficient exponent : Z)   (* decimal.Decimal: coefficient * 10^exponent *)
| VStr (s : string)
| VList (l : list value)
| VDict (d : list (string * value)).

Definition dict : Type := list (string * value).

Fixpoint dict_get (k : string) (d : dict) : option value :=
  match d with
  | [] => None
  | (k', v) :: d' => if String.eqb k k' then Some v else dict_get k d'
  end.

(** [k in d] *)
Definition dict_mem (k : string) (d : dict) : bool :=
  match dict_get k d with Some _ => true | None => false end.

(** [d.get(k, default)] *)
Definition dict_get_default (k : string) (default : value) (d : dict) : value :=
  match dict_get k d with Some v => v | None => default end.

(** [d[k] = v]: an existing key keeps its position, a new key goes last. *)
Fixpoint dict_set (k : string) (v : value) (d : dict) : dict :=
  match d with
  | [] => [(k, v)]
  | (k', v') :: d' =>
      if String.eqb k k' then (k', v) :: d' else (k', v') :: dict_set k v d'
  end.

(** [{**base, **more}] *)
Definition dict_update (base more : dict) : dict :=
  fold_left (fun d kv => dict_set (fst kv) (snd kv) d) more base.

Definition dict_keys (d : dict) : list string := map fst d.

(** A dict as Python builds it: no key twice. *)
Definition dict_wf (d : dict) : Prop := NoDup (dict_keys d).

(** ** Exceptions *)

Inductive exn_class : Type :=
| ValueError | TypeError | OverflowError | KeyError
| ClientError.   (* botocore: any failure of the DynamoDB call *)

Record exn : Type := Exn { exn_kind : exn_class; exn_text : string }.

Inductive result (A : Type) : Type :=
| Ok (a : A)
| Raise (e : exn).
Arguments Ok {A} a.
Arguments Raise {A} e.

Definition is_ValueError_or_TypeError (e : exn) : bool :=
  match exn_kind e with
  | ValueError | TypeError => true
  | _ => false
  end.

(** ** Computations: exceptions, and exceptions over a state *)

Class Monad (m : Type -> Type) : Type := {
  ret : forall {A}, A -> m A;
  bind : forall {A B}, m A -> (A -> m B) -> m B
}.

Declare Scope monad_scope.
Delimit Scope monad_scope with monad.
Notation "x <- c ;; k" := (bind c (fun x => k))
  (at level 61, c at next level, right associativity) : monad_scope.
Notation "c ;;; k" := (bind c (fun _ => k))
  (at level 61, right associativity) : monad_scope.
Local Open Scope monad_scope.

#[export] Instance result_monad : Monad result := {
  ret := fun A a => Ok a;
  bind := fun A B c k => match c with Ok a => k a | Raise e => Raise e end
}.

(** A computation over a state [S]: the state survives an exception, as the
    mutations of a Python object do. *)
Definition M (S A : Type) : Type := S -> result A * S.

#[export] Instance state_monad (S : Type) : Monad (M S) := {
  ret := fun A a s => (Ok a, s);
  bind := fun A B c k s =>
    match c s with
    | (Ok a, s') => k a s'
    | (Raise e, s') => (Raise e, s')
    end
}.

Definition lift {S A} (r : result A) : M S A := fun s => (r, s).
Definition raise {S A} (e : exn) : M S A := fun s => (Raise e, s).
Definition modify {S} (f : S -> S) : M S unit := fun s => (Ok tt, f s).

(** [try: body / except Exception as e: handler e] *)
Definition try_except {S A} (body : M S A) (handler : exn -> M S A) : M S A :=
  fun s =>
    match body s with
    | (Ok a, s') => (Ok a, s')
    | (Raise e, s') => handler e s'
    end.

(** ** The Python runtime *)

(** What is taken from CPython without being re-implemented: parsing and
    printing of numbers, the text of built-in exceptions, SHA-256. *)
Record PyRuntime : Type := {
  int_of_str : string -> option Z;          (* int(s); None: ValueError *)
  float_of_str : string -> option float;    (* float(s); None: ValueError *)
  float_of_decimal : Z -> Z -> float;       (* float(Decimal) *)
  repr_float : float -> string;             (* str(x), f"{x}" *)
  fixed2 : float -> string;                 (* f"{x:.2f}" *)
  fixed2_decimal : Z -> Z -> string;        (* f"{d:.2f}" for a Decimal *)
  str_compound : value -> string;           (* str() of a Decimal, list or dict *)
  fault_text : string -> value -> string;   (* str(e) of a built-in's exception *)
  sha256_hexdigest : string -> string
}.

Definition dec (z : Z) : string := NilZero.string_of_int (Z.to_int z).

(** The pieces of an f-string, joined. *)
Definition fstr (parts : list string) : string := String.concat "" parts.

Definition is_substring (needle s : string) : bool :=
  match index 0 needle s with Some _ => true | None => false end.

Definition is_VStr (s : string) (v : value) : bool :=
  match v with VStr s' => String.eqb s s' | _ => false end.

Fixpoint chars (s : string) : list value :=
  match s with
  | EmptyString => []
  | String c s' => VStr (String c EmptyString) :: chars s'
  end.

(** int(x) for a float: truncation towards zero. *)
Definition int_of_float (f : float) : result Z :=
  match Prim2SF f with
  | S754_zero _ => Ok 0
  | S754_finite s m e =>
      let magnitude :=
        if 0 <=? e then Z.pos m * 2 ^ e else Z.pos m / 2 ^ (- e) in
      Ok (if s then - magnitude else magnitude)
  | S754_infinity _ =>
      Raise (Exn OverflowError "cannot convert float infinity to integer")
  | S754_nan =>
      Raise (Exn ValueError "cannot convert float NaN to integer")
  end.

(** float(n) for an int: the nearest binary64, OverflowError beyond its range. *)
Definition float_of_int (z : Z) : result float :=
  let f := SF2Prim (binary_normalize prec emax z 0 false) in
  if PrimFloat.is_infinity f
  then Raise (Exn OverflowError "int too large to convert to float")
  else Ok f.

Definition tolerance : float := 0.01%float.

(** [abs(a - b) > 0.01] *)
Definition differ (a b : float) : bool :=
  PrimFloat.ltb tolerance (PrimFloat.abs (PrimFloat.sub a b)).

Section Runtime.

Variable py : PyRuntime.

(** str(v), as an f-string renders [{v}] *)
Definition py_str (v : value) : string :=
  match v with
  | VStr s => s
  | VInt z => dec z
  | VNone => "None"
  | VBool true => "True"
  | VBool false => "False"
  | VFloat f => repr_float py f
  | _ => str_compound py v
  end.

Definition fault (c : exn_class) (operation : string) (v : value) : exn :=
  Exn c (fault_text py operation v).

(** int(v) *)
Definition py_int (v : value) : result Z :=
  match v with
  | VInt z => Ok z
  | VBool b => Ok (if b then 1 else 0)
  | VFloat f => int_of_float f
  | VDecimal m e => Ok (if 0 <=? e then m * 10 ^ e else Z.quot m (10 ^ (- e)))
  | VStr s =>
      match int_of_str py s with
      | Some z => Ok z
      | None => Raise (fault ValueError "int" v)
      end
  | _ => Raise (fault TypeError "int" v)
  end.

(** float(v) *)
Definition py_float (v : value) : result float :=
  match v with
  | VFloat f => Ok f
  | VInt z => float_of_int z
  | VBool b => Ok (if b then 1%float else 0%float)
  | VDecimal m e => Ok (float_of_decimal py m e)
  | VStr s =>
      match float_of_str py s with
      | Some f => Ok f
      | None => Raise (fault ValueError "float" v)
      end
  | _ => Raise (fault TypeError "float" v)
  end.

(** f"{v:.2f}" *)
Definition py_fixed2 (v : value) : result string :=
  match v with
  | VFloat f => Ok (fixed2 py f)
  | VInt z => f <- float_of_int z ;; Ok (fixed2 py f)
  | VBool b => Ok (fixed2 py (if b then 1%float else 0%float))
  | VDecimal m e => Ok (fixed2_decimal py m e)
  | VStr _ => Raise (fault ValueError "format" v)
  | _ => Raise (fault TypeError "format" v)
  end.

(** [key in v] for a str [key] *)
Definition py_contains (key : string) (v : value) : result bool :=
  match v with
  | VDict d => Ok (dict_mem key d)
  | VList l => Ok (existsb (is_VStr key) l)
  | VStr s => Ok (is_substring key s)
  | _ => Raise (fault TypeError "in" v)
  end.

(** [v[key]] for a str [key] *)
Definition py_getitem (v : value) (key : string) : result value :=
  match v with
  | VDict d =>
      match dict_get key d with
      | Some x => Ok x
      | None => Raise (fault KeyError "key" (VStr key))
      end
  | _ => Raise (fault TypeError "getitem" v)
  end.

(** The values a [for] loop over [v] visits. *)
Definition py_iter (v : value) : result (list value) :=
  match v with
  | VList l => Ok l
  | VDict d => Ok (map (fun kv => VStr (fst kv)) d)
  | VStr s => Ok (chars s)
  | _ => Raise (fault TypeError "iter" v)
  end.

End Runtime.

(** ** The calls a handler makes *)

Inductive call : Type :=
| Enter (fn : string)       (* a function of the module is entered *)
| GetItem (key : value).    (* products_table.get_item(Key={'productId': key}) *)

Definition trace : Type := list call.

(** The answer of one [get_item]. *)
Inductive lookup : Type :=
| Fails (e : exn)           (* the call raises *)
| NoItem                    (* the response has no 'Item' *)
| Item (product : dict).

(** The [context] argument of a handler: the attributes the handlers read, as
    the MockContext of the two modules has them. *)
Record lambda_context : Type := {
  request_id : value;
  function_name : value
}.

(** [fn(...)], the call recorded. *)
Definition entering {A} (fn : string) (body : M trace A) : M trace A :=
  modify (fun calls => calls ++ [Enter fn]) ;;; body.

(** * validate_order_handler/app.py *)

Module ValidateOrder.

(** The locals of [validate_items] that change: its [errors] list, beside the
    calls made so far. *)
Record frame : Type := { calls : trace; errors : list string }.

Section Handler.

Variable py : PyRuntime.

(** The products table: the answer to a key, after the calls made so far. *)
Variable table : trace -> value -> lookup.

Definition required_fields : list string :=
  ["orderId"; "userId"; "items"; "totalAmount"].

Definition validate_required_fields (order : dict) : list string :=
  let errors :=
    fold_left
      (fun errors field =>
         match dict_get field order with
         | None | Some VNone =>
             errors ++ [fstr ["Missing required field: "; field]]
         | Some _ => errors
         end)
      required_fields [] in
  match dict_get "items" order with
  | Some (VList items) =>
      if (List.length items =? 0)%nat
      then errors ++ ["Order must contain at least one item"]
      else errors
  | Some _ => errors ++ ["Items must be an array"]
  | None => errors
  end.

(** [errors.append(msg)] *)
Definition append_error (msg : string) : M frame unit :=
  modify (fun fr => {| calls := calls fr; errors := errors fr ++ [msg] |}).

(** [products_table.get_item(Key={'productId': key})]; [Some product] when the
    response has an 'Item'. *)
Definition get_item (key : value) : M frame (option dict) :=
  fun fr =>
    let fr' := {| calls := calls fr ++ [GetItem key]; errors := errors fr |} in
    match table (calls fr) key with
    | Fails e => (Raise e, fr')
    | NoItem => (Ok None, fr')
    | Item product => (Ok (Some product), fr')
    end.

(** The messages of [validate_items], for the item at position [n]. *)
Definition missing_product_id (n : Z) : string :=
  fstr ["Item "; dec n; ": Missing productId"].
Definition missing_quantity (n : Z) : string :=
  fstr ["Item "; dec n; ": Missing quantity"].
Definition quantity_not_positive (n : Z) : string :=
  fstr ["Item "; dec n; ": Quantity must be positive"].
Definition invalid_quantity (n : Z) : string :=
  fstr ["Item "; dec n; ": Invalid quantity"].
Definition product_not_found (n : Z) (product_id : value) : string :=
  fstr ["Item "; dec n; ": Product "; py_str py product_id; " not found"].
Definition insufficient_stock (n : Z) (product_id : value)
    (quantity available_stock : Z) : string :=
  fstr ["Item "; dec n; ": Insufficient stock for "; py_str py product_id;
        " (requested: "; dec quantity; ", available: "; dec available_stock;
        ")"].
Definition price_mismatch (n : Z) (product_id : value)
    (db_price order_price : float) : string :=
  fstr ["Item "; dec n; ": Price mismatch for "; py_str py product_id;
        " (expected: "; repr_float py db_price; ", received: ";
        repr_float py order_price; ")"].
Definition product_fault (n : Z) (e : exn) : string :=
  fstr ["Item "; dec n; ": Error validating product - "; exn_text e].

(** The body of the loop of [validate_items]; where it ends early the source
    says [continue]. *)
Definition validate_item (idx : nat) (item : value) : M frame unit :=
  let item_num := Z.of_nat idx + 1 in
  has_product_id <- lift (py_contains py "productId" item) ;;
  if negb has_product_id then append_error (missing_product_id item_num)
  else
  has_quantity <- lift (py_contains py "quantity" item) ;;
  if negb has_quantity then append_error (missing_quantity item_num)
  else
  parsed <-
    try_except
      (quantity <- lift (q <- py_getitem py item "quantity" ;; py_int py q) ;;
       (if quantity <=? 0
        then append_error (quantity_not_positive item_num)
        else ret tt) ;;;
       ret (Some quantity))
      (fun e =>
         if is_ValueError_or_TypeError e
         then append_error (invalid_quantity item_num) ;;; ret None
         else raise e) ;;
  match parsed with
  | None => ret tt
  | Some quantity =>
      try_except
        (product_id <- lift (py_getitem py item "productId") ;;
         response <- get_item product_id ;;
         match response with
         | None => append_error (product_not_found item_num product_id)
         | Some product =>
             (match dict_get "stock" product with
              | Some stock =>
                  available_stock <- lift (py_int py stock) ;;
                  if available_stock <? quantity
                  then append_error
                         (insufficient_stock item_num product_id
                            quantity available_stock)
                  else ret tt
              | None => ret tt
              end) ;;;
             has_price <- lift (py_contains py "price" item) ;;
             if has_price : bool then
               db_price <-
                 lift (py_float py (dict_get_default "price" (VInt 0) product)) ;;
               order_price <-
                 lift (price <- py_getitem py item "price" ;; py_float py price) ;;
               if differ db_price order_price
               then append_error
                      (price_mismatch item_num product_id db_price order_price)
               else ret tt
             else ret tt
         end)
        (fun e => append_error (product_fault item_num e))
  end.

(** [for idx, item in enumerate(items)], from index [idx] on. *)
Fixpoint validate_items_from (idx : nat) (items : list value) : M frame unit :=
  match items with
  | [] => ret tt
  | item :: rest =>
      validate_item idx item ;;; validate_items_from (S idx) rest
  end.

Definition validate_items (items : value) : M trace (list string) :=
  fun calls0 =>
    let '(r, fr) :=
      (its <- lift (py_iter py items) ;; validate_items_from 0 its)
        {| calls := calls0; errors := [] |} in
    (match r with Ok _ => Ok (errors fr) | Raise e => Raise e end, calls fr).

(** The loop of [validate_total_amount]: [calculated_total] after [items]. *)
Fixpoint calculate_total (items : list value) (calculated_total : float)
  : result float :=
  match items with
  | [] => Ok calculated_total
  | item :: rest =>
      has_price <- py_contains py "price" item ;;
      has_both <-
        (if has_price : bool
         then py_contains py "quantity" item else Ok false) ;;
      if has_both : bool then
        price <- (p <- py_getitem py item "price" ;; py_float py p) ;;
        quantity <- (q <- py_getitem py item "quantity" ;; py_int py q) ;;
        factor <- float_of_int quantity ;;
        calculate_total rest (calculated_total + price * factor)%float
      else calculate_total rest calculated_total
  end.

Definition total_mismatch (calculated_total order_total : float) : string :=
  fstr ["Total amount mismatch: expected "; fixed2 py calculated_total;
        ", received "; fixed2 py order_total].

Definition validate_total_amount (order : dict) : list string :=
  let outcome :=
    items <- py_iter py (dict_get_default "items" (VList []) order) ;;
    calculated_total <- calculate_total items 0%float ;;
    order_total <- py_float py (dict_get_default "totalAmount" (VInt 0) order) ;;
    Ok (calculated_total, order_total) in
  match outcome with
  | Ok (calculated_total, order_total) =>
      if differ calculated_total order_total
      then [total_mismatch calculated_total order_total]
      else []
  | Raise e => [fstr ["Error calculating total: "; exn_text e]]
  end.

Definition is_empty (errors : list string) : bool :=
  match errors with [] => true | _ => false end.

(** The three steps of [lambda_handler]: [validation_errors] as it stands
    where the response is built. *)
Definition collect_errors (event : dict) : M trace (list string) :=
  validation_errors <-
    entering "validate_required_fields" (ret (validate_required_fields event)) ;;
  validation_errors <-
    (if is_empty validation_errors then
       item_errors <-
         entering "validate_items"
           (validate_items (dict_get_default "items" (VList []) event)) ;;
       ret (validation_errors ++ item_errors)
     else ret validation_errors) ;;
  if is_empty validation_errors then
    amount_errors <-
      entering "validate_total_amount" (ret (validate_total_amount event)) ;;
    ret (validation_errors ++ amount_errors)
  else ret validation_errors.

Definition validation_result (context : lambda_context)
    (is_valid : bool) (validation_errors : list string) : value :=
  VDict [("isValid", VBool is_valid);
         ("errors", VList (map VStr validation_errors));
         ("validatedAt", request_id context);
         ("validatedBy", function_name context)].

Definition is_valid (validation_errors : list string) : bool :=
  (List.length validation_errors =? 0)%nat.

(** [{**event, 'validationResult': {...}}] *)
Definition response (event : dict) (context : lambda_context)
    (validation_errors : list string) : dict :=
  dict_set "validationResult"
    (validation_result context (is_valid validation_errors) validation_errors)
    (dict_update [] event).

Definition rejection (validation_errors : list string) : exn :=
  Exn ValueError
    (fstr ["Order validation failed: "; String.concat ", " validation_errors]).

(** The handler re-raises what it catches, so its [try] is not written. *)
Definition lambda_handler (event : dict) (context : lambda_context)
  : M trace dict :=
  validation_errors <- collect_errors event ;;
  let response := response event context validation_errors in
  if is_valid validation_errors then ret response
  else raise (rejection validation_errors).

End Handler.

End ValidateOrder.

(** * process_payment_handler/app.py *)

Module ProcessPayment.

(** What one payment reads from the clock and the random generator. *)
Record gateway : Type := {
  time_ms : Z;                 (* int(time.time() * 1000) *)
  utcnow_isoformat : string;   (* datetime.utcnow().isoformat() *)
  random_random : float;       (* random.random() *)
  random_below : nat           (* the draw behind random.choice *)
}.

(** [random.choice(options)] for the draw [n]. *)
Definition choice (options : list string) (n : nat) : string :=
  nth (n mod List.length options) options "".

(** [s[n:]] *)
Fixpoint string_from (n : nat) (s : string) : string :=
  match n, s with
  | O, _ => s
  | S n', String _ s' => string_from n' s'
  | S _, EmptyString => EmptyString
  end.

Definition failure_reasons : list string :=
  ["Insufficient funds"; "Card declined"; "Payment gateway timeout";
   "Invalid card details"; "Bank authorization failed"].

Section Handler.

Variable py : PyRuntime.
Variable g : gateway.

Definition generate_transaction_id (order_id user_id : value) : string :=
  let timestamp := dec (time_ms g) in
  let data := fstr [py_str py order_id; "-"; py_str py user_id; "-"; timestamp] in
  let hash_hex := sha256_hexdigest py data in
  fstr ["txn-"; substring 0 16 hash_hex].

Definition process_payment (order_id user_id amount : value) : result dict :=
  let transaction_id := generate_transaction_id order_id user_id in
  let is_successful := PrimFloat.ltb (random_random g) 0.90%float in
  if is_successful then
    amount_text <- py_fixed2 py amount ;;
    Ok [("status", VStr "success");
        ("transactionId", VStr transaction_id);
        ("processedAt", VStr (fstr [utcnow_isoformat g; "Z"]));
        ("provider", VStr "mock-payment-gateway");
        ("message",
         VStr (fstr ["Payment of $"; amount_text; " processed successfully"]));
        ("amount", amount);
        ("currency", VStr "USD")]
  else
    let failure_reason := choice failure_reasons (random_below g) in
    Ok [("status", VStr "failed");
        ("transactionId", VStr transaction_id);
        ("processedAt", VStr (fstr [utcnow_isoformat g; "Z"]));
        ("provider", VStr "mock-payment-gateway");
        ("message", VStr (fstr ["Payment failed: "; failure_reason]));
        ("failureReason", VStr failure_reason);
        ("amount", amount);
        ("currency", VStr "USD")].

(** The handler re-raises what it catches, so its [try] is not written. *)
Definition lambda_handler (event : dict) (context : lambda_context)
  : result dict :=
  let order_id := dict_get_default "orderId" VNone event in
  let user_id := dict_get_default "userId" VNone event in
  let total_amount := dict_get_default "totalAmount" (VInt 0) event in
  payment_result <- process_payment order_id user_id total_amount ;;
  let response :=
    dict_set "paymentResult" (VDict payment_result) (dict_update [] event) in
  status <- py_getitem py (VDict payment_result) "status" ;;
  if is_VStr "success" status then Ok response
  else
    message <- py_getitem py (VDict payment_result) "message" ;;
    Raise (Exn ValueError (fstr ["Payment failed: "; py_str py message])).

Definition refund_payment (transaction_id : string) (amount : value) : dict :=
  let refund_id := fstr ["ref-"; string_from 4 transaction_id] in
  [("status", VStr "refunded");
   ("refundId", VStr refund_id);
   ("originalTransactionId", VStr transaction_id);
   ("refundedAt", VStr (fstr [utcnow_isoformat g; "Z"]));
   ("amount", amount);
   ("message", VStr "Payment refunded successfully")].

End Handler.

End ProcessPayment.

(** * A CPython runtime

    An instance of [PyRuntime] after CPython 3.11, for running the handlers on
    concrete events: decimal numerals as [int()] and [float()] read them (with
    the limit of 4300 digits of [int()]), the shortest repr of a float and its [.2f] rendering, the
    text of the built-in exceptions, and SHA-256.  The theorems further down are
    stated for every runtime. *)

Module CPython.

Definition code (c : ascii) : nat := nat_of_ascii c.

(** The white space that [int()] and [float()] strip, for the characters below
    256: Py_ISSPACE (tab to carriage return, and the space), and the two spaces
    above 127, which are turned into " " before the text is read.  The
    separators 28 to 31 are kept as they are and make the numeral invalid. *)
Definition is_space (c : ascii) : bool :=
  let n := code c in
  (((9 <=? n) && (n <=? 13)) || (n =? 32) || (n =? 133) || (n =? 160))%nat.

Definition digit_value (c : ascii) : option Z :=
  let n := code c in
  if ((48 <=? n) && (n <=? 57))%nat then Some (Z.of_nat n - 48) else None.

Fixpoint strip_left (s : list ascii) : list ascii :=
  match s with
  | c :: s' => if is_space c then strip_left s' else s
  | [] => []
  end.

Definition strip (s : string) : list ascii :=
  rev (strip_left (rev (strip_left (list_ascii_of_string s)))).

(** The rest of a digitpart, right after one of its digits:
    [digit (["_"] digit)*].  Value, number of digits, what follows. *)
Fixpoint digitpart_rest (s : list ascii) (acc : Z) (n : nat)
  : Z * nat * list ascii :=
  match s with
  | c :: s' =>
      match digit_value c with
      | Some d => digitpart_rest s' (10 * acc + d) (S n)
      | None =>
          if Ascii.eqb c "_" then
            match s' with
            | c2 :: s'' =>
                match digit_value c2 with
                | Some d => digitpart_rest s'' (10 * acc + d) (S n)
                | None => (acc, n, s)
                end
            | [] => (acc, n, s)
            end
          else (acc, n, s)
      end
  | [] => (acc, n, s)
  end.

Definition digitpart (s : list ascii) : option (Z * nat * list ascii) :=
  match s with
  | c :: s' =>
      match digit_value c with
      | Some d => Some (digitpart_rest s' d 1%nat)
      | None => None
      end
  | [] => None
  end.

(** An optional sign: [true] for "-". *)
Definition sign (s : list ascii) : bool * list ascii :=
  match s with
  | c :: s' =>
      if Ascii.eqb c "-" then (true, s')
      else if Ascii.eqb c "+" then (false, s')
      else (false, s)
  | [] => (false, s)
  end.

(** sys.int_info.default_max_str_digits *)
Definition max_str_digits : nat := 4300.

(** The number of digits of a numeral that [int()] refuses for its length:
    the digits are counted, and the limit is checked, before what follows them
    is looked at. *)
Definition over_the_limit (s : string) : option nat :=
  let (_, body) := sign (strip s) in
  match digitpart body with
  | Some (_, digits, rest) =>
      match rest with
      | "_"%char :: _ => None
      | _ => if (max_str_digits <? digits)%nat then Some digits else None
      end
  | None => None
  end.

(** int(s) *)
Definition int_of_str (s : string) : option Z :=
  let (negative, body) := sign (strip s) in
  match digitpart body with
  | Some (n, digits, []) =>
      if (max_str_digits <? digits)%nat then None
      else Some (if negative then - n else n)
  | _ => None
  end.

(** The binary64 nearest to [m * 10^e]. *)
Definition float_of_decimal (m e : Z) : float :=
  if 0 <=? e then SF2Prim (binary_normalize prec emax (m * 10 ^ e) 0 false)
  else
    match m with
    | 0 => 0%float
    | Z.pos p =>
        SF2Prim (SFdiv prec emax (S754_finite false p 0)
                   (S754_finite false (Z.to_pos (10 ^ (- e))) 0))
    | Z.neg p =>
        SF2Prim (SFdiv prec emax (S754_finite true p 0)
                   (S754_finite false (Z.to_pos (10 ^ (- e))) 0))
    end.

Definition lower (c : ascii) : ascii :=
  let n := code c in
  if ((65 <=? n) && (n <=? 90))%nat then ascii_of_nat (n + 32) else c.

Definition is_word (w : string) (s : list ascii) : bool :=
  String.eqb w (string_of_list_ascii (map lower s)).

(** [number]: [[digitpart] "." digitpart | digitpart ["."]], as coefficient and
    exponent of ten. *)
Definition number (s : list ascii) : option (Z * Z * list ascii) :=
  match digitpart s with
  | Some (i, _, "."%char :: s') =>
      match digitpart s' with
      | Some (f, n, s'') =>
          Some (i * 10 ^ Z.of_nat n + f, - Z.of_nat n, s'')
      | None => Some (i, 0, s')
      end
  | Some (i, _, s') => Some (i, 0, s')
  | None =>
      match s with
      | "."%char :: s' =>
          match digitpart s' with
          | Some (f, n, s'') => Some (f, - Z.of_nat n, s'')
          | None => None
          end
      | _ => None
      end
  end.

(** [exponent]: [("e" | "E") [sign] digitpart], to the end of the text. *)
Definition exponent (s : list ascii) : option Z :=
  match s with
  | [] => Some 0
  | c :: s' =>
      if Ascii.eqb (lower c) "e" then
        let (negative, s'') := sign s' in
        match digitpart s'' with
        | Some (x, _, []) => Some (if negative then - x else x)
        | _ => None
        end
      else None
  end.

(** float(s) *)
Definition float_of_str (s : string) : option float :=
  let (negative, body) := sign (strip s) in
  let signed (f : float) := if negative then (- f)%float else f in
  if is_word "inf" body || is_word "infinity" body then Some (signed infinity)
  else if is_word "nan" body then Some nan
  else
    match number body with
    | Some (m, e, rest) =>
        match exponent rest with
        | Some x => Some (signed (float_of_decimal m (e + x)))
        | None => None
        end
    | None => None
    end.

(** *** Printing numbers *)

(** [a / b] rounded to the nearest integer, ties to even ([0 < b]). *)
Definition round_half_even (a b : Z) : Z :=
  let q := a / b in
  match 2 * (a mod b) ?= b with
  | Lt => q
  | Gt => q + 1
  | Eq => if Z.even q then q else q + 1
  end.

(** [num / den * 10^q] as a fraction. *)
Definition times_ten_to (q : Z) (x : Z * Z) : Z * Z :=
  let (num, den) := x in
  if 0 <=? q then (num * 10 ^ q, den) else (num, den * 10 ^ (- q)).

(** The value [m * 2^e] as a fraction. *)
Definition fraction (m : positive) (e : Z) : Z * Z :=
  if 0 <=? e then (Z.pos m * 2 ^ e, 1) else (Z.pos m, 2 ^ (- e)).

Definition zeros (n : Z) : string :=
  string_of_list_ascii (repeat "0"%char (Z.to_nat n)).

Definition two_digits (n : Z) : string :=
  if n <? 10 then fstr ["0"; dec n] else dec n.

(** [cents] hundredths, printed with two decimals. *)
Definition print_cents (negative : bool) (cents : Z) : string :=
  fstr [if negative then "-" else ""; dec (cents / 100); ".";
        two_digits (cents mod 100)].

(** f"{x:.2f}" *)
Definition fixed2 (x : float) : string :=
  match Prim2SF x with
  | S754_nan => "nan"
  | S754_infinity s => if s then "-inf" else "inf"
  | S754_zero s => print_cents s 0
  | S754_finite s m e =>
      let (a, b) := times_ten_to 2 (fraction m e) in
      print_cents s (round_half_even a b)
  end.

(** f"{d:.2f}" for the Decimal [m * 10^e] *)
Definition fixed2_decimal (m e : Z) : string :=
  let (a, b) := times_ten_to (e + 2) (Z.abs m, 1) in
  print_cents (m <? 0) (round_half_even a b).

(** The [k] with [10^(k-1) <= x < 10^k], looked for from [k] upwards. *)
Fixpoint decimal_point (fuel : nat) (x : Z * Z) (k : Z) : Z :=
  match fuel with
  | O => k
  | S fuel' =>
      let (a, b) := times_ten_to (- k) x in
      if a <? b then k else decimal_point fuel' x (k + 1)
  end.

Fixpoint strip_zeros (fuel : nat) (n e : Z) : Z * Z :=
  match fuel with
  | O => (n, e)
  | S fuel' =>
      if (n mod 10 =? 0) && negb (n =? 0)
      then strip_zeros fuel' (n / 10) (e + 1) else (n, e)
  end.

(** The shortest decimal [n * 10^q] that reads back as [x], of at most 17
    digits; of two of one length, the one nearer to [x]. *)
Fixpoint shortest (x : float) (v : Z * Z) (k : Z) (precisions : list Z)
  : Z * Z :=
  match precisions with
  | [] => (0, 0)
  | p :: more =>
      let q := k - p in
      let (a, b) := times_ten_to (- q) v in
      let near := round_half_even a b in
      let far := if near =? a / b then a / b + 1 else a / b in
      if PrimFloat.eqb (float_of_decimal near q) x then (near, q)
      else if PrimFloat.eqb (float_of_decimal far q) x then (far, q)
      else shortest x v k more
  end.

Definition exponent_text (x : Z) : string :=
  fstr ["e"; if x <? 0 then "-" else "+"; two_digits (Z.abs x)].

(** repr(x), str(x) *)
Definition repr_float (x : float) : string :=
  match Prim2SF x with
  | S754_nan => "nan"
  | S754_infinity s => if s then "-inf" else "inf"
  | S754_zero s => if s then "-0.0" else "0.0"
  | S754_finite s m e =>
      let v := fraction m e in
      let estimate :=
        (Z.log2 (fst v) - Z.log2 (snd v)) * 30103 / 100000 in
      let k := decimal_point 8 v (estimate - 2) in
      let (n0, q0) :=
        shortest (PrimFloat.abs x) v k (map Z.of_nat (seq 1 17)) in
      let (n, q) := strip_zeros 17 n0 q0 in
      let digits := dec n in
      let count := Z.of_nat (String.length digits) in
      let point := count + q in
      let body :=
        if (point <=? -4) || (16 <? point) then
          fstr [substring 0 1 digits;
                if count =? 1 then "" else ".";
                substring 1 (String.length digits) digits;
                exponent_text (point - 1)]
        else if point <=? 0 then fstr ["0."; zeros (- point); digits]
        else if count <=? point then fstr [digits; zeros (point - count); ".0"]
        else fstr [substring 0 (Z.to_nat point) digits; ".";
                   substring (Z.to_nat point) (String.length digits) digits] in
      fstr [if s then "-" else ""; body]
  end.

(** str(d) for the Decimal [m * 10^e] *)
Definition str_decimal (m e : Z) : string :=
  let digits := dec (Z.abs m) in
  let count := Z.of_nat (String.length digits) in
  let leftdigits := e + count in
  let dotplace := if (e <=? 0) && (-6 <? leftdigits) then leftdigits else 1 in
  let body :=
    if dotplace <=? 0 then fstr ["0."; zeros (- dotplace); digits]
    else if count <=? dotplace then fstr [digits; zeros (dotplace - count)]
    else fstr [substring 0 (Z.to_nat dotplace) digits; ".";
               substring (Z.to_nat dotplace) (String.length digits) digits] in
  let exp :=
    if leftdigits =? dotplace then ""
    else fstr ["E"; if leftdigits - dotplace <? 0 then "-" else "+";
               dec (Z.abs (leftdigits - dotplace))] in
  fstr [if m <? 0 then "-" else ""; body; exp].

(** *** repr of strings and containers *)

Definition hex_digit (n : nat) : string :=
  substring n 1 "0123456789abcdef".

Definition printable (c : ascii) : bool :=
  let n := code c in
  (((32 <=? n) && (n <? 127)) || ((161 <=? n) && negb (n =? 173)))%nat.

Definition escape (quote c : ascii) : string :=
  if Ascii.eqb c "\" then "\\"
  else if Ascii.eqb c quote then String "\" (String quote "")
  else if (code c =? 10)%nat then "\n"
  else if (code c =? 13)%nat then "\r"
  else if (code c =? 9)%nat then "\t"
  else if printable c then String c ""
  else fstr ["\x"; hex_digit (code c / 16); hex_digit (code c mod 16)].

Definition has (c : ascii) (s : string) : bool :=
  existsb (Ascii.eqb c) (list_ascii_of_string s).

Definition double_quote : ascii := ascii_of_nat 34.

(** repr(s) *)
Definition repr_str (s : string) : string :=
  let quote :=
    if has "'" s && negb (has double_quote s) then double_quote
    else "'"%char in
  fstr [String quote "";
        fstr (map (escape quote) (list_ascii_of_string s));
        String quote ""].

(** repr(v) *)
Fixpoint repr (v : value) : string :=
  match v with
  | VNone => "None"
  | VBool b => if b then "True" else "False"
  | VInt z => dec z
  | VFloat f => repr_float f
  | VDecimal m e => fstr ["Decimal('"; str_decimal m e; "')"]
  | VStr s => repr_str s
  | VList l => fstr ["["; String.concat ", " (map repr l); "]"]
  | VDict d =>
      fstr ["{";
            String.concat ", "
              (map (fun kv =>
                      match kv with
                      | (k, x) => fstr [repr_str k; ": "; repr x]
                      end) d);
            "}"]
  end.

(** str(v) for a Decimal, a list or a dict *)
Definition str_compound (v : value) : string :=
  match v with
  | VDecimal m e => str_decimal m e
  | _ => repr v
  end.

(** *** The text of the built-in exceptions *)

Definition type_name (v : value) : string :=
  match v with
  | VNone => "NoneType"
  | VBool _ => "bool"
  | VInt _ => "int"
  | VFloat _ => "float"
  | VDecimal _ _ => "decimal.Decimal"
  | VStr _ => "str"
  | VList _ => "list"
  | VDict _ => "dict"
  end.

Definition fault_text (operation : string) (v : value) : string :=
  if String.eqb operation "int" then
    match v with
    | VStr s =>
        match over_the_limit s with
        | Some digits =>
            fstr ["Exceeds the limit (4300 digits) for integer string conversion: value has ";
                  dec (Z.of_nat digits);
                  " digits; use sys.set_int_max_str_digits() to increase the limit"]
        | None =>
            fstr ["invalid literal for int() with base 10: "; repr_str s]
        end
    | _ => fstr ["int() argument must be a string, a bytes-like object or a real number, not '";
                 type_name v; "'"]
    end
  else if String.eqb operation "float" then
    match v with
    | VStr s => fstr ["could not convert string to float: "; repr_str s]
    | _ => fstr ["float() argument must be a string or a real number, not '";
                 type_name v; "'"]
    end
  else if String.eqb operation "format" then
    match v with
    | VStr _ => "Unknown format code 'f' for object of type 'str'"
    | _ => fstr ["unsupported format string passed to "; type_name v;
                 ".__format__"]
    end
  else if String.eqb operation "in" then
    fstr ["argument of type '"; type_name v; "' is not iterable"]
  else if String.eqb operation "key" then repr v
  else if String.eqb operation "getitem" then
    match v with
    | VList _ => "list indices must be integers or slices, not str"
    | VStr _ => "string indices must be integers, not 'str'"
    | _ => fstr ["'"; type_name v; "' object is not subscriptable"]
    end
  else fstr ["'"; type_name v; "' object is not iterable"].

(** *** SHA-256 (FIPS 180-4) *)

Definition word (x : Z) : Z := x mod 2 ^ 32.

Definition rotr (n x : Z) : Z :=
  word (Z.lor (Z.shiftr x n) (Z.shiftl x (32 - n))).

Definition xor3 (x y z : Z) : Z := Z.lxor (Z.lxor x y) z.

Definition Ch (x y z : Z) : Z :=
  Z.lxor (Z.land x y) (Z.land (Z.lxor x (2 ^ 32 - 1)) z).
Definition Maj (x y z : Z) : Z :=
  xor3 (Z.land x y) (Z.land x z) (Z.land y z).
Definition Sigma0 (x : Z) : Z := xor3 (rotr 2 x) (rotr 13 x) (rotr 22 x).
Definition Sigma1 (x : Z) : Z := xor3 (rotr 6 x) (rotr 11 x) (rotr 25 x).
Definition sigma0 (x : Z) : Z := xor3 (rotr 7 x) (rotr 18 x) (Z.shiftr x 3).
Definition sigma1 (x : Z) : Z := xor3 (rotr 17 x) (rotr 19 x) (Z.shiftr x 10).

Definition K256 : list Z :=
  [1116352408; 1899447441; 3049323471; 3921009573; 961987163; 1508970993;
   2453635748; 2870763221; 3624381080; 310598401; 607225278; 1426881987;
   1925078388; 2162078206; 2614888103; 3248222580; 3835390401; 4022224774;
   264347078; 604807628; 770255983; 1249150122; 1555081692; 1996064986;
   2554220882; 2821834349; 2952996808; 3210313671; 3336571891; 3584528711;
   113926993; 338241895; 666307205; 773529912; 1294757372; 1396182291;
   1695183700; 1986661051; 2177026350; 2456956037; 2730485921; 2820302411;
   3259730800; 3345764771; 3516065817; 3600352804; 4094571909; 275423344;
   430227734; 506948616; 659060556; 883997877; 958139571; 1322822218;
   1537002063; 1747873779; 1955562222; 2024104815; 2227730452; 2361852424;
   2428436474; 2756734187; 3204031479; 3329325298].

Definition H256 : list Z :=
  [1779033703; 3144134277; 1013904242; 2773480762; 1359893119; 2600822924;
   528734635; 1541459225].

(** str.encode(): UTF-8 of the characters below 256 *)
Definition utf8 (s : string) : list Z :=
  flat_map
    (fun c =>
       let n := Z.of_nat (code c) in
       if n <? 128 then [n] else [192 + n / 64; 128 + n mod 64])
    (list_ascii_of_string s).

Fixpoint big_endian (bytes : nat) (x : Z) : list Z :=
  match bytes with
  | O => []
  | S b => (x / 256 ^ Z.of_nat b) mod 256 :: big_endian b x
  end.

Definition padded (message : list Z) : list Z :=
  let l := Z.of_nat (List.length message) in
  message ++ [128] ++ repeat 0 (Z.to_nat ((55 - l) mod 64))
          ++ big_endian 8 (8 * l).

Fixpoint words_of (fuel : nat) (bytes : list Z) : list Z :=
  match fuel, bytes with
  | S fuel', a :: b :: c :: d :: rest =>
      (((a * 256 + b) * 256 + c) * 256 + d) :: words_of fuel' rest
  | _, _ => []
  end.

(** The message schedule, grown from its first sixteen words. *)
Fixpoint schedule (more : nat) (w : list Z) : list Z :=
  match more with
  | O => w
  | S more' =>
      let t := List.length w in
      let at_ (i : nat) := nth (t - i) w 0 in
      schedule more'
        (w ++ [word (sigma1 (at_ 2%nat) + at_ 7%nat
                     + sigma0 (at_ 15%nat) + at_ 16%nat)])
  end.

Definition round (h : list Z) (kw : Z * Z) : list Z :=
  match h with
  | [a; b; c; d; e; f; g; h'] =>
      let t1 := h' + Sigma1 e + Ch e f g + fst kw + snd kw in
      let t2 := Sigma0 a + Maj a b c in
      [word (t1 + t2); a; b; c; word (d + t1); e; f; g]
  | _ => h
  end.

Definition compress (h : list Z) (block : list Z) : list Z :=
  let w := schedule 48 block in
  map (fun xy => word (fst xy + snd xy))
      (combine h (fold_left round (combine K256 w) h)).

Fixpoint blocks (fuel : nat) (h : list Z) (ws : list Z) : list Z :=
  match fuel, ws with
  | S fuel', _ :: _ => blocks fuel' (compress h (firstn 16 ws)) (skipn 16 ws)
  | _, _ => h
  end.

Definition hex (x : Z) : string :=
  fstr (map (fun b => fstr [hex_digit (Z.to_nat (b / 16));
                            hex_digit (Z.to_nat (b mod 16))])
            (big_endian 4 x)).

(** hashlib.sha256(data.encode()).hexdigest() *)
Definition sha256_hexdigest (data : string) : string :=
  let bytes := padded (utf8 data) in
  let ws := words_of (List.length bytes) bytes in
  fstr (map hex (blocks (List.length ws) H256 ws)).

End CPython.

Definition cpython : PyRuntime := {|
  int_of_str := CPython.int_of_str;
  float_of_str := CPython.float_of_str;
  float_of_decimal := CPython.float_of_decimal;
  repr_float := CPython.repr_float;
  fixed2 := CPython.fixed2;
  fixed2_decimal := CPython.fixed2_decimal;
  str_compound := CPython.str_compound;
  fault_text := CPython.fault_text;
  sha256_hexdigest := CPython.sha256_hexdigest
|}.

(** * Sample data

    The table as [seed_products.py] fills it, and an order for it. *)

Module Sample.

Definition product (product_id name : string) (price stock : Z)
    (description : string) : string * dict :=
  (product_id,
   [("productId", VStr product_id); ("name", VStr name);
    ("price", VDecimal price 0); ("description", VStr description);
    ("stock", VDecimal stock 0)]).

Definition products : list (string * dict) :=
  [product "p1" "High-End Laptop" 1200 10
     "Powerful laptop for developers and creators.";
   product "p2" "Wireless Mouse" 25 50
     "Ergonomic wireless mouse with long battery life.";
   product "p3" "Mechanical Keyboard" 75 20
     "RGB backlit mechanical keyboard with blue switches."].

Fixpoint find (key : string) (rows : list (string * dict)) : lookup :=
  match rows with
  | [] => NoItem
  | (k, row) :: rows' => if String.eqb key k then Item row else find key rows'
  end.

(** The seeded table; a key that is not a string is refused. *)
Definition table (_ : trace) (key : value) : lookup :=
  match key with
  | VStr k => find k products
  | _ =>
      Fails (Exn ClientError
               "An error occurred (ValidationException) when calling the GetItem operation: The provided key element does not match the schema")
  end.

(** The table while the service cannot be reached. *)
Definition unreachable (_ : trace) (_ : value) : lookup :=
  Fails (Exn ClientError "Could not connect to the endpoint URL").

Definition context : lambda_context :=
  {| request_id := VStr "test-request-123";
     function_name := VStr "test-validate-order" |}.

Definition priced (product_id : string) (quantity : value) (price : float)
  : value :=
  VDict [("productId", VStr product_id); ("quantity", quantity);
         ("price", VFloat price)].

Definition unpriced (product_id : string) (quantity : value) : value :=
  VDict [("productId", VStr product_id); ("quantity", quantity)].

Definition order (items : value) (total : value) : dict :=
  [("orderId", VStr "order-test-001"); ("userId", VStr "user-123");
   ("items", items); ("totalAmount", total)].

(** Two wireless mice at the catalog price. *)
Definition two_mice : dict :=
  order (VList [priced "p2" (VInt 2) 25]) (VFloat 50).

Definition gateway_ok : ProcessPayment.gateway :=
  {| ProcessPayment.time_ms := 1700000000000;
     ProcessPayment.utcnow_isoformat := "2024-01-16T10:00:00.000000";
     ProcessPayment.random_random := 0.25;
     ProcessPayment.random_below := 0 |}.

Definition gateway_declined : ProcessPayment.gateway :=
  {| ProcessPayment.time_ms := 1700000000000;
     ProcessPayment.utcnow_isoformat := "2024-01-16T10:00:00.000000";
     ProcessPayment.random_random := 0.95;
     ProcessPayment.random_below := 1 |}.

End Sample.

(** * Vocabulary of the properties

    What the statements further down are written with.  Nothing here is part
    of the program. *)

Section Vocabulary.

Import ValidateOrder.

Variable py : PyRuntime.
Variable table : trace -> value -> lookup.

(** The position an error names: [idx + 1]. *)
Definition position (idx : nat) : Z := Z.of_nat idx + 1.

(** [msg] names the item at index [idx]: it starts with "Item <idx + 1>: ". *)
Definition names_item (idx : nat) (msg : string) : Prop :=
  exists text,
    msg = (fstr ["Item "; dec (position idx); ": "] ++ text)%string.

(** One item adds at most one call, a [get_item], and only appends errors,
    each of which names the item. *)
Definition grows (idx : nat) (fr fr' : frame) : Prop :=
  (calls fr' = calls fr \/ exists key, calls fr' = calls fr ++ [GetItem key])
  /\ exists added,
       errors fr' = errors fr ++ added /\ Forall (names_item idx) added.

(** What the stock check of an item adds, for the product found. *)
Definition stock_finding (idx : nat) (product_id : value) (quantity : Z)
    (product : dict) : result (list string) :=
  match dict_get "stock" product with
  | Some stock =>
      match py_int py stock with
      | Ok available_stock =>
          Ok (if available_stock <? quantity
              then [insufficient_stock py (position idx) product_id quantity
                      available_stock]
              else [])
      | Raise e => Raise e
      end
  | None => Ok []
  end.

(** What the price check of an item adds, for the product found. *)
Definition price_finding (idx : nat) (product_id : value) (item product : dict)
  : result (list string) :=
  match dict_get "price" item with
  | Some price =>
      match py_float py (dict_get_default "price" (VInt 0) product) with
      | Ok db_price =>
          match py_float py price with
          | Ok order_price =>
              Ok (if differ db_price order_price
                  then [price_mismatch py (position idx) product_id db_price
                          order_price]
                  else [])
          | Raise e => Raise e
          end
      | Raise e => Raise e
      end
  | None => Ok []
  end.

(** What the catalog part of the loop body adds, for the answer of the table:
    a fault of the call or of a conversion becomes the item's last error. *)
Definition catalog_findings (idx : nat) (product_id : value) (quantity : Z)
    (item : dict) (answer : lookup) : list string :=
  match answer with
  | Fails e => [product_fault (position idx) e]
  | NoItem => [product_not_found py (position idx) product_id]
  | Item product =>
      match stock_finding idx product_id quantity product with
      | Raise e => [product_fault (position idx) e]
      | Ok stock_errors =>
          stock_errors ++
          match price_finding idx product_id item product with
          | Raise e => [product_fault (position idx) e]
          | Ok price_errors => price_errors
          end
      end
  end.

(** The runs of the three steps on [event] from the trace [t0]: the outcome and
    the trace of each. *)
Inductive steps (event : dict) (t0 : trace)
  : result (list string) -> trace -> Prop :=
| stops_at_fields :
    validate_required_fields event <> [] ->
    steps event t0 (Ok (validate_required_fields event))
      (t0 ++ [Enter "validate_required_fields"])
| faults_in_items (e : exn) (keys : list value) :
    validate_required_fields event = [] ->
    ValidateOrder.validate_items py table
      (dict_get_default "items" (VList []) event)
      ((t0 ++ [Enter "validate_required_fields"]) ++ [Enter "validate_items"])
    = (Raise e,
       ((t0 ++ [Enter "validate_required_fields"]) ++ [Enter "validate_items"])
       ++ map GetItem keys) ->
    steps event t0 (Raise e)
      (((t0 ++ [Enter "validate_required_fields"]) ++ [Enter "validate_items"])
       ++ map GetItem keys)
| stops_at_items (item_errors : list string) (keys : list value) :
    validate_required_fields event = [] ->
    ValidateOrder.validate_items py table
      (dict_get_default "items" (VList []) event)
      ((t0 ++ [Enter "validate_required_fields"]) ++ [Enter "validate_items"])
    = (Ok item_errors,
       ((t0 ++ [Enter "validate_required_fields"]) ++ [Enter "validate_items"])
       ++ map GetItem keys) ->
    item_errors <> [] ->
    steps event t0 (Ok item_errors)
      (((t0 ++ [Enter "validate_required_fields"]) ++ [Enter "validate_items"])
       ++ map GetItem keys)
| reaches_total (keys : list value) :
    validate_required_fields event = [] ->
    ValidateOrder.validate_items py table
      (dict_get_default "items" (VList []) event)
      ((t0 ++ [Enter "validate_required_fields"]) ++ [Enter "validate_items"])
    = (Ok [],
       ((t0 ++ [Enter "validate_required_fields"]) ++ [Enter "validate_items"])
       ++ map GetItem keys) ->
    steps event t0 (Ok (validate_total_amount py event))
      ((((t0 ++ [Enter "validate_required_fields"]) ++ [Enter "validate_items"])
        ++ map GetItem keys) ++ [Enter "validate_total_amount"]).

End Vocabulary.

(** A required field is missing when its key is absent or holds [None]. *)
Definition field_missing (order : dict) (field : string) : bool :=
  match dict_get field order with
  | None | Some VNone => true
  | Some _ => false
  end.

Definition missing_field (field : string) : string :=
  fstr ["Missing required field: "; field].

(** What the check says about the shape of 'items'. *)
Definition items_shape (order : dict) : list string :=
  match dict_get "items" order with
  | Some (VList []) => ["Order must contain at least one item"]
  | Some (VList (_ :: _)) => []
  | Some _ => ["Items must be an array"]
  | None => []
  end.

(** The charge the payment handler asks for. *)
Definition charge (py : PyRuntime) (g : ProcessPayment.gateway) (event : dict)
  : result dict :=
  ProcessPayment.process_payment py g
    (dict_get_default "orderId" VNone event)
    (dict_get_default "userId" VNone event)
    (dict_get_default "totalAmount" (VInt 0) event).

(** The outcomes and the failure reasons as the specification names them, and
    the text a payment result has for each. *)
Inductive payment_status : Type := Succeeded | Failed.

Inductive failure_reason : Type :=
| InsufficientFunds
| CardDeclined
| GatewayTimeout
| InvalidCardDetails
| BankAuthorizationFailure.

Definition status_named (s : string) : option payment_status :=
  if String.eqb s "success" then Some Succeeded
  else if String.eqb s "failed" then Some Failed
  else None.

Definition reason_named (s : string) : option failure_reason :=
  if String.eqb s "Insufficient funds" then Some InsufficientFunds
  else if String.eqb s "Card declined" then Some CardDeclined
  else if String.eqb s "Payment gateway timeout" then Some GatewayTimeout
  else if String.eqb s "Invalid card details" then Some InvalidCardDetails
  else if String.eqb s "Bank authorization failed"
       then Some BankAuthorizationFailure
  else None.

(** The status of a payment result. *)
Definition status_of (p : dict) : option payment_status :=
  match dict_get "status" p with
  | Some (VStr s) => status_named s
  | _ => None
  end.

(** The failure reason of a payment result. *)
Definition reason_of (p : dict) : option failure_reason :=
  match dict_get "failureReason" p with
  | Some (VStr s) => reason_named s
  | _ => None
  end.

Section Acceptance.

Variable py : PyRuntime.
Variable table : trace -> value -> lookup.

(** An item on which the check of the items finds nothing, when the calls made
    before its turn are [t]: a dict with a productId [product_id] and a
    quantity that is read as a positive integer, whose product the table has,
    in sufficient stock where the stock is tracked, and at the claimed price
    where the item claims one. *)
Definition clean_item (item : value) (t : trace) (product_id : value) : Prop :=
  exists d q quantity product,
    item = VDict d
    /\ dict_get "productId" d = Some product_id
    /\ dict_get "quantity" d = Some q
    /\ py_int py q = Ok quantity
    /\ 0 < quantity
    /\ table t product_id = Item product
    /\ (dict_get "stock" product = None
        \/ exists stock available_stock,
             dict_get "stock" product = Some stock
             /\ py_int py stock = Ok available_stock
             /\ quantity <= available_stock)
    /\ (dict_get "price" d = None
        \/ exists price db_price order_price,
             dict_get "price" d = Some price
             /\ py_float py (dict_get_default "price" (VInt 0) product)
                = Ok db_price
             /\ py_float py price = Ok order_price
             /\ differ db_price order_price = false).

(** Items that are clean one after the other, [keys] being their
    productIds: each is looked up after the calls for those before it. *)
Fixpoint clean_items (items : list value) (t : trace) (keys : list value)
  : Prop :=
  match items, keys with
  | [], [] => True
  | item :: rest, key :: keys' =>
      clean_item item t key /\ clean_items rest (t ++ [GetItem key]) keys'
  | _, _ => False
  end.

(** A value on which [in] raises: a number, a boolean or None. *)
Definition is_scalar (v : value) : bool :=
  match v with
  | VNone | VBool _ | VInt _ | VFloat _ | VDecimal _ _ => true
  | _ => false
  end.

End Acceptance.

(** The number a value stands for, as a fraction with a positive denominator:
    an int, a Decimal [coefficient * 10^exponent], a finite binary64
    [m * 2^e].  No rounding is involved. *)
Definition fraction_of_float (f : float) : option (Z * Z) :=
  match Prim2SF f with
  | S754_zero _ => Some (0, 1)
  | S754_finite s m e =>
      let n := if s then Z.neg m else Z.pos m in
      Some (if 0 <=? e then (n * 2 ^ e, 1) else (n, 2 ^ (- e)))
  | _ => None
  end.

Definition fraction_of (v : value) : option (Z * Z) :=
  match v with
  | VInt z => Some (z, 1)
  | VDecimal m e =>
      Some (if 0 <=? e then (m * 10 ^ e, 1) else (m, 10 ^ (- e)))
  | VFloat f => fraction_of_float f
  | _ => None
  end.

(** [|a - b| <= 1/100], on fractions. *)
Definition within_a_cent (a b : Z * Z) : bool :=
  let (na, da) := a in
  let (nb, db) := b in
  100 * Z.abs (na * db - nb * da) <=? da * db.

(** [|a - b| >= 5764607523034236 / 2^59], on fractions: the two are apart by
    the binary64 next above 0.01 (0.0100000000000000019...) or more. *)
Definition a_cent_apart (a b : Z * Z) : bool :=
  let (na, da) := a in
  let (nb, db) := b in
  5764607523034236 * (da * db) <=? 2 ^ 59 * Z.abs (na * db - nb * da).

(** ** The binary64 subtraction, for the proofs

    The binary64 0.01 as sign, mantissa and exponent; the last step of the
    rounding of [SpecFloat.binary_round_aux] under a name; the value of a
    binary64 in units of [2^-k], and its exponent. *)
Definition cent : spec_float := S754_finite false 5764607523034235 (-59).

Definition finish (sx : bool) (m2 E : Z) : spec_float :=
  let '(mrs, e) := shr_fexp prec emax m2 E loc_Exact in
  match shr_m mrs with
  | Z0 => S754_zero sx
  | Zpos m => if Z.leb e (emax - prec) then S754_finite sx m e
              else S754_infinity sx
  | _ => S754_nan
  end.

Definition scaled (k : Z) (x : spec_float) : Z :=
  match x with
  | S754_finite s m e => cond_Zopp s (Z.pos m) * 2 ^ (e + k)
  | _ => 0
  end.

Definition exponent_of (x : spec_float) : Z :=
  match x with S754_finite _ _ e => e | _ => 0 end.

(** * Properties *)

(** ** Strings *)

Lemma string_app_assoc (a b c : string) :
  ((a ++ b) ++ c = a ++ (b ++ c))%string.
Proof. induction a as [|x a IH]; cbn; [reflexivity | now rewrite IH]. Qed.

(** ** Dicts *)

Lemma dict_get_set_same (k : string) (v : value) (d : dict) :
  dict_get k (dict_set k v d) = Some v.
Proof.
  induction d as [|[k' v'] d IH]; simpl.
  - now rewrite String.eqb_refl.
  - destruct (String.eqb k k') eqn:E; simpl; rewrite E; auto.
Qed.

Lemma dict_get_set_other (k k' : string) (v : value) (d : dict) :
  k' <> k -> dict_get k' (dict_set k v d) = dict_get k' d.
Proof.
  intros Hne. induction d as [|[k0 v0] d IH]; simpl.
  - destruct (String.eqb k' k) eqn:E; auto.
    apply String.eqb_eq in E. contradiction.
  - destruct (String.eqb k k0) eqn:E; simpl.
    + apply String.eqb_eq in E. subst k0.
      destruct (String.eqb k' k) eqn:E'; auto.
      apply String.eqb_eq in E'. contradiction.
    + now rewrite IH.
Qed.

Lemma dict_get_None_not_in (k : string) (d : dict) :
  dict_get k d = None <-> ~ In k (dict_keys d).
Proof.
  induction d as [|[k' v'] d IH]; simpl.
  - tauto.
  - destruct (String.eqb k k') eqn:E.
    + apply String.eqb_eq in E. subst. split; [discriminate | tauto].
    + apply String.eqb_neq in E. rewrite IH. split.
      * intros H [H'|H']; [congruence | tauto].
      * tauto.
Qed.

Lemma dict_set_absent (k : string) (v : value) (d : dict) :
  dict_get k d = None -> dict_set k v d = d ++ [(k, v)].
Proof.
  induction d as [|[k' v'] d IH]; simpl; auto.
  destruct (String.eqb k k'); [discriminate|].
  intros H. now rewrite IH.
Qed.

Lemma dict_update_app (base more : dict) :
  (forall k, In k (dict_keys more) -> ~ In k (dict_keys base)) ->
  dict_wf more ->
  dict_update base more = base ++ more.
Proof.
  unfold dict_update, dict_wf, dict_keys.
  revert base. induction more as [|[k v] more IH]; intros base Hdisj Hwf; simpl.
  - now rewrite app_nil_r.
  - inversion Hwf as [|? ? Hnotin Hwf']; subst.
    rewrite dict_set_absent.
    + rewrite IH; auto.
      * now rewrite <- app_assoc.
      * intros k' Hin. rewrite map_app, in_app_iff. simpl.
        intros [H|[H|[]]].
        -- apply (Hdisj k'); simpl; auto.
        -- subst k'. contradiction.
    + apply dict_get_None_not_in. apply Hdisj. simpl. auto.
Qed.

(** [{**event}] is [event] again. *)
Lemma dict_update_copy (event : dict) :
  dict_wf event -> dict_update [] event = event.
Proof.
  intros Hwf. rewrite dict_update_app; auto.
Qed.

(** ** The validator: what one item does to the frame *)

Section ValidatorFacts.

Import ValidateOrder.

Arguments missing_product_id : simpl never.
Arguments missing_quantity : simpl never.
Arguments quantity_not_positive : simpl never.
Arguments invalid_quantity : simpl never.
Arguments product_not_found : simpl never.
Arguments insufficient_stock : simpl never.
Arguments price_mismatch : simpl never.
Arguments product_fault : simpl never.

Variable py : PyRuntime.
Variable table : trace -> value -> lookup.

Abbreviation validate_item := (validate_item py table).
Abbreviation validate_items_from := (validate_items_from py table).

Ltac names_item_by_unfolding :=
  unfold names_item, position, fstr; eexists; cbn;
  rewrite string_app_assoc; cbn; reflexivity.

Lemma names_missing_product_id (idx : nat) :
  names_item idx (missing_product_id (Z.of_nat idx + 1)).
Proof. unfold missing_product_id. names_item_by_unfolding. Qed.

Lemma names_missing_quantity (idx : nat) :
  names_item idx (missing_quantity (Z.of_nat idx + 1)).
Proof. unfold missing_quantity. names_item_by_unfolding. Qed.

Lemma names_quantity_not_positive (idx : nat) :
  names_item idx (quantity_not_positive (Z.of_nat idx + 1)).
Proof. unfold quantity_not_positive. names_item_by_unfolding. Qed.

Lemma names_invalid_quantity (idx : nat) :
  names_item idx (invalid_quantity (Z.of_nat idx + 1)).
Proof. unfold invalid_quantity. names_item_by_unfolding. Qed.

Lemma names_product_not_found (idx : nat) (product_id : value) :
  names_item idx (product_not_found py (Z.of_nat idx + 1) product_id).
Proof. unfold product_not_found. names_item_by_unfolding. Qed.

Lemma names_insufficient_stock (idx : nat) (product_id : value) (q a : Z) :
  names_item idx (insufficient_stock py (Z.of_nat idx + 1) product_id q a).
Proof. unfold insufficient_stock. names_item_by_unfolding. Qed.

Lemma names_price_mismatch (idx : nat) (product_id : value) (a b : float) :
  names_item idx (price_mismatch py (Z.of_nat idx + 1) product_id a b).
Proof. unfold price_mismatch. names_item_by_unfolding. Qed.

Lemma names_product_fault (idx : nat) (e : exn) :
  names_item idx (product_fault (Z.of_nat idx + 1) e).
Proof. unfold product_fault. names_item_by_unfolding. Qed.

Create HintDb item_errors.
#[local] Hint Resolve names_missing_product_id names_missing_quantity
  names_quantity_not_positive names_invalid_quantity names_product_not_found
  names_insufficient_stock names_price_mismatch names_product_fault
  : item_errors.

(** Case analysis on the innermost scrutinee of the goal. *)
Ltac run_step :=
  match goal with
  | |- context [match ?x with _ => _ end] =>
      lazymatch x with
      | context [match _ with _ => _ end] => fail
      | _ => idtac
      end;
      match type of x with
      | result _ => destruct x eqn:?
      | option _ => destruct x eqn:?
      | bool => destruct x eqn:?
      | lookup => destruct x eqn:?
      | exn_class => destruct x eqn:?
      end
  end.

Lemma validate_item_grows (idx : nat) (item : value) (fr : frame) :
  grows idx fr (snd (validate_item idx item fr)).
Proof.
  unfold validate_item, grows, try_except, lift, raise, append_error, modify,
    get_item, is_ValueError_or_TypeError.
  cbn.
  repeat (run_step; cbn).
  all: split;
    [ first [ left; reflexivity | right; eexists; reflexivity ]
    | rewrite <- ?app_assoc;
      first [ eexists; split; [reflexivity|]
            | exists []; split; [now rewrite app_nil_r|] ];
      repeat constructor; auto with item_errors ].
Qed.


(** An item whose quantity is read as the integer [quantity]: one call to the
    table, and the errors of the quantity and of the catalog, in this order. *)
Lemma validate_item_parsed (idx : nat) (item : dict) (fr : frame)
    (product_id q : value) (quantity : Z) :
  dict_get "productId" item = Some product_id ->
  dict_get "quantity" item = Some q ->
  py_int py q = Ok quantity ->
  validate_item idx (VDict item) fr =
    (Ok tt,
     {| calls := calls fr ++ [GetItem product_id];
        errors :=
          errors fr
          ++ (if quantity <=? 0 then [quantity_not_positive (position idx)]
              else [])
          ++ catalog_findings py idx product_id quantity item
               (table (calls fr) product_id) |}).
Proof.
  intros Hp Hq Hi.
  unfold validate_item, catalog_findings, stock_finding, price_finding,
    try_except, lift, raise, append_error, modify, get_item, position.
  cbn. unfold dict_mem. rewrite Hp, Hq. cbn. rewrite Hi. cbn.
  repeat (run_step; cbn).
  all: rewrite <- ?app_assoc, ?app_nil_r; reflexivity.
Qed.

(** An item whose quantity [int()] refuses with a ValueError or a TypeError:
    one error, no call. *)
Lemma validate_item_unparsed (idx : nat) (item : value) (fr : frame) (e : exn) :
  py_contains py "productId" item = Ok true ->
  py_contains py "quantity" item = Ok true ->
  (q <- py_getitem py item "quantity" ;; py_int py q) = Raise e ->
  is_ValueError_or_TypeError e = true ->
  validate_item idx item fr =
    (Ok tt,
     {| calls := calls fr;
        errors := errors fr ++ [invalid_quantity (position idx)] |}).
Proof.
  intros Hp Hq Hi He.
  unfold validate_item, try_except, lift, raise, append_error, modify.
  cbn. rewrite Hp. cbn. rewrite Hq. cbn.
  cbn in Hi. rewrite Hi. cbn. rewrite He. reflexivity.
Qed.

(** An item whose quantity [int()] refuses with another exception: the
    exception leaves the loop, nothing is recorded. *)
Lemma validate_item_escapes (idx : nat) (item : value) (fr : frame) (e : exn) :
  py_contains py "productId" item = Ok true ->
  py_contains py "quantity" item = Ok true ->
  (q <- py_getitem py item "quantity" ;; py_int py q) = Raise e ->
  is_ValueError_or_TypeError e = false ->
  validate_item idx item fr = (Raise e, fr).
Proof.
  intros Hp Hq Hi He.
  unfold validate_item, try_except, lift, raise, append_error, modify.
  cbn. rewrite Hp. cbn. rewrite Hq. cbn.
  cbn in Hi. rewrite Hi. cbn. rewrite He. reflexivity.
Qed.


(** ** The loop over the items *)

Lemma validate_items_from_cons (idx : nat) (x : value) (xs : list value)
    (fr : frame) :
  validate_items_from idx (x :: xs) fr =
    match validate_item idx x fr with
    | (Ok _, fr1) => validate_items_from (S idx) xs fr1
    | (Raise e, fr1) => (Raise e, fr1)
    end.
Proof.
  cbn. destruct (ValidateOrder.validate_item py table idx x fr) as [[u|e] fr1];
    reflexivity.
Qed.

Lemma validate_items_from_app (idx : nat) (xs ys : list value) (fr : frame) :
  validate_items_from idx (xs ++ ys) fr =
    match validate_items_from idx xs fr with
    | (Ok _, fr1) => validate_items_from (idx + List.length xs) ys fr1
    | (Raise e, fr1) => (Raise e, fr1)
    end.
Proof.
  revert idx fr. induction xs as [|x xs IH]; intros idx fr.
  - cbn. now rewrite Nat.add_0_r.
  - rewrite <- app_comm_cons, !validate_items_from_cons.
    destruct (validate_item idx x fr) as [[u|e] fr1]; auto.
    rewrite IH. cbn [List.length]. now rewrite Nat.add_succ_r.
Qed.

(** The loop only calls [get_item]; the errors it appends come in groups, one
    group for each item it reaches, in the order of the items. *)
Lemma validate_items_from_grows (idx : nat) (items : list value) (fr : frame) :
  exists keys groups,
    calls (snd (validate_items_from idx items fr))
      = calls fr ++ map GetItem keys
    /\ errors (snd (validate_items_from idx items fr))
       = errors fr ++ List.concat groups
    /\ (List.length groups <= List.length items)%nat
    /\ forall i group,
         nth_error groups i = Some group ->
         Forall (names_item (idx + i)) group.
Proof.
  revert idx fr. induction items as [|x xs IH]; intros idx fr.
  - exists [], []. cbn. rewrite !app_nil_r. repeat split; auto.
    intros [|i] group; discriminate.
  - rewrite validate_items_from_cons.
    pose proof (validate_item_grows idx x fr) as [Hc (a1 & He & Hn)].
    destruct (validate_item idx x fr) as [[u|e] fr1]; cbn [snd] in *.
    + destruct (IH (S idx) fr1) as (keys & groups & Hc2 & He2 & Hl & Hg).
      rewrite Hc2, He2, He.
      assert (Hgroups : forall i group,
                 nth_error (a1 :: groups) i = Some group ->
                 Forall (names_item (idx + i)) group).
      { intros [|i] group Hi; cbn in Hi.
        - inversion Hi. subst. now rewrite Nat.add_0_r.
        - rewrite Nat.add_succ_r. now apply (Hg i). }
      destruct Hc as [Hc|[key Hc]]; rewrite Hc.
      * exists keys, (a1 :: groups). cbn [List.concat List.length].
        rewrite <- app_assoc. repeat split; auto. lia.
      * exists (key :: keys), (a1 :: groups). cbn [List.concat List.length map].
        rewrite <- !app_assoc. repeat split; auto. lia.
    + rewrite He.
      assert (Hgroups : forall i group,
                 nth_error [a1] i = Some group ->
                 Forall (names_item (idx + i)) group).
      { intros [|[|i]] group Hi; cbn in Hi; try discriminate.
        inversion Hi. subst. now rewrite Nat.add_0_r. }
      destruct Hc as [Hc|[key Hc]]; rewrite Hc.
      * exists [], [a1]. cbn. rewrite !app_nil_r. repeat split; auto. lia.
      * exists [key], [a1]. cbn. rewrite !app_nil_r. repeat split; auto. lia.
Qed.

Lemma validate_items_calls (items : value) (t : trace) :
  exists keys,
    snd (ValidateOrder.validate_items py table items t) = t ++ map GetItem keys.
Proof.
  unfold ValidateOrder.validate_items. cbn.
  destruct (py_iter py items) as [its|e]; cbn.
  - destruct (validate_items_from_grows 0 its {| calls := t; errors := [] |})
      as (keys & groups & Hc & _).
    destruct (validate_items_from 0 its _) as [[u|e] fr1]; cbn in *;
      exists keys; exact Hc.
  - exists []. cbn. now rewrite app_nil_r.
Qed.

(** ** The three steps of the handler *)

Lemma collect_errors_steps (event : dict) (t0 : trace) :
  steps py table event t0 (fst (collect_errors py table event t0))
    (snd (collect_errors py table event t0)).
Proof.
  unfold collect_errors, entering, modify. cbn.
  destruct (validate_required_fields event) as [|m ms] eqn:E1; cbn.
  - pose proof (validate_items_calls (dict_get_default "items" (VList []) event)
      ((t0 ++ [Enter "validate_required_fields"]) ++ [Enter "validate_items"]))
      as [keys Hk].
    destruct (ValidateOrder.validate_items py table _ _) as [[e2|e] t2] eqn:E2;
      cbn in *; subst t2.
    + destruct e2 as [|m ms]; cbn.
      * now apply reaches_total.
      * apply stops_at_items; [assumption | exact E2 | discriminate].
    + now apply faults_in_items.
  - rewrite <- E1. apply stops_at_fields. rewrite E1. discriminate.
Qed.

End ValidatorFacts.

(** ** The structural check *)

Section Structure.

Import ValidateOrder.

Lemma fold_left_appends {A B : Type} (p : A -> bool) (g : A -> B)
    (f : list B -> A -> list B) (l : list A) (acc : list B) :
  (forall acc x, f acc x = if p x then acc ++ [g x] else acc) ->
  fold_left f l acc = acc ++ map g (filter p l).
Proof.
  intros Hf. revert acc. induction l as [|x l IH]; intros acc; cbn.
  - now rewrite app_nil_r.
  - rewrite IH, Hf. destruct (p x); cbn; auto. now rewrite <- app_assoc.
Qed.

Lemma validate_required_fields_eq (order : dict) :
  validate_required_fields order =
    map missing_field (filter (field_missing order) required_fields)
    ++ items_shape order.
Proof.
  unfold validate_required_fields, items_shape.
  rewrite (fold_left_appends (field_missing order) missing_field).
  - cbn [app].
    destruct (dict_get "items" order) as [[| | | | | |[|x l]|]|];
      cbn; now rewrite ?app_nil_r.
  - intros acc x. unfold field_missing, missing_field.
    now destruct (dict_get x order) as [[]|].
Qed.

Lemma missing_field_counted (order : dict) (field : string) :
  In field required_fields ->
  count_occ string_dec (validate_required_fields order) (missing_field field)
  = if field_missing order field then 1%nat else 0%nat.
Proof.
  intros Hin. rewrite validate_required_fields_eq.
  unfold items_shape, required_fields in *. cbn [filter].
  assert (Hitems : field_missing order "items" =
                   match dict_get "items" order with
                   | None | Some VNone => true
                   | Some _ => false
                   end) by reflexivity.
  destruct (dict_get "items" order) as [[| | | | | |[|x l]|]|];
    destruct (field_missing order "orderId") eqn:E1;
    destruct (field_missing order "userId") eqn:E2;
    destruct (field_missing order "totalAmount") eqn:E4;
    rewrite Hitems; cbn in Hin;
    repeat (destruct Hin as [<-|Hin];
            [rewrite ?E1, ?E2, ?E4, ?Hitems; reflexivity|]);
    try contradiction.
Qed.

Lemma missing_field_invalid (order : dict) (field : string) :
  In field required_fields ->
  field_missing order field = true ->
  is_valid (validate_required_fields order) = false.
Proof.
  intros Hin Hm. pose proof (missing_field_counted order field Hin) as Hc.
  rewrite Hm in Hc. unfold is_valid.
  destruct (validate_required_fields order); [discriminate | reflexivity].
Qed.

End Structure.

(** ** The handler of the validator *)

Section ValidatorHandler.

Import ValidateOrder.

Arguments collect_errors : simpl never.

Variable py : PyRuntime.
Variable table : trace -> value -> lookup.

Lemma is_valid_nil (errors : list string) :
  is_valid errors = true <-> errors = [].
Proof.
  unfold is_valid. destruct errors; cbn; split; auto; discriminate.
Qed.

(** The handler after its three steps: it returns the response when no error
    was collected, raises the rejection otherwise, and lets a fault through. *)
Lemma lambda_handler_after_steps (event : dict) (context : lambda_context)
    (t0 : trace) :
  lambda_handler py table event context t0 =
    match collect_errors py table event t0 with
    | (Ok validation_errors, t) =>
        if is_valid validation_errors
        then (Ok (response event context validation_errors), t)
        else (Raise (rejection validation_errors), t)
    | (Raise e, t) => (Raise e, t)
    end.
Proof.
  unfold lambda_handler. cbn.
  destruct (collect_errors py table event t0) as [[errors|e] t]; auto.
  destruct (is_valid errors); reflexivity.
Qed.

Lemma lambda_handler_returns (event : dict) (context : lambda_context)
    (t0 t : trace) (out : dict) :
  lambda_handler py table event context t0 = (Ok out, t) ->
  collect_errors py table event t0 = (Ok [], t)
  /\ out = response event context [].
Proof.
  rewrite lambda_handler_after_steps.
  destruct (collect_errors py table event t0) as [[errors|e] t1];
    [|discriminate].
  destruct (is_valid errors) eqn:E; [|discriminate].
  apply is_valid_nil in E. subst errors. intros H. inversion H. auto.
Qed.

Lemma response_verdict (event : dict) (context : lambda_context)
    (validation_errors : list string) :
  dict_get "validationResult" (response event context validation_errors)
  = Some (validation_result context (is_valid validation_errors)
            validation_errors).
Proof. unfold response. apply dict_get_set_same. Qed.

(** A missing field ends the run at the first step. *)
Lemma collect_errors_at_fields (event : dict) (t0 : trace) :
  validate_required_fields event <> [] ->
  collect_errors py table event t0 =
    (Ok (validate_required_fields event),
     t0 ++ [Enter "validate_required_fields"]).
Proof.
  intros Hne. unfold collect_errors, entering, modify. cbn.
  destruct (validate_required_fields event); [contradiction | reflexivity].
Qed.

End ValidatorHandler.

(** ** The payment processor *)

Section PaymentFacts.

Import ProcessPayment.

Arguments process_payment : simpl never.

Variable py : PyRuntime.
Variable g : gateway.

Lemma choice_in (options : list string) (n : nat) :
  options <> [] -> In (choice options n) options.
Proof.
  intros Hne. unfold choice. apply nth_In. apply Nat.mod_upper_bound.
  destruct options; [contradiction | discriminate].
Qed.

(** The two shapes of a payment result. *)
Lemma process_payment_shapes (order_id user_id amount : value) (p : dict) :
  process_payment py g order_id user_id amount = Ok p ->
  (dict_get "status" p = Some (VStr "success")
   /\ dict_get "failureReason" p = None
   /\ PrimFloat.ltb (random_random g) 0.90%float = true)
  \/ (dict_get "status" p = Some (VStr "failed")
      /\ dict_get "failureReason" p
         = Some (VStr (choice failure_reasons (random_below g)))
      /\ dict_get "message" p
         = Some (VStr (fstr ["Payment failed: ";
                             choice failure_reasons (random_below g)]))
      /\ PrimFloat.ltb (random_random g) 0.90%float = false).
Proof.
  unfold process_payment.
  destruct (PrimFloat.ltb (random_random g) 0.90%float).
  - destruct (py_fixed2 py amount); cbn; [|discriminate].
    intros H. inversion H. left. auto.
  - intros H. inversion H. right. auto.
Qed.

(** A declined payment is always reported: this branch has no fault. *)
Lemma process_payment_declined (order_id user_id amount : value) :
  PrimFloat.ltb (random_random g) 0.90%float = false ->
  exists p, process_payment py g order_id user_id amount = Ok p.
Proof.
  intros H. unfold process_payment. rewrite H. eexists. reflexivity.
Qed.

(** The handler after the charge: the response for a success, a ValueError
    with the message of the result for a failure, the fault of the charge. *)
Lemma payment_handler_after_charge (event : dict) (context : lambda_context) :
  ProcessPayment.lambda_handler py g event context =
    match charge py g event with
    | Ok p =>
        if PrimFloat.ltb (random_random g) 0.90%float
        then Ok (dict_set "paymentResult" (VDict p) (dict_update [] event))
        else Raise (Exn ValueError
                      (fstr ["Payment failed: ";
                             fstr ["Payment failed: ";
                                   choice failure_reasons (random_below g)]]))
    | Raise e => Raise e
    end.
Proof.
  unfold ProcessPayment.lambda_handler, charge.
  destruct (process_payment py g _ _ _) as [p|e] eqn:E; cbn; auto.
  destruct (process_payment_shapes _ _ _ _ E)
    as [(Hs & _ & Hr)|(Hs & _ & Hm & Hr)]; rewrite Hs, Hr; cbn.
  - reflexivity.
  - rewrite Hm. reflexivity.
Qed.

End PaymentFacts.

(** ** Total reconciliation *)

Section TotalFacts.

Import ValidateOrder.

Variable py : PyRuntime.

Lemma validate_total_amount_eq (order : dict) (items : list value)
    (calculated_total order_total : float) :
  py_iter py (dict_get_default "items" (VList []) order) = Ok items ->
  calculate_total py items 0%float = Ok calculated_total ->
  py_float py (dict_get_default "totalAmount" (VInt 0) order) = Ok order_total ->
  validate_total_amount py order =
    if differ calculated_total order_total
    then [total_mismatch py calculated_total order_total]
    else [].
Proof.
  intros Hi Hc Ht. unfold validate_total_amount. cbn.
  rewrite Hi, Hc, Ht. reflexivity.
Qed.

(** An item without a price leaves [calculated_total] as it is. *)
Lemma calculate_total_unpriced (item : value) (rest : list value)
    (total : float) :
  py_contains py "price" item = Ok false ->
  calculate_total py (item :: rest) total = calculate_total py rest total.
Proof. intros H. cbn. rewrite H. reflexivity. Qed.

(** A priced item adds [price * quantity]. *)
Lemma calculate_total_priced (item : dict) (rest : list value) (total : float)
    (p q : value) (price factor : float) (quantity : Z) :
  dict_get "price" item = Some p ->
  dict_get "quantity" item = Some q ->
  py_float py p = Ok price ->
  py_int py q = Ok quantity ->
  float_of_int quantity = Ok factor ->
  calculate_total py (VDict item :: rest) total
  = calculate_total py rest (total + price * factor)%float.
Proof.
  intros Hp Hq Hf Hi Hz. cbn. unfold dict_mem. rewrite Hp, Hq. cbn.
  rewrite Hf, Hi. cbn. rewrite Hz. reflexivity.
Qed.

Lemma calculate_total_no_price (items : list value) (total : float) :
  Forall (fun item => py_contains py "price" item = Ok false) items ->
  calculate_total py items total = Ok total.
Proof.
  induction 1 as [|item rest H _ IH]; [reflexivity|].
  now rewrite calculate_total_unpriced.
Qed.

End TotalFacts.

(** [abs(0.0 - t)] is [abs(t)]. *)
Lemma abs_zero_sub (t : float) :
  PrimFloat.abs (0 - t)%float = PrimFloat.abs t.
Proof.
  apply Prim2SF_inj. rewrite !abs_spec, sub_spec.
  change (Prim2SF 0%float) with (S754_zero false).
  unfold SF64sub. destruct (Prim2SF t) as [[]|[]| |s m e]; reflexivity.
Qed.

Lemma differ_zero (t : float) :
  differ 0%float t = PrimFloat.ltb tolerance (PrimFloat.abs t).
Proof. unfold differ. now rewrite abs_zero_sub. Qed.

(** * The tolerance, exactly

    What [differ] says of the exact values of the two binary64 it compares:
    the subtraction is rounded to nearest, and the result is compared with the
    binary64 0.01, which is a little above 0.01.  The rounding of
    [SpecFloat.binary_round] is followed step by step: the alignment, the shift
    to the exponent of the format, the rounding of the last digit, and the
    carry. *)

Lemma digits2_size (m : positive) : digits2_pos m = Pos.size m.
Proof. induction m; cbn; congruence. Qed.

Lemma size_bounds (m : positive) :
  2 ^ (Z.pos (Pos.size m) - 1) <= Z.pos m < 2 ^ Z.pos (Pos.size m).
Proof.
  pose proof (Pos.size_gt m) as Hgt. pose proof (Pos.size_le m) as Hle.
  apply Pos2Z.pos_lt_pos in Hgt. apply Pos2Z.pos_le_pos in Hle.
  rewrite Pos2Z.inj_pow in Hgt, Hle.
  change (Z.pos m~0) with (2 * Z.pos m) in Hle.
  assert (H : 2 ^ Z.pos (Pos.size m) = 2 * 2 ^ (Z.pos (Pos.size m) - 1)).
  { rewrite <- Z.pow_succ_r by lia. f_equal. lia. }
  lia.
Qed.

Lemma iter_xO (d : positive) (m : positive) :
  Z.pos (Pos.iter xO m d) = Z.pos m * 2 ^ Z.pos d.
Proof.
  induction d using Pos.peano_ind.
  - cbn. lia.
  - rewrite Pos.iter_succ, Pos2Z.inj_succ, Z.pow_succ_r by lia.
    change (Z.pos (Pos.iter xO m d)~0) with (2 * Z.pos (Pos.iter xO m d)).
    rewrite IHd. lia.
Qed.

Lemma shr_1_m (mrs : shr_record) :
  0 <= shr_m mrs -> shr_m (shr_1 mrs) = shr_m mrs / 2.
Proof.
  destruct mrs as [m r s]. cbn. intros H.
  destruct m as [|[p|p|]|p]; cbn; try lia.
  - rewrite Pos2Z.inj_xI. apply Z.div_unique with 1; lia.
  - rewrite Pos2Z.inj_xO. apply Z.div_unique with 0; lia.
Qed.

Lemma shr_iter_m (p : positive) :
  forall mrs, 0 <= shr_m mrs ->
  shr_m (iter_pos shr_1 p mrs) = shr_m mrs / 2 ^ Z.pos p.
Proof.
  induction p as [p IH|p IH|]; intros mrs H; cbn [iter_pos].
  - assert (H1 : 0 <= shr_m (shr_1 mrs))
      by (rewrite shr_1_m by assumption; apply Z.div_pos; lia).
    assert (H2 : 0 <= shr_m (iter_pos shr_1 p (shr_1 mrs)))
      by (rewrite IH by assumption; apply Z.div_pos; lia).
    rewrite IH, IH, shr_1_m by assumption.
    rewrite !Z.div_div by lia.
    f_equal. rewrite Pos2Z.inj_xI.
    rewrite <- Z.pow_add_r, <- Z.pow_succ_r by lia. f_equal. lia.
  - assert (H2 : 0 <= shr_m (iter_pos shr_1 p mrs))
      by (rewrite IH by assumption; apply Z.div_pos; lia).
    rewrite IH, IH by assumption.
    rewrite !Z.div_div by lia.
    f_equal. rewrite Pos2Z.inj_xO.
    rewrite <- Z.pow_add_r by lia. f_equal. lia.
  - rewrite shr_1_m by assumption. reflexivity.
Qed.


Lemma fexp_eq (z : Z) : fexp prec emax z = Z.max (z - 53) (-1074).
Proof. reflexivity. Qed.

Lemma size_iter_xO (d m : positive) :
  Z.pos (Pos.size (Pos.iter xO m d)) = Z.pos (Pos.size m) + Z.pos d.
Proof.
  induction d using Pos.peano_ind.
  - cbn. lia.
  - rewrite Pos.iter_succ. cbn [Pos.size]. rewrite Pos2Z.inj_succ, IHd. lia.
Qed.

Lemma shl_align_spec (m : positive) (e E : Z) :
  exists mz ez,
    shl_align m e E = (mz, ez)
    /\ ez = Z.min e E
    /\ Z.pos mz = Z.pos m * 2 ^ (e - ez)
    /\ Z.pos (Pos.size mz) = Z.pos (Pos.size m) + (e - ez).
Proof.
  unfold shl_align. destruct (E - e) as [|d|d] eqn:Hd.
  - exists m, e. rewrite Z.min_l by lia. rewrite Z.sub_diag. cbn. repeat split; lia.
  - exists m, e. rewrite Z.min_l by lia. rewrite Z.sub_diag. cbn. repeat split; lia.
  - exists (Pos.iter xO m d), E. rewrite Z.min_r by lia.
    replace (e - E) with (Z.pos d) by lia.
    rewrite iter_xO, size_iter_xO. repeat split.
Qed.

Lemma shr_fexp_spec (m : positive) (e : Z) :
  exists mrs,
    shr_fexp prec emax (Z.pos m) e loc_Exact
    = (mrs, Z.max (fexp prec emax (Z.pos (Pos.size m) + e)) e)
    /\ shr_m mrs
       = Z.pos m / 2 ^ (Z.max (fexp prec emax (Z.pos (Pos.size m) + e)) e - e).
Proof.
  unfold shr_fexp, shr. cbn [Zdigits2 shr_record_of_loc].
  rewrite digits2_size.
  set (E := fexp prec emax (Z.pos (Pos.size m) + e)).
  destruct (E - e) as [|p|p] eqn:Hp.
  - eexists. rewrite Z.max_r by lia. split; [reflexivity|].
    rewrite Z.sub_diag. cbn. now rewrite Z.div_1_r.
  - eexists. rewrite Z.max_l by lia. split; [f_equal; lia|].
    rewrite shr_iter_m by (cbn; lia). cbn [shr_m]. f_equal. f_equal. lia.
  - eexists. rewrite Z.max_r by lia. split; [reflexivity|].
    rewrite Z.sub_diag. cbn. now rewrite Z.div_1_r.
Qed.

Lemma round_nearest_even_cases (q : Z) (l : location) :
  round_nearest_even q l = q \/ round_nearest_even q l = q + 1.
Proof.
  destruct l as [|[| |]]; cbn; auto. destruct (Z.even q); auto.
Qed.


Lemma binary_round_aux_finish (sx : bool) (mx ex : Z) (lx : location) :
  binary_round_aux prec emax sx mx ex lx
  = finish sx
      (round_nearest_even (shr_m (fst (shr_fexp prec emax mx ex lx)))
         (loc_of_shr_record (fst (shr_fexp prec emax mx ex lx))))
      (snd (shr_fexp prec emax mx ex lx)).
Proof.
  unfold binary_round_aux, finish.
  destruct (shr_fexp prec emax mx ex lx) as [mrs e]. reflexivity.
Qed.


Lemma finish_below (sx : bool) (m2 E : Z) :
  -1074 <= E -> 0 <= m2 ->
  (E <= -60 /\ m2 <= 2 ^ 53) \/ (E = -59 /\ m2 <= 5764607523034235) ->
  SFltb cent (SFabs (finish sx m2 E)) = false.
Proof.
  intros HE Hm Hcases. unfold finish.
  destruct m2 as [|p|p]; [| |lia].
  - unfold shr_fexp, shr. cbn [Zdigits2 shr_record_of_loc].
    rewrite fexp_eq.
    destruct (Z.max (0 + E - 53) (-1074) - E) eqn:Hn; try lia; reflexivity.
  - destruct (shr_fexp_spec p E) as (mrs & -> & Hmrs).
    rewrite Hmrs. clear Hmrs mrs.
    rewrite fexp_eq in *.
    pose proof (size_bounds p) as [Hlo Hhi].
    set (d := Z.pos (Pos.size p)) in *.
    assert (Hd : d <= 54).
    { destruct (Z_le_gt_dec d 54) as [|Hgt]; [assumption|exfalso].
      assert (2 ^ 54 <= 2 ^ (d - 1)) by (apply Z.pow_le_mono_r; lia).
      change (2 ^ 53) with 9007199254740992 in *.
      change (2 ^ 54) with 18014398509481984 in *. lia. }
    assert (Hd53 : Z.pos p <= 5764607523034235 -> d <= 53).
    { intros Hsmall.
      destruct (Z_le_gt_dec d 53) as [|Hgt]; [assumption|exfalso].
      assert (2 ^ 53 <= 2 ^ (d - 1)) by (apply Z.pow_le_mono_r; lia).
      change (2 ^ 53) with 9007199254740992 in *. lia. }
    set (e2 := Z.max (Z.max (d + E - 53) (-1074)) E) in *.
    destruct (Z.pos p / 2 ^ (e2 - E)) as [|m|m] eqn:Hm2;
      [reflexivity| |reflexivity].
    assert (He : e2 <= 971) by (unfold e2; lia).
    apply Z.leb_le in He.
    change (emax - prec) with 971. rewrite He. cbn [SFabs].
    unfold SFltb, SFcompare, cent.
    destruct (Z.compare_spec (-59) e2) as [Heq|Hlt|Hgt]; [| |reflexivity].
    + (* the exponent is -59 *)
      assert (Hle : Z.pos m <= 5764607523034235).
      { destruct Hcases as [[HE' Hp]|[HE' Hp]].
        - assert (HE60 : E = -60) by (unfold e2 in Heq; lia).
          assert (H1 : e2 - E = 1) by lia.
          rewrite H1 in Hm2.
          assert (Z.pos p / 2 ^ 1 <= 2 ^ 53 / 2 ^ 1)
            by (apply Z.div_le_mono; lia).
          change (2 ^ 53 / 2 ^ 1) with 4503599627370496 in *. lia.
        - assert (H0 : e2 - E = 0) by lia.
          rewrite H0 in Hm2.
          change (2 ^ 0) with 1 in Hm2. rewrite Z.div_1_r in Hm2. lia. }
      destruct (Pos.compare_cont Eq 5764607523034235 m) eqn:Hc;
        try reflexivity.
      change (Pos.compare_cont Eq 5764607523034235 m)
        with (Pos.compare 5764607523034235 m) in Hc.
      apply Pos.compare_lt_iff in Hc. apply Pos2Z.pos_lt_pos in Hc. lia.
    + (* the exponent is above -59 *)
      exfalso. destruct Hcases as [[HE' Hp]|[HE' Hp]].
      * unfold e2 in Hlt. lia.
      * assert (d <= 53) by (apply Hd53; exact Hp).
        unfold e2 in Hlt. lia.
Qed.

Lemma round_below_a_cent (sx : bool) (m : positive) (e k : Z) :
  0 <= k -> 0 <= e + k ->
  100 * (Z.pos m * 2 ^ (e + k)) <= 2 ^ k ->
  SFltb cent (SFabs (binary_round prec emax sx m e)) = false.
Proof.
  intros Hk Hek H.
  (* room below the scale *)
  set (K := k + 1081).
  assert (HK : 100 * (Z.pos m * 2 ^ (e + K)) <= 2 ^ K).
  { unfold K. replace (e + (k + 1081)) with ((e + k) + 1081) by lia.
    rewrite (Z.pow_add_r 2 (e + k) 1081), (Z.pow_add_r 2 k 1081) by lia.
    assert (0 < 2 ^ 1081) by (apply Z.pow_pos_nonneg; lia).
    set (P := 2 ^ 1081) in *. set (A := 2 ^ (e + k)) in *.
    set (B := 2 ^ k) in *. nia. }
  assert (HK0 : 1081 <= K) by (unfold K; lia).
  assert (HeK : 1081 <= e + K) by (unfold K; lia).
  clear H. clearbody K. clear Hk Hek k.
  pose proof (size_bounds m) as [Hlo Hhi].
  set (d := Z.pos (Pos.size m)) in *.
  assert (Hde : d + e <= -6).
  { destruct (Z_le_gt_dec (d + e) (-6)) as [|Hgt]; [assumption|exfalso].
    assert (H1 : 2 ^ (K - 6) <= 2 ^ (d - 1 + (e + K)))
      by (apply Z.pow_le_mono_r; lia).
    rewrite Z.pow_add_r in H1 by lia.
    assert (H2 : 2 ^ K = 2 ^ (K - 6) * 64).
    { replace K with ((K - 6) + 6) at 1 by lia.
      rewrite Z.pow_add_r by lia. reflexivity. }
    assert (0 < 2 ^ (K - 6)) by (apply Z.pow_pos_nonneg; lia).
    assert (0 < 2 ^ (e + K)) by (apply Z.pow_pos_nonneg; lia).
    nia. }
  unfold binary_round. rewrite digits2_size. rewrite fexp_eq. fold d.
  set (E := Z.max (d + e - 53) (-1074)).
  destruct (shl_align_spec m e E) as (mz & ez & -> & Hez & Hmz & Hsz).
  fold d in Hsz.
  rewrite binary_round_aux_finish.
  destruct (shr_fexp_spec mz ez) as (mrs & -> & Hq). cbn [fst snd].
  rewrite fexp_eq in *. rewrite Hsz in *.
  replace (d + (e - ez) + ez) with (d + e) in * by lia. fold E in Hq |- *.
  assert (HEz : Z.max E ez = E) by lia. rewrite HEz in *.
  assert (HE : -1074 <= E <= -59) by (unfold E; lia).
  assert (Hpow : 0 < 2 ^ (E - ez)) by (apply Z.pow_pos_nonneg; lia).
  assert (HQ0 : 0 <= shr_m mrs) by (rewrite Hq; apply Z.div_pos; lia).
  assert (HQ53 : shr_m mrs < 2 ^ 53).
  { rewrite Hq. apply Z.div_lt_upper_bound; [assumption|].
    rewrite <- Z.pow_add_r by lia.
    pose proof (size_bounds mz) as [_ Hmzhi]. rewrite Hsz in Hmzhi.
    assert (2 ^ (d + (e - ez)) <= 2 ^ (E - ez + 53))
      by (apply Z.pow_le_mono_r; lia).
    lia. }
  assert (HQ59 : E = -59 -> 100 * shr_m mrs <= 2 ^ 59).
  { intros HE59.
    assert (H1 : 2 ^ (E - ez) * shr_m mrs <= Z.pos mz)
      by (rewrite Hq; apply Z.mul_div_le; assumption).
    assert (H2 : Z.pos mz * 2 ^ (ez + K) = Z.pos m * 2 ^ (e + K)).
    { rewrite Hmz. rewrite <- Z.mul_assoc, <- Z.pow_add_r by lia.
      f_equal. f_equal. lia. }
    assert (H3 : 2 ^ (E - ez) * 2 ^ (ez + K) = 2 ^ (K - 59)).
    { rewrite <- Z.pow_add_r by lia. f_equal. lia. }
    assert (H4 : 2 ^ K = 2 ^ (K - 59) * 2 ^ 59).
    { rewrite <- Z.pow_add_r by lia. f_equal. lia. }
    assert (H5 : 0 < 2 ^ (K - 59)) by (apply Z.pow_pos_nonneg; lia).
    assert (H6 : 0 < 2 ^ (ez + K)) by (apply Z.pow_pos_nonneg; lia).
    set (P := 2 ^ (K - 59)) in *. set (A := 2 ^ (E - ez)) in *.
    set (B := 2 ^ (ez + K)) in *. set (Q := shr_m mrs) in *.
    assert (H7 : 100 * Q * P <= 2 ^ 59 * P) by nia.
    apply Z.mul_le_mono_pos_r with P; assumption. }
  apply finish_below; [lia| |].
  - destruct (round_nearest_even_cases (shr_m mrs) (loc_of_shr_record mrs))
      as [->| ->]; lia.
  - destruct (round_nearest_even_cases (shr_m mrs) (loc_of_shr_record mrs))
      as [->| ->];
      (destruct (Z.eq_dec E (-59)) as [HE59|HE59];
       [right; split; [assumption|];
        specialize (HQ59 HE59);
        change (2 ^ 59) with 576460752303423488 in HQ59; lia
       |left; split; lia]).
Qed.

Lemma cent_digits (m : positive) (e k : Z) :
  0 <= k -> 0 <= e + k ->
  100 * (Z.pos m * 2 ^ (e + k)) <= 2 ^ k ->
  Z.pos (Pos.size m) + e <= -6.
Proof.
  intros Hk Hek H.
  set (K := k + 6).
  assert (HK : 100 * (Z.pos m * 2 ^ (e + K)) <= 2 ^ K).
  { unfold K. replace (e + (k + 6)) with ((e + k) + 6) by lia.
    rewrite (Z.pow_add_r 2 (e + k) 6), (Z.pow_add_r 2 k 6) by lia.
    change (2 ^ 6) with 64.
    set (A := 2 ^ (e + k)) in *. set (B := 2 ^ k) in *. nia. }
  assert (HK0 : 6 <= K) by (unfold K; lia).
  assert (HeK : 6 <= e + K) by (unfold K; lia).
  clear H. clearbody K. clear Hk Hek k.
  pose proof (size_bounds m) as [Hlo Hhi].
  set (d := Z.pos (Pos.size m)) in *.
  destruct (Z_le_gt_dec (d + e) (-6)) as [|Hgt]; [assumption|exfalso].
  assert (H1 : 2 ^ (K - 6) <= 2 ^ (d - 1 + (e + K)))
    by (apply Z.pow_le_mono_r; lia).
  rewrite Z.pow_add_r in H1 by lia.
  assert (H2 : 2 ^ K = 2 ^ (K - 6) * 64).
  { replace K with ((K - 6) + 6) at 1 by lia.
    rewrite Z.pow_add_r by lia. reflexivity. }
  assert (0 < 2 ^ (K - 6)) by (apply Z.pow_pos_nonneg; lia).
  assert (0 < 2 ^ (e + K)) by (apply Z.pow_pos_nonneg; lia).
  nia.
Qed.

Lemma canonical_below_a_cent (m : positive) (e k : Z) :
  canonical_mantissa prec emax m e = true ->
  0 <= k -> 0 <= e + k ->
  100 * (Z.pos m * 2 ^ (e + k)) <= 2 ^ k ->
  SFltb cent (S754_finite false m e) = false.
Proof.
  intros Hc Hk Hek H.
  pose proof (cent_digits m e k Hk Hek H) as Hd.
  unfold canonical_mantissa in Hc. rewrite digits2_size, fexp_eq in Hc.
  apply Z.eqb_eq in Hc.
  unfold SFltb, SFcompare, cent.
  destruct (Z.compare_spec (-59) e) as [Heq|Hlt|Hgt];
    [|exfalso; lia|reflexivity].
  subst e.
  assert (H1 : 2 ^ k = 2 ^ (-59 + k) * 2 ^ 59).
  { rewrite <- Z.pow_add_r by lia. f_equal. lia. }
  assert (H2 : 0 < 2 ^ (-59 + k)) by (apply Z.pow_pos_nonneg; lia).
  assert (H3 : 100 * Z.pos m <= 2 ^ 59).
  { apply Z.mul_le_mono_pos_r with (2 ^ (-59 + k)); [assumption|].
    set (P := 2 ^ (-59 + k)) in *. lia. }
  change (2 ^ 59) with 576460752303423488 in H3.
  destruct (Pos.compare_cont Eq 5764607523034235 m) eqn:Hcmp;
    try reflexivity.
  change (Pos.compare_cont Eq 5764607523034235 m)
    with (Pos.compare 5764607523034235 m) in Hcmp.
  apply Pos.compare_lt_iff in Hcmp. apply Pos2Z.pos_lt_pos in Hcmp. lia.
Qed.


Lemma SFsub_below_a_cent (x y : spec_float) (k : Z) :
  valid_binary x = true -> valid_binary y = true ->
  match x with S754_finite _ _ e => 0 <= e + k | _ => True end ->
  match y with S754_finite _ _ e => 0 <= e + k | _ => True end ->
  match x with S754_zero _ | S754_finite _ _ _ => True | _ => False end ->
  match y with S754_zero _ | S754_finite _ _ _ => True | _ => False end ->
  0 <= k ->
  100 * Z.abs (scaled k x - scaled k y) <= 2 ^ k ->
  SFltb cent (SFabs (SFsub prec emax x y)) = false.
Proof.
  intros Vx Vy Ex Ey Fx Fy Hk H.
  destruct x as [sx|sx| |sx mx ex]; try contradiction;
    destruct y as [sy|sy| |sy my ey]; try contradiction.
  - destruct sx, sy; reflexivity.
  - cbn [SFsub SFabs]. unfold valid_binary, SpecFloat.valid_binary, bounded in Vy.
    apply andb_prop in Vy as [Vy _].
    apply (canonical_below_a_cent my ey k Vy Hk Ey).
    cbn [scaled] in H. destruct sy; cbn [cond_Zopp] in H.
    + assert (0 < 2 ^ (ey + k)) by (apply Z.pow_pos_nonneg; lia).
      replace (0 - - Z.pos my * 2 ^ (ey + k))
        with (Z.pos my * 2 ^ (ey + k)) in H by lia.
      rewrite Z.abs_eq in H by nia. exact H.
    + assert (0 < 2 ^ (ey + k)) by (apply Z.pow_pos_nonneg; lia).
      replace (0 - Z.pos my * 2 ^ (ey + k))
        with (- (Z.pos my * 2 ^ (ey + k))) in H by lia.
      rewrite Z.abs_opp, Z.abs_eq in H by nia. exact H.
  - cbn [SFsub SFabs]. unfold valid_binary, SpecFloat.valid_binary, bounded in Vx.
    apply andb_prop in Vx as [Vx _].
    apply (canonical_below_a_cent mx ex k Vx Hk Ex).
    cbn [scaled] in H. rewrite Z.sub_0_r in H.
    assert (0 < 2 ^ (ex + k)) by (apply Z.pow_pos_nonneg; lia).
    destruct sx; cbn [cond_Zopp] in H.
    + replace (- Z.pos mx * 2 ^ (ex + k))
        with (- (Z.pos mx * 2 ^ (ex + k))) in H by lia.
      rewrite Z.abs_opp, Z.abs_eq in H by nia. exact H.
    + rewrite Z.abs_eq in H by nia. exact H.
  - cbn [SFsub]. cbn [scaled] in H.
    set (ez := Z.min ex ey) in *.
    destruct (shl_align_spec mx ex ez) as (mx' & ex' & -> & Hex' & Hmx' & _).
    destruct (shl_align_spec my ey ez) as (my' & ey' & -> & Hey' & Hmy' & _).
    cbn [fst].
    assert (Hex : ex' = ez) by (unfold ez in *; lia).
    assert (Hey : ey' = ez) by (unfold ez in *; lia).
    rewrite Hex in Hmx'. rewrite Hey in Hmy'.
    clear Hex Hey Hex' Hey'. clear ex' ey'.
    assert (Hez : 0 <= ez + k) by (unfold ez; lia).
    set (M := cond_Zopp sx (Z.pos mx') - cond_Zopp sy (Z.pos my')).
    assert (HM : M * 2 ^ (ez + k)
                 = cond_Zopp sx (Z.pos mx) * 2 ^ (ex + k)
                   - cond_Zopp sy (Z.pos my) * 2 ^ (ey + k)).
    { unfold M.
      replace (ex + k) with ((ex - ez) + (ez + k)) by lia.
      replace (ey + k) with ((ey - ez) + (ez + k)) by lia.
      rewrite (Z.pow_add_r 2 (ex - ez) (ez + k)),
        (Z.pow_add_r 2 (ey - ez) (ez + k)) by (unfold ez; lia).
      rewrite Hmx', Hmy'.
      set (A := 2 ^ (ex - ez)). set (B := 2 ^ (ey - ez)).
      set (C := 2 ^ (ez + k)).
      destruct sx, sy; unfold cond_Zopp; ring. }
    rewrite <- HM in H.
    assert (HP : 0 < 2 ^ (ez + k)) by (apply Z.pow_pos_nonneg; lia).
    rewrite Z.abs_mul, (Z.abs_eq (2 ^ (ez + k))) in H by lia.
    fold M. unfold binary_normalize.
    destruct M as [|p|p]; [reflexivity| |].
    + apply (round_below_a_cent false p ez k Hk Hez). exact H.
    + apply (round_below_a_cent true p ez k Hk Hez). exact H.
Qed.

Lemma finish_above (sx : bool) (m2 E : Z) :
  -59 <= E -> 2 ^ 52 <= m2 <= 2 ^ 53 ->
  (E = -59 -> 5764607523034236 <= m2) ->
  SFltb cent (SFabs (finish sx m2 E)) = true.
Proof.
  intros HE Hm H59. unfold finish.
  change (2 ^ 52) with 4503599627370496 in Hm.
  change (2 ^ 53) with 9007199254740992 in Hm.
  destruct m2 as [|p|p]; [lia| |lia].
  destruct (shr_fexp_spec p E) as (mrs & -> & Hmrs).
  rewrite Hmrs. clear Hmrs mrs.
  rewrite fexp_eq in *.
  pose proof (size_bounds p) as [Hlo Hhi].
  set (d := Z.pos (Pos.size p)) in *.
  assert (Hd : 53 <= d <= 54).
  { split.
    - destruct (Z_le_gt_dec 53 d) as [|Hgt]; [assumption|exfalso].
      assert (2 ^ d <= 2 ^ 52) by (apply Z.pow_le_mono_r; lia).
      change (2 ^ 52) with 4503599627370496 in *. lia.
    - destruct (Z_le_gt_dec d 54) as [|Hgt]; [assumption|exfalso].
      assert (2 ^ 54 <= 2 ^ (d - 1)) by (apply Z.pow_le_mono_r; lia).
      change (2 ^ 54) with 18014398509481984 in *. lia. }
  set (e2 := Z.max (Z.max (d + E - 53) (-1074)) E) in *.
  assert (He2 : e2 - E = d - 53) by (unfold e2; lia).
  rewrite He2.
  assert (Hq : (d = 53 /\ Z.pos p / 2 ^ (d - 53) = Z.pos p)
               \/ (d = 54 /\ Z.pos p / 2 ^ (d - 53) = 4503599627370496)).
  { destruct (Z.eq_dec d 53) as [H53|H53].
    - left. split; [assumption|]. rewrite H53. change (2 ^ (53 - 53)) with 1.
      apply Z.div_1_r.
    - right. assert (H54 : d = 54) by lia. split; [assumption|].
      rewrite H54 in *. change (2 ^ (54 - 53)) with 2.
      change (2 ^ (54 - 1)) with 9007199254740992 in Hlo.
      assert (Hp : Z.pos p = 9007199254740992) by lia.
      rewrite Hp. reflexivity. }
  destruct (Z.pos p / 2 ^ (d - 53)) as [|m|m] eqn:Hm2;
    [exfalso; lia| |exfalso; lia].
  change (emax - prec) with 971.
  destruct (Z.leb_spec e2 971) as [_|_]; [|reflexivity].
  cbn [SFabs]. unfold SFltb, SFcompare, cent.
  destruct (Z.compare_spec (-59) e2) as [Heq|Hlt|Hgt];
    [|reflexivity|exfalso; unfold e2 in Hgt; lia].
  assert (HE59 : E = -59) by (unfold e2 in Heq; lia).
  assert (Hd53 : d = 53) by (unfold e2 in Heq; lia).
  specialize (H59 HE59).
  assert (Hlt : (5764607523034235 < m)%positive).
  { apply Pos2Z.pos_lt_pos. lia. }
  apply Pos.compare_lt_iff in Hlt.
  change (Pos.compare_cont Eq 5764607523034235 m)
    with (Pos.compare 5764607523034235 m).
  rewrite Hlt. reflexivity.
Qed.

Lemma next_digits (m : positive) (e k : Z) :
  0 <= k -> 0 <= e + k ->
  5764607523034236 * 2 ^ k <= 2 ^ 59 * (Z.pos m * 2 ^ (e + k)) ->
  -6 <= Z.pos (Pos.size m) + e.
Proof.
  intros Hk Hek H.
  pose proof (size_bounds m) as [Hlo Hhi].
  set (d := Z.pos (Pos.size m)) in *.
  destruct (Z_le_gt_dec (-6) (d + e)) as [|Hgt]; [assumption|exfalso].
  set (K := k + 1081).
  assert (HK : 5764607523034236 * 2 ^ K <= 2 ^ 59 * (Z.pos m * 2 ^ (e + K))).
  { unfold K. replace (e + (k + 1081)) with ((e + k) + 1081) by lia.
    rewrite (Z.pow_add_r 2 (e + k) 1081), (Z.pow_add_r 2 k 1081) by lia.
    assert (0 < 2 ^ 1081) by (apply Z.pow_pos_nonneg; lia).
    set (P := 2 ^ 1081) in *. set (A := 2 ^ (e + k)) in *.
    set (B := 2 ^ k) in *. set (C := 2 ^ 59) in *. nia. }
  assert (HK0 : 1081 <= K) by (unfold K; lia).
  assert (HeK : 1081 <= e + K) by (unfold K; lia).
  clear H. clearbody K. clear Hk Hek k.
  assert (H1 : Z.pos m * 2 ^ (e + K) < 2 ^ (d + (e + K))).
  { rewrite (Z.pow_add_r 2 d (e + K)) by lia.
    assert (0 < 2 ^ (e + K)) by (apply Z.pow_pos_nonneg; lia). nia. }
  assert (H2 : 2 ^ (d + (e + K)) <= 2 ^ (K - 7))
    by (apply Z.pow_le_mono_r; lia).
  assert (H3 : 2 ^ K = 2 ^ (K - 7) * 128).
  { replace K with ((K - 7) + 7) at 1 by lia.
    rewrite Z.pow_add_r by lia. reflexivity. }
  assert (0 < 2 ^ (K - 7)) by (apply Z.pow_pos_nonneg; lia).
  change (2 ^ 59) with 576460752303423488 in HK.
  set (P := 2 ^ (K - 7)) in *. set (A := Z.pos m * 2 ^ (e + K)) in *.
  nia.
Qed.

Lemma round_above_a_cent (sx : bool) (m : positive) (e k : Z) :
  0 <= k -> 0 <= e + k ->
  5764607523034236 * 2 ^ k <= 2 ^ 59 * (Z.pos m * 2 ^ (e + k)) ->
  SFltb cent (SFabs (binary_round prec emax sx m e)) = true.
Proof.
  intros Hk Hek H.
  pose proof (next_digits m e k Hk Hek H) as Hde.
  set (K := k + 1081).
  assert (HK : 5764607523034236 * 2 ^ K <= 2 ^ 59 * (Z.pos m * 2 ^ (e + K))).
  { unfold K. replace (e + (k + 1081)) with ((e + k) + 1081) by lia.
    rewrite (Z.pow_add_r 2 (e + k) 1081), (Z.pow_add_r 2 k 1081) by lia.
    assert (0 < 2 ^ 1081) by (apply Z.pow_pos_nonneg; lia).
    set (P := 2 ^ 1081) in *. set (A := 2 ^ (e + k)) in *.
    set (B := 2 ^ k) in *. set (C := 2 ^ 59) in *. nia. }
  assert (HK0 : 1081 <= K) by (unfold K; lia).
  assert (HeK : 1081 <= e + K) by (unfold K; lia).
  clear H. clearbody K. clear Hk Hek k.
  pose proof (size_bounds m) as [Hlo Hhi].
  set (d := Z.pos (Pos.size m)) in *.
  unfold binary_round. rewrite digits2_size. rewrite fexp_eq. fold d.
  set (E := Z.max (d + e - 53) (-1074)).
  assert (HE : E = d + e - 53) by (unfold E; lia).
  destruct (shl_align_spec m e E) as (mz & ez & -> & Hez & Hmz & Hsz).
  fold d in Hsz.
  rewrite binary_round_aux_finish.
  destruct (shr_fexp_spec mz ez) as (mrs & -> & Hq). cbn [fst snd].
  rewrite fexp_eq in *. rewrite Hsz in *.
  replace (d + (e - ez) + ez) with (d + e) in * by lia. fold E in Hq |- *.
  assert (HEz : Z.max E ez = E) by lia. rewrite HEz in *.
  assert (Hpow : 0 < 2 ^ (E - ez)) by (apply Z.pow_pos_nonneg; lia).
  pose proof (size_bounds mz) as [Hmzlo Hmzhi]. rewrite Hsz in Hmzlo, Hmzhi.
  assert (HQ52 : 2 ^ 52 <= shr_m mrs).
  { rewrite Hq. apply Z.div_le_lower_bound; [assumption|].
    rewrite <- Z.pow_add_r by lia.
    replace (E - ez + 52) with (d + (e - ez) - 1) by lia. exact Hmzlo. }
  assert (HQ53 : shr_m mrs < 2 ^ 53).
  { rewrite Hq. apply Z.div_lt_upper_bound; [assumption|].
    rewrite <- Z.pow_add_r by lia.
    replace (E - ez + 53) with (d + (e - ez)) by lia. exact Hmzhi. }
  assert (HQ59 : E = -59 -> 5764607523034236 <= shr_m mrs).
  { intros HE59. rewrite Hq.
    apply Z.div_le_lower_bound; [assumption|].
    assert (H2 : Z.pos mz * 2 ^ (ez + K) = Z.pos m * 2 ^ (e + K)).
    { rewrite Hmz. rewrite <- Z.mul_assoc, <- Z.pow_add_r by lia.
      f_equal. f_equal. lia. }
    assert (H3 : 2 ^ (E - ez) * 2 ^ (ez + K) = 2 ^ (K - 59)).
    { rewrite <- Z.pow_add_r by lia. f_equal. lia. }
    assert (H4 : 2 ^ K = 2 ^ (K - 59) * 2 ^ 59).
    { rewrite <- Z.pow_add_r by lia. f_equal. lia. }
    assert (H5 : 0 < 2 ^ (K - 59)) by (apply Z.pow_pos_nonneg; lia).
    assert (H6 : 0 < 2 ^ (ez + K)) by (apply Z.pow_pos_nonneg; lia).
    assert (H7 : 0 < 2 ^ 59) by (apply Z.pow_pos_nonneg; lia).
    rewrite <- H2, H4 in HK.
    set (P := 2 ^ (K - 59)) in *. set (A := 2 ^ (E - ez)) in *.
    set (B := 2 ^ (ez + K)) in *. set (C := 2 ^ 59) in *.
    assert (H8 : (5764607523034236 * P) * C <= (Z.pos mz * B) * C) by lia.
    apply Z.mul_le_mono_pos_r in H8; [|assumption].
    rewrite <- H3 in H8.
    apply Z.mul_le_mono_pos_r with B; [assumption|]. lia. }
  apply finish_above; [lia| |].
  - destruct (round_nearest_even_cases (shr_m mrs) (loc_of_shr_record mrs))
      as [->| ->]; lia.
  - intros HE59. specialize (HQ59 HE59).
    destruct (round_nearest_even_cases (shr_m mrs) (loc_of_shr_record mrs))
      as [->| ->]; lia.
Qed.

Lemma canonical_above_a_cent (m : positive) (e k : Z) :
  canonical_mantissa prec emax m e = true ->
  0 <= k -> 0 <= e + k ->
  5764607523034236 * 2 ^ k <= 2 ^ 59 * (Z.pos m * 2 ^ (e + k)) ->
  SFltb cent (S754_finite false m e) = true.
Proof.
  intros Hc Hk Hek H.
  pose proof (next_digits m e k Hk Hek H) as Hd.
  unfold canonical_mantissa in Hc. rewrite digits2_size, fexp_eq in Hc.
  apply Z.eqb_eq in Hc.
  unfold SFltb, SFcompare, cent.
  destruct (Z.compare_spec (-59) e) as [Heq|Hlt|Hgt];
    [|reflexivity|exfalso; lia].
  subst e.
  assert (H1 : 2 ^ k = 2 ^ (-59 + k) * 2 ^ 59).
  { rewrite <- Z.pow_add_r by lia. f_equal. lia. }
  assert (H2 : 0 < 2 ^ (-59 + k)) by (apply Z.pow_pos_nonneg; lia).
  assert (H3 : 0 < 2 ^ 59) by (apply Z.pow_pos_nonneg; lia).
  assert (H4 : 5764607523034236 <= Z.pos m).
  { rewrite H1 in H.
    set (P := 2 ^ (-59 + k)) in *. set (C := 2 ^ 59) in *.
    assert (H5 : (5764607523034236 * P) * C <= (Z.pos m * P) * C) by lia.
    apply Z.mul_le_mono_pos_r in H5; [|assumption].
    apply Z.mul_le_mono_pos_r with P; assumption. }
  assert (Hlt : (5764607523034235 < m)%positive)
    by (apply Pos2Z.pos_lt_pos; lia).
  apply Pos.compare_lt_iff in Hlt.
  change (Pos.compare_cont Eq 5764607523034235 m)
    with (Pos.compare 5764607523034235 m).
  rewrite Hlt. reflexivity.
Qed.

Lemma SFsub_above_a_cent (x y : spec_float) (k : Z) :
  valid_binary x = true -> valid_binary y = true ->
  match x with S754_finite _ _ e => 0 <= e + k | _ => True end ->
  match y with S754_finite _ _ e => 0 <= e + k | _ => True end ->
  match x with S754_zero _ | S754_finite _ _ _ => True | _ => False end ->
  match y with S754_zero _ | S754_finite _ _ _ => True | _ => False end ->
  0 <= k ->
  5764607523034236 * 2 ^ k <= 2 ^ 59 * Z.abs (scaled k x - scaled k y) ->
  SFltb cent (SFabs (SFsub prec emax x y)) = true.
Proof.
  intros Vx Vy Ex Ey Fx Fy Hk H.
  assert (Hp : 0 < 2 ^ k) by (apply Z.pow_pos_nonneg; lia).
  destruct x as [sx|sx| |sx mx ex]; try contradiction;
    destruct y as [sy|sy| |sy my ey]; try contradiction.
  - exfalso. cbn [scaled] in H. change (Z.abs (0 - 0)) with 0 in H.
    rewrite Z.mul_0_r in H. lia.
  - cbn [SFsub SFabs].
    unfold valid_binary, SpecFloat.valid_binary, bounded in Vy.
    apply andb_prop in Vy as [Vy _].
    apply (canonical_above_a_cent my ey k Vy Hk Ey).
    cbn [scaled] in H.
    assert (0 < 2 ^ (ey + k)) by (apply Z.pow_pos_nonneg; lia).
    destruct sy; cbn [cond_Zopp] in H.
    + replace (0 - - Z.pos my * 2 ^ (ey + k))
        with (Z.pos my * 2 ^ (ey + k)) in H by lia.
      rewrite Z.abs_eq in H by nia. exact H.
    + replace (0 - Z.pos my * 2 ^ (ey + k))
        with (- (Z.pos my * 2 ^ (ey + k))) in H by lia.
      rewrite Z.abs_opp, Z.abs_eq in H by nia. exact H.
  - cbn [SFsub SFabs].
    unfold valid_binary, SpecFloat.valid_binary, bounded in Vx.
    apply andb_prop in Vx as [Vx _].
    apply (canonical_above_a_cent mx ex k Vx Hk Ex).
    cbn [scaled] in H. rewrite Z.sub_0_r in H.
    assert (0 < 2 ^ (ex + k)) by (apply Z.pow_pos_nonneg; lia).
    destruct sx; cbn [cond_Zopp] in H.
    + replace (- Z.pos mx * 2 ^ (ex + k))
        with (- (Z.pos mx * 2 ^ (ex + k))) in H by lia.
      rewrite Z.abs_opp, Z.abs_eq in H by nia. exact H.
    + rewrite Z.abs_eq in H by nia. exact H.
  - cbn [SFsub]. cbn [scaled] in H.
    set (ez := Z.min ex ey) in *.
    destruct (shl_align_spec mx ex ez) as (mx' & ex' & -> & Hex' & Hmx' & _).
    destruct (shl_align_spec my ey ez) as (my' & ey' & -> & Hey' & Hmy' & _).
    cbn [fst].
    assert (Hex : ex' = ez) by (unfold ez in *; lia).
    assert (Hey : ey' = ez) by (unfold ez in *; lia).
    rewrite Hex in Hmx'. rewrite Hey in Hmy'.
    clear Hex Hey Hex' Hey'. clear ex' ey'.
    assert (Hez : 0 <= ez + k) by (unfold ez; lia).
    set (M := cond_Zopp sx (Z.pos mx') - cond_Zopp sy (Z.pos my')).
    assert (HM : M * 2 ^ (ez + k)
                 = cond_Zopp sx (Z.pos mx) * 2 ^ (ex + k)
                   - cond_Zopp sy (Z.pos my) * 2 ^ (ey + k)).
    { unfold M.
      replace (ex + k) with ((ex - ez) + (ez + k)) by lia.
      replace (ey + k) with ((ey - ez) + (ez + k)) by lia.
      rewrite (Z.pow_add_r 2 (ex - ez) (ez + k)),
        (Z.pow_add_r 2 (ey - ez) (ez + k)) by (unfold ez; lia).
      rewrite Hmx', Hmy'.
      set (A := 2 ^ (ex - ez)). set (B := 2 ^ (ey - ez)).
      set (C := 2 ^ (ez + k)).
      destruct sx, sy; unfold cond_Zopp; ring. }
    rewrite <- HM in H.
    assert (HP : 0 < 2 ^ (ez + k)) by (apply Z.pow_pos_nonneg; lia).
    rewrite Z.abs_mul, (Z.abs_eq (2 ^ (ez + k))) in H by lia.
    fold M. unfold binary_normalize.
    destruct M as [|p|p];
      [exfalso; change (Z.abs 0) with 0 in H;
       rewrite Z.mul_0_l, Z.mul_0_r in H; lia| |].
    + apply (round_above_a_cent false p ez k Hk Hez). exact H.
    + apply (round_above_a_cent true p ez k Hk Hez). exact H.
Qed.


Lemma fraction_scaled (x : spec_float) (n d k : Z) :
  match x with
  | S754_zero _ => Some (0, 1)
  | S754_finite s m e =>
      let n := if s then Z.neg m else Z.pos m in
      Some (if 0 <=? e then (n * 2 ^ e, 1) else (n, 2 ^ (- e)))
  | _ => None
  end = Some (n, d) ->
  0 <= k -> 0 <= exponent_of x + k ->
  0 < d /\ n * 2 ^ k = scaled k x * d
  /\ match x with S754_zero _ | S754_finite _ _ _ => True | _ => False end.
Proof.
  intros H Hk He. destruct x as [s|s| |s m e]; try discriminate H.
  - inversion H. cbn. lia.
  - cbn [exponent_of] in He. cbn zeta in H.
    assert (Hn : (if s then Z.neg m else Z.pos m) = cond_Zopp s (Z.pos m))
      by (destruct s; reflexivity).
    rewrite Hn in H. cbn [scaled].
    destruct (Z.leb_spec 0 e) as [Hle|Hlt]; inversion H; subst n d.
    + split; [lia|]. split; [|exact I].
      rewrite Z.mul_1_r, <- Z.mul_assoc, <- Z.pow_add_r by lia. reflexivity.
    + split; [apply Z.pow_pos_nonneg; lia|]. split; [|exact I].
      rewrite <- Z.mul_assoc, <- Z.pow_add_r by lia.
      f_equal. f_equal. lia.
Qed.

Lemma differ_within_a_cent (a b : float) (fa fb : Z * Z) :
  fraction_of_float a = Some fa ->
  fraction_of_float b = Some fb ->
  within_a_cent fa fb = true ->
  differ a b = false.
Proof.
  intros Ha Hb Hw. unfold differ.
  rewrite ltb_spec, abs_spec, sub_spec.
  change (Prim2SF _) with cent at 1.
  unfold fraction_of_float in Ha, Hb.
  destruct fa as [na da], fb as [nb db].
  set (k := Z.abs (exponent_of (Prim2SF a)) + Z.abs (exponent_of (Prim2SF b))).
  assert (Hk : 0 <= k) by (unfold k; lia).
  destruct (fraction_scaled _ _ _ k Ha Hk) as (Hda & Hsa & Fa);
    [unfold k; lia|].
  destruct (fraction_scaled _ _ _ k Hb Hk) as (Hdb & Hsb & Fb);
    [unfold k; lia|].
  apply SFsub_below_a_cent with (k := k);
    try assumption; try apply Prim2SF_valid.
  - destruct (Prim2SF a); try exact I. cbn [exponent_of] in k. unfold k. lia.
  - destruct (Prim2SF b); try exact I. cbn [exponent_of] in k. unfold k. lia.
  - unfold within_a_cent in Hw. apply Z.leb_le in Hw.
    assert (Hp : 0 < 2 ^ k) by (apply Z.pow_pos_nonneg; lia).
    assert (H1 : (na * db - nb * da) * 2 ^ k
                 = (scaled k (Prim2SF a) - scaled k (Prim2SF b)) * (da * db)).
    { rewrite Z.mul_sub_distr_r.
      replace (na * db * 2 ^ k) with (na * 2 ^ k * db) by ring.
      replace (nb * da * 2 ^ k) with (nb * 2 ^ k * da) by ring.
      rewrite Hsa, Hsb. ring. }
    assert (H2 : Z.abs (na * db - nb * da) * 2 ^ k
                 = Z.abs (scaled k (Prim2SF a) - scaled k (Prim2SF b))
                   * (da * db)).
    { apply (f_equal Z.abs) in H1. rewrite !Z.abs_mul in H1.
      rewrite (Z.abs_eq (2 ^ k)), (Z.abs_eq da), (Z.abs_eq db) in H1 by lia.
      rewrite H1. ring. }
    assert (Hdd : 0 < da * db) by nia.
    apply Z.mul_le_mono_pos_r with (da * db); [assumption|].
    set (X := Z.abs (scaled k (Prim2SF a) - scaled k (Prim2SF b))) in *.
    set (Y := Z.abs (na * db - nb * da)) in *.
    set (D := da * db) in *. set (P := 2 ^ k) in *.
    nia.
Qed.

Lemma differ_a_cent_apart (a b : float) (fa fb : Z * Z) :
  fraction_of_float a = Some fa ->
  fraction_of_float b = Some fb ->
  a_cent_apart fa fb = true ->
  differ a b = true.
Proof.
  intros Ha Hb Hw. unfold differ.
  rewrite ltb_spec, abs_spec, sub_spec.
  change (Prim2SF _) with cent at 1.
  unfold fraction_of_float in Ha, Hb.
  destruct fa as [na da], fb as [nb db].
  set (k := Z.abs (exponent_of (Prim2SF a)) + Z.abs (exponent_of (Prim2SF b))).
  assert (Hk : 0 <= k) by (unfold k; lia).
  destruct (fraction_scaled _ _ _ k Ha Hk) as (Hda & Hsa & Fa);
    [unfold k; lia|].
  destruct (fraction_scaled _ _ _ k Hb Hk) as (Hdb & Hsb & Fb);
    [unfold k; lia|].
  apply SFsub_above_a_cent with (k := k);
    try assumption; try apply Prim2SF_valid.
  - destruct (Prim2SF a); try exact I. cbn [exponent_of] in k. unfold k. lia.
  - destruct (Prim2SF b); try exact I. cbn [exponent_of] in k. unfold k. lia.
  - unfold a_cent_apart in Hw. apply Z.leb_le in Hw.
    assert (Hp : 0 < 2 ^ k) by (apply Z.pow_pos_nonneg; lia).
    assert (H1 : (na * db - nb * da) * 2 ^ k
                 = (scaled k (Prim2SF a) - scaled k (Prim2SF b)) * (da * db)).
    { rewrite Z.mul_sub_distr_r.
      replace (na * db * 2 ^ k) with (na * 2 ^ k * db) by ring.
      replace (nb * da * 2 ^ k) with (nb * 2 ^ k * da) by ring.
      rewrite Hsa, Hsb. ring. }
    assert (H2 : Z.abs (na * db - nb * da) * 2 ^ k
                 = Z.abs (scaled k (Prim2SF a) - scaled k (Prim2SF b))
                   * (da * db)).
    { apply (f_equal Z.abs) in H1. rewrite !Z.abs_mul in H1.
      rewrite (Z.abs_eq (2 ^ k)), (Z.abs_eq da), (Z.abs_eq db) in H1 by lia.
      rewrite H1. ring. }
    assert (Hdd : 0 < da * db) by nia.
    apply Z.mul_le_mono_pos_r with (da * db); [assumption|].
    assert (H59 : 0 < 2 ^ 59) by (apply Z.pow_pos_nonneg; lia).
    set (X := Z.abs (scaled k (Prim2SF a) - scaled k (Prim2SF b))) in *.
    set (Y := Z.abs (na * db - nb * da)) in *.
    set (D := da * db) in *. set (P := 2 ^ k) in *. set (C := 2 ^ 59) in *.
    nia.
Qed.

(** * The claims of the specification *)

(** C1.  The validator runs its three steps in order: the structural check,
    the check of the items against the table, the reconciliation of the total.
    A step that leaves errors ends the run: the next step is not entered (it is
    absent from the trace, and so are the calls to the table when the
    structural check fails), and the errors handed to the verdict are those of
    that one step alone.  [steps] lists the four runs there are; the handler
    decides on the errors of the run. *)
Theorem C1_steps_short_circuit (py : PyRuntime)
    (table : trace -> value -> lookup) (event : dict)
    (context : lambda_context) (t0 : trace) :
  steps py table event t0
    (fst (ValidateOrder.collect_errors py table event t0))
    (snd (ValidateOrder.collect_errors py table event t0))
  /\ ValidateOrder.lambda_handler py table event context t0 =
       match ValidateOrder.collect_errors py table event t0 with
       | (Ok validation_errors, t) =>
           if ValidateOrder.is_valid validation_errors
           then (Ok (ValidateOrder.response event context validation_errors), t)
           else (Raise (ValidateOrder.rejection validation_errors), t)
       | (Raise e, t) => (Raise e, t)
       end.
Proof.
  split.
  - apply collect_errors_steps.
  - apply lambda_handler_after_steps.
Qed.

(** Three runs on the seeded table: an order without a userId stops after the
    structural check, an order with a wrong price after the items, and the
    order of two mice reaches the total. *)
Example steps_on_the_seeded_table :
  ValidateOrder.collect_errors cpython Sample.table
    [("orderId", VStr "order-test-001");
     ("items", VList [Sample.priced "p2" (VInt 2) 26]);
     ("totalAmount", VFloat 50)] []
  = (Ok ["Missing required field: userId"],
     [Enter "validate_required_fields"])
  /\ ValidateOrder.collect_errors cpython Sample.table
       (Sample.order (VList [Sample.priced "p2" (VInt 2) 26]) (VFloat 50)) []
     = (Ok ["Item 1: Price mismatch for p2 (expected: 25.0, received: 26.0)"],
        [Enter "validate_required_fields"; Enter "validate_items";
         GetItem (VStr "p2")])
  /\ ValidateOrder.collect_errors cpython Sample.table Sample.two_mice []
     = (Ok [],
        [Enter "validate_required_fields"; Enter "validate_items";
         GetItem (VStr "p2"); Enter "validate_total_amount"]).
Proof. repeat split; vm_compute; reflexivity. Qed.

(** C2, as the code has it.  Both comparisons are made on binary64 values:
    the two prices after [float()], and the total that was added up in binary64
    against the claimed total after [float()]; the test is that the binary64
    [abs(a - b)] is greater than the binary64 0.01 ([differ]).  An item that
    reaches its price check with the catalog price read as [db_price] and the
    claimed price read as [order_price] gets the price-mismatch error, which
    holds both values, exactly when [differ db_price order_price]; the
    reconciliation of the total reports the mismatch, which holds both totals,
    exactly when [differ calculated_total order_total], where
    [calculated_total] adds [price * quantity] for the items that carry a price
    and nothing for the others.  Of the two binary64 values that are compared:
    when they are exactly within 0.01 of each other the test never flags, and
    when they are apart by the binary64 next above 0.01 or more it always
    flags. *)
Theorem C2_tolerance (py : PyRuntime) (table : trace -> value -> lookup) :
  (forall idx item fr product_id q quantity product stock_errors price
        db_price order_price,
        dict_get "productId" item = Some product_id ->
        dict_get "quantity" item = Some q ->
        py_int py q = Ok quantity ->
        table (ValidateOrder.calls fr) product_id = Item product ->
        stock_finding py idx product_id quantity product = Ok stock_errors ->
        dict_get "price" item = Some price ->
        py_float py (dict_get_default "price" (VInt 0) product) = Ok db_price ->
        py_float py price = Ok order_price ->
        ValidateOrder.validate_item py table idx (VDict item) fr =
          (Ok tt,
           {| ValidateOrder.calls :=
                ValidateOrder.calls fr ++ [GetItem product_id];
              ValidateOrder.errors :=
                ValidateOrder.errors fr
                ++ (if quantity <=? 0
                    then [ValidateOrder.quantity_not_positive (position idx)]
                    else [])
                ++ stock_errors
                ++ (if differ db_price order_price
                    then [ValidateOrder.price_mismatch py (position idx)
                            product_id db_price order_price]
                    else []) |}))
  /\ (forall order items calculated_total order_total,
        py_iter py (dict_get_default "items" (VList []) order) = Ok items ->
        ValidateOrder.calculate_total py items 0%float = Ok calculated_total ->
        py_float py (dict_get_default "totalAmount" (VInt 0) order)
          = Ok order_total ->
        ValidateOrder.validate_total_amount py order =
          if differ calculated_total order_total
          then [ValidateOrder.total_mismatch py calculated_total order_total]
          else [])
  /\ (forall item rest total,
        py_contains py "price" item = Ok false ->
        ValidateOrder.calculate_total py (item :: rest) total
        = ValidateOrder.calculate_total py rest total)
  /\ (forall item rest total p q price factor quantity,
        dict_get "price" item = Some p ->
        dict_get "quantity" item = Some q ->
        py_float py p = Ok price ->
        py_int py q = Ok quantity ->
        float_of_int quantity = Ok factor ->
        ValidateOrder.calculate_total py (VDict item :: rest) total
        = ValidateOrder.calculate_total py rest (total + price * factor)%float)
  /\ (forall n product_id a b,
        exists pre mid post,
          ValidateOrder.price_mismatch py n product_id a b
          = (pre ++ repr_float py a ++ mid ++ repr_float py b ++ post)%string)
  /\ (forall a b,
        exists pre mid,
          ValidateOrder.total_mismatch py a b
          = (pre ++ fixed2 py a ++ mid ++ fixed2 py b)%string)
  /\ (forall a b fa fb,
        fraction_of_float a = Some fa ->
        fraction_of_float b = Some fb ->
        within_a_cent fa fb = true ->
        differ a b = false)
  /\ (forall a b fa fb,
        fraction_of_float a = Some fa ->
        fraction_of_float b = Some fb ->
        a_cent_apart fa fb = true ->
        differ a b = true).
Proof.
  split.
  { intros idx item fr product_id q quantity product stock_errors price
      db_price order_price Hp Hq Hi Ht Hs Hpr Hdb Hor.
    rewrite (validate_item_parsed py table idx item fr product_id q quantity)
      by assumption.
    unfold catalog_findings, price_finding.
    rewrite Ht, Hs, Hpr, Hdb, Hor. reflexivity. }
  split; [apply validate_total_amount_eq|].
  split; [apply calculate_total_unpriced|].
  split; [apply calculate_total_priced|].
  split.
  { intros n product_id a b.
    exists (fstr ["Item "; dec n; ": Price mismatch for ";
                  py_str py product_id; " (expected: "]),
      ", received: "%string, ")"%string.
    unfold ValidateOrder.price_mismatch, fstr. cbn.
    repeat (rewrite string_app_assoc; cbn). reflexivity. }
  split.
  { intros a b.
    exists "Total amount mismatch: expected "%string, ", received "%string.
    reflexivity. }
  split; [exact differ_within_a_cent | exact differ_a_cent_apart].
Qed.

(** The tolerance on the example of the specification and on the seeded table:
    two items at 29.99 against the totals 59.98 and 60.10, and a mouse claimed
    at 25.0 and at 26.0 against the catalog price 25; the binary64 nearest to
    10.26 is within 0.01 of 10.25, and 25 and 26 are more than 0.01 apart. *)
Lemma C2_witness :
  ValidateOrder.validate_total_amount cpython
    (Sample.order (VList [Sample.priced "p2" (VInt 2) 29.99]) (VFloat 59.98))
  = []
  /\ ValidateOrder.validate_total_amount cpython
       (Sample.order (VList [Sample.priced "p2" (VInt 2) 29.99]) (VFloat 60.10))
     = ["Total amount mismatch: expected 59.98, received 60.10"]
  /\ ValidateOrder.validate_item cpython Sample.table 0
       (Sample.priced "p2" (VInt 2) 25)
       {| ValidateOrder.calls := []; ValidateOrder.errors := [] |}
     = (Ok tt,
        {| ValidateOrder.calls := [GetItem (VStr "p2")];
           ValidateOrder.errors := [] |})
  /\ ValidateOrder.validate_item cpython Sample.table 0
       (Sample.priced "p2" (VInt 2) 26)
       {| ValidateOrder.calls := []; ValidateOrder.errors := [] |}
     = (Ok tt,
        {| ValidateOrder.calls := [GetItem (VStr "p2")];
           ValidateOrder.errors :=
             ["Item 1: Price mismatch for p2 (expected: 25.0, received: 26.0)"]
        |})
  /\ differ 10.26 10.25 = false
  /\ differ 25 26 = true.
Proof.
  pose proof (C2_tolerance cpython Sample.table)
    as (Hprice & Htotal & _ & _ & _ & _ & Hwithin & Hapart).
  split; [|split; [|split; [|split; [|split]]]].
  - rewrite (Htotal _ [Sample.priced "p2" (VInt 2) 29.99]
               59.98%float 59.98%float); reflexivity.
  - rewrite (Htotal _ [Sample.priced "p2" (VInt 2) 29.99]
               59.98%float 60.10%float); vm_compute; reflexivity.
  - unfold Sample.priced.
    rewrite (Hprice 0%nat _ _ (VStr "p2") (VInt 2) 2
               (snd (Sample.product "p2" "Wireless Mouse" 25 50
                       "Ergonomic wireless mouse with long battery life."))
               [] (VFloat 25) 25%float 25%float); reflexivity.
  - unfold Sample.priced.
    rewrite (Hprice 0%nat _ _ (VStr "p2") (VInt 2) 2
               (snd (Sample.product "p2" "Wireless Mouse" 25 50
                       "Ergonomic wireless mouse with long battery life."))
               [] (VFloat 26) 25%float 26%float); vm_compute; reflexivity.
  - eapply Hwithin; vm_compute; reflexivity.
  - eapply Hapart; vm_compute; reflexivity.
Defined.

(** Two values that are within 0.01 of each other and are flagged.  A product
    whose price in the table is the Decimal 19.99, claimed at 20.0: the
    difference is 0.01, and the binary64 nearest to 19.99 is more than 0.01
    below 20.  An item at the binary64 0.33, three of them, against the total
    1.0: three times that binary64 is within 0.01 of 1, and the product rounded
    to binary64 is more than 0.01 below 1. *)
Lemma C2_counterexample :
  (exists n d,
     fraction_of (VDecimal 1999 (-2)) = Some (1999, 100)
     /\ fraction_of (VFloat 20) = Some (n, d)
     /\ n = 20 * d
     /\ within_a_cent (1999, 100) (n, d) = true)
  /\ ValidateOrder.validate_item cpython
       (fun _ _ => Item [("productId", VStr "p9");
                         ("price", VDecimal 1999 (-2))]) 0
       (Sample.priced "p9" (VInt 1) 20)
       {| ValidateOrder.calls := []; ValidateOrder.errors := [] |}
     = (Ok tt,
        {| ValidateOrder.calls := [GetItem (VStr "p9")];
           ValidateOrder.errors :=
             ["Item 1: Price mismatch for p9 (expected: 19.99, received: 20.0)"]
        |})
  /\ (exists n d n1 d1,
        fraction_of (VFloat 0.33) = Some (n, d)
        /\ fraction_of (VFloat 1) = Some (n1, d1)
        /\ n1 = d1
        /\ within_a_cent (n * 3, d) (n1, d1) = true)
  /\ ValidateOrder.validate_total_amount cpython
       (Sample.order (VList [Sample.priced "p2" (VInt 3) 0.33]) (VFloat 1))
     = ["Total amount mismatch: expected 0.99, received 1.00"].
Proof.
  split.
  { eexists. eexists. split; [reflexivity|]. split; [vm_compute; reflexivity|].
    split; vm_compute; reflexivity. }
  split; [vm_compute; reflexivity|].
  split; [|vm_compute; reflexivity].
  eexists. eexists. eexists. eexists. split; [vm_compute; reflexivity|].
  split; [vm_compute; reflexivity|]. split; vm_compute; reflexivity.
Qed.

(** The comparison is made on the binary64 values: the doubles nearest to
    0.03 and 0.02, and to 10.26 and 10.25, are within the tolerance; those
    nearest to 0.04 and 0.03, and to 25.01 and 25, are not. *)
Example differ_near_the_tolerance :
  differ 0.03 0.02 = false /\ differ 10.26 10.25 = false
  /\ differ 0.04 0.03 = true /\ differ 25.01 25 = true.
Proof. repeat split; vm_compute; reflexivity. Qed.

(** C3, as the code has it.  An item whose quantity [int()] refuses with a
    ValueError or a TypeError gets the error "Invalid quantity" and nothing
    else: the table is not called for it.  An item whose quantity is read as an
    integer that is zero or negative gets the error "Quantity must be
    positive", and its remaining checks still run: the table is called, and
    what the catalog part finds is appended after that error. *)
Theorem C3_quantity_errors (py : PyRuntime)
    (table : trace -> value -> lookup) :
  (forall idx item fr e,
     py_contains py "productId" item = Ok true ->
     py_contains py "quantity" item = Ok true ->
     (q <- py_getitem py item "quantity" ;; py_int py q) = Raise e ->
     is_ValueError_or_TypeError e = true ->
     ValidateOrder.validate_item py table idx item fr =
       (Ok tt,
        {| ValidateOrder.calls := ValidateOrder.calls fr;
           ValidateOrder.errors :=
             ValidateOrder.errors fr
             ++ [ValidateOrder.invalid_quantity (position idx)] |}))
  /\ (forall idx item fr product_id q quantity,
        dict_get "productId" item = Some product_id ->
        dict_get "quantity" item = Some q ->
        py_int py q = Ok quantity ->
        quantity <= 0 ->
        ValidateOrder.validate_item py table idx (VDict item) fr =
          (Ok tt,
           {| ValidateOrder.calls :=
                ValidateOrder.calls fr ++ [GetItem product_id];
              ValidateOrder.errors :=
                ValidateOrder.errors fr
                ++ [ValidateOrder.quantity_not_positive (position idx)]
                ++ catalog_findings py idx product_id quantity item
                     (table (ValidateOrder.calls fr) product_id) |})).
Proof.
  split.
  - intros. now apply validate_item_unparsed with (e := e).
  - intros idx item fr product_id q quantity Hp Hq Hi Hle.
    rewrite (validate_item_parsed py table idx item fr product_id q quantity)
      by assumption.
    apply Z.leb_le in Hle. now rewrite Hle.
Qed.

(** The two kinds of quantity on the seeded table: "two" is refused by
    [int()], and the table is not called; 0 is read, and the table is called. *)
Lemma C3_witness :
  ValidateOrder.validate_item cpython Sample.table 0
    (Sample.unpriced "p2" (VStr "two"))
    {| ValidateOrder.calls := []; ValidateOrder.errors := [] |}
  = (Ok tt,
     {| ValidateOrder.calls := [];
        ValidateOrder.errors := ["Item 1: Invalid quantity"] |})
  /\ ValidateOrder.validate_item cpython Sample.table 0
       (Sample.priced "p2" (VInt 0) 26)
       {| ValidateOrder.calls := []; ValidateOrder.errors := [] |}
     = (Ok tt,
        {| ValidateOrder.calls := [GetItem (VStr "p2")];
           ValidateOrder.errors :=
             ["Item 1: Quantity must be positive";
              "Item 1: Price mismatch for p2 (expected: 25.0, received: 26.0)"]
        |}).
Proof.
  pose proof (C3_quantity_errors cpython Sample.table) as [Hbad Hlow].
  split.
  - rewrite (Hbad 0%nat _ _
               (Exn ValueError "invalid literal for int() with base 10: 'two'"));
      reflexivity.
  - unfold Sample.priced.
    rewrite (Hlow 0%nat _ _ (VStr "p2") (VInt 0) 0);
      first [reflexivity | lia].
Defined.

(** C3 as the specification states it fails: the quantity 0 is not a positive
    integer, yet the item is looked up in the table and a further check reports
    on it. *)
Lemma C3_counterexample :
  ValidateOrder.validate_items cpython Sample.table
    (VList [Sample.unpriced "p9" (VInt 0)]) []
  = (Ok ["Item 1: Quantity must be positive";
         "Item 1: Product p9 not found"],
     [GetItem (VStr "p9")]).
Proof. vm_compute. reflexivity. Qed.

(** A quantity that [int()] refuses with an OverflowError is not recorded at
    all: the exception leaves the validator. *)
Example infinite_quantity_escapes :
  ValidateOrder.validate_items cpython Sample.table
    (VList [Sample.unpriced "p2" (VFloat infinity)]) []
  = (Raise (Exn OverflowError "cannot convert float infinity to integer"), []).
Proof. vm_compute. reflexivity. Qed.

Lemma failure_reasons_named (reason : string) :
  In reason ProcessPayment.failure_reasons ->
  exists r, reason_named reason = Some r.
Proof.
  cbn. intros H.
  repeat (destruct H as [<-|H]; [eexists; reflexivity|]). contradiction.
Qed.

(** C4.  Every payment result has a status that is one of the two outcomes,
    succeeded (spelled 'success') and failed (spelled 'failed'); it has the key
    'failureReason' exactly when the status is failed, and the reason is then
    one of the five of the fixed list: insufficient funds, card declined,
    gateway timeout, invalid card details, bank authorization failure. *)
Theorem C4_payment_result_shape (py : PyRuntime) (g : ProcessPayment.gateway)
    (order_id user_id amount : value) (p : dict) :
  ProcessPayment.process_payment py g order_id user_id amount = Ok p ->
  (status_of p = Some Succeeded \/ status_of p = Some Failed)
  /\ (dict_mem "failureReason" p = true <-> status_of p = Some Failed)
  /\ (status_of p = Some Failed ->
      exists reason r,
        In reason ProcessPayment.failure_reasons
        /\ dict_get "failureReason" p = Some (VStr reason)
        /\ reason_of p = Some r)
  /\ (status_of p = Some Succeeded <->
      dict_get "status" p = Some (VStr "success"))
  /\ (status_of p = Some Failed <->
      dict_get "status" p = Some (VStr "failed"))
  /\ ProcessPayment.failure_reasons
     = ["Insufficient funds"; "Card declined"; "Payment gateway timeout";
        "Invalid card details"; "Bank authorization failed"].
Proof.
  intros H.
  destruct (process_payment_shapes py g _ _ _ _ H)
    as [(Hs & Hr & _)|(Hs & Hr & _)];
    unfold status_of, reason_of, dict_mem; rewrite Hs, Hr; cbn.
  - split; [now left|]. repeat split; try discriminate; auto.
  - split; [now right|]. repeat split; try discriminate; auto.
    intros _.
    assert (Hin : In (ProcessPayment.choice ProcessPayment.failure_reasons
                        (ProcessPayment.random_below g))
                    ProcessPayment.failure_reasons)
      by (apply choice_in; discriminate).
    destruct (failure_reasons_named _ Hin) as [r Hr'].
    eexists. exists r. repeat split; auto.
Qed.

(** A declined charge of the order of two mice. *)
Lemma C4_witness :
  exists p,
    ProcessPayment.process_payment cpython Sample.gateway_declined
      (VStr "order-test-001") (VStr "user-123") (VFloat 50) = Ok p
    /\ dict_get "status" p = Some (VStr "failed")
    /\ dict_get "failureReason" p = Some (VStr "Card declined")
    /\ (dict_mem "failureReason" p = true <-> status_of p = Some Failed).
Proof.
  eexists. split; [vm_compute; reflexivity|].
  split; [reflexivity|]. split; [reflexivity|].
  refine (proj1 (proj2 (C4_payment_result_shape cpython Sample.gateway_declined
                          (VStr "order-test-001") (VStr "user-123") (VFloat 50)
                          _ _))).
  vm_compute. reflexivity.
Defined.

(** A charge always has a result when it is declined, and when it succeeds on
    an amount that is a number. *)
Lemma process_payment_total (py : PyRuntime) (g : ProcessPayment.gateway)
    (order_id user_id : value) (amount : float) :
  exists p,
    ProcessPayment.process_payment py g order_id user_id (VFloat amount) = Ok p.
Proof.
  unfold ProcessPayment.process_payment.
  destruct (PrimFloat.ltb _ _); cbn; eexists; reflexivity.
Qed.

(** C5, as the code has it.  The structural check reports one message
    "Missing required field: <field>" for each of orderId, userId, items and
    totalAmount that is absent or null, in this order, and none for a field
    that is there; after them comes what it says about the shape of 'items'
    ([items_shape]).  When a field is missing the verdict has isValid = false,
    isValid being (error count == 0), and the handler raises the rejection
    without entering a further step. *)
Theorem C5_missing_fields (py : PyRuntime) (table : trace -> value -> lookup)
    (order : dict) :
  ValidateOrder.validate_required_fields order
  = map missing_field
      (filter (field_missing order) ValidateOrder.required_fields)
    ++ items_shape order
  /\ (forall field,
        In field ValidateOrder.required_fields ->
        count_occ string_dec (ValidateOrder.validate_required_fields order)
          (missing_field field)
        = if field_missing order field then 1%nat else 0%nat)
  /\ (forall field context t0,
        In field ValidateOrder.required_fields ->
        field_missing order field = true ->
        ValidateOrder.is_valid (ValidateOrder.validate_required_fields order)
        = false
        /\ dict_get "validationResult"
             (ValidateOrder.response order context
                (ValidateOrder.validate_required_fields order))
           = Some (ValidateOrder.validation_result context false
                     (ValidateOrder.validate_required_fields order))
        /\ ValidateOrder.lambda_handler py table order context t0
           = (Raise (ValidateOrder.rejection
                       (ValidateOrder.validate_required_fields order)),
              t0 ++ [Enter "validate_required_fields"])).
Proof.
  split; [apply validate_required_fields_eq|].
  split; [intros field; apply missing_field_counted|].
  intros field context t0 Hin Hm.
  pose proof (missing_field_invalid order field Hin Hm) as Hv.
  split; [exact Hv|]. split.
  - rewrite response_verdict. now rewrite Hv.
  - rewrite lambda_handler_after_steps, collect_errors_at_fields.
    + now rewrite Hv.
    + intros Hnil. rewrite Hnil in Hv. discriminate.
Qed.

(** C5 as the specification states it fails: with 'items' null one field is
    missing, and the check reports two errors on it. *)
Lemma C5_counterexample :
  filter (field_missing (Sample.order VNone (VFloat 50)))
    ValidateOrder.required_fields = ["items"]
  /\ ValidateOrder.validate_required_fields (Sample.order VNone (VFloat 50))
     = ["Missing required field: items"; "Items must be an array"].
Proof. split; reflexivity. Qed.

(** An order without a userId and with a null totalAmount: one message for
    each, in the order of the fields. *)
Example two_missing_fields :
  ValidateOrder.validate_required_fields
    [("orderId", VStr "order-test-001");
     ("items", VList [Sample.priced "p2" (VInt 2) 25]);
     ("totalAmount", VNone)]
  = ["Missing required field: userId"; "Missing required field: totalAmount"].
Proof. reflexivity. Qed.

(** C6.  Within the check of the items: insufficient stock yields an error
    that holds the requested and the available quantity, and the price check of
    the item still runs (its findings follow that error); a lookup that fails
    yields one error of the item, and the loop goes on with the next item; the
    errors of all items form one sequence, a group for each item reached, in
    the order of the items, every error naming the position of its item. *)
Theorem C6_item_errors_are_local (py : PyRuntime)
    (table : trace -> value -> lookup) :
  (forall idx item fr product_id q quantity product stock available_stock,
     dict_get "productId" item = Some product_id ->
     dict_get "quantity" item = Some q ->
     py_int py q = Ok quantity ->
     table (ValidateOrder.calls fr) product_id = Item product ->
     dict_get "stock" product = Some stock ->
     py_int py stock = Ok available_stock ->
     available_stock < quantity ->
     ValidateOrder.validate_item py table idx (VDict item) fr =
       (Ok tt,
        {| ValidateOrder.calls :=
             ValidateOrder.calls fr ++ [GetItem product_id];
           ValidateOrder.errors :=
             ValidateOrder.errors fr
             ++ (if quantity <=? 0
                 then [ValidateOrder.quantity_not_positive (position idx)]
                 else [])
             ++ [ValidateOrder.insufficient_stock py (position idx) product_id
                   quantity available_stock]
             ++ match price_finding py idx product_id item product with
                | Ok price_errors => price_errors
                | Raise e => [ValidateOrder.product_fault (position idx) e]
                end |}))
  /\ (forall n product_id quantity available_stock,
        exists pre mid post,
          ValidateOrder.insufficient_stock py n product_id quantity
            available_stock
          = (pre ++ dec quantity ++ mid ++ dec available_stock ++ post)%string)
  /\ (forall idx item rest fr product_id q quantity e,
        dict_get "productId" item = Some product_id ->
        dict_get "quantity" item = Some q ->
        py_int py q = Ok quantity ->
        table (ValidateOrder.calls fr) product_id = Fails e ->
        let fr' :=
          {| ValidateOrder.calls :=
               ValidateOrder.calls fr ++ [GetItem product_id];
             ValidateOrder.errors :=
               ValidateOrder.errors fr
               ++ (if quantity <=? 0
                   then [ValidateOrder.quantity_not_positive (position idx)]
                   else [])
               ++ [ValidateOrder.product_fault (position idx) e] |} in
        ValidateOrder.validate_item py table idx (VDict item) fr = (Ok tt, fr')
        /\ ValidateOrder.validate_items_from py table idx (VDict item :: rest) fr
           = ValidateOrder.validate_items_from py table (S idx) rest fr')
  /\ (forall idx items fr,
        exists keys groups,
          ValidateOrder.calls
            (snd (ValidateOrder.validate_items_from py table idx items fr))
          = ValidateOrder.calls fr ++ map GetItem keys
          /\ ValidateOrder.errors
               (snd (ValidateOrder.validate_items_from py table idx items fr))
             = ValidateOrder.errors fr ++ List.concat groups
          /\ (List.length groups <= List.length items)%nat
          /\ forall i group,
               nth_error groups i = Some group ->
               Forall (names_item (idx + i)) group)
  /\ (forall idx xs ys fr,
        ValidateOrder.validate_items_from py table idx (xs ++ ys) fr =
          match ValidateOrder.validate_items_from py table idx xs fr with
          | (Ok _, fr1) =>
              ValidateOrder.validate_items_from py table
                (idx + List.length xs) ys fr1
          | (Raise e, fr1) => (Raise e, fr1)
          end).
Proof.
  split.
  { intros idx item fr product_id q quantity product stock available_stock
      Hp Hq Hi Ht Hs Ha Hlt.
    rewrite (validate_item_parsed py table idx item fr product_id q quantity)
      by assumption.
    unfold catalog_findings, stock_finding. rewrite Ht, Hs, Ha.
    apply Z.ltb_lt in Hlt. rewrite Hlt.
    destruct (price_finding py idx product_id item product); reflexivity. }
  split.
  { intros n product_id quantity available_stock.
    exists (fstr ["Item "; dec n; ": Insufficient stock for ";
                  py_str py product_id; " (requested: "]),
      ", available: "%string, ")"%string.
    unfold ValidateOrder.insufficient_stock, fstr. cbn.
    repeat (rewrite string_app_assoc; cbn). reflexivity. }
  split.
  { intros idx item rest fr product_id q quantity e Hp Hq Hi Ht fr'.
    assert (Hrun : ValidateOrder.validate_item py table idx (VDict item) fr
                   = (Ok tt, fr')).
    { rewrite (validate_item_parsed py table idx item fr product_id q quantity)
        by assumption.
      unfold catalog_findings. now rewrite Ht. }
    split; [exact Hrun|].
    rewrite validate_items_from_cons. now rewrite Hrun. }
  split.
  - apply validate_items_from_grows.
  - apply validate_items_from_app.
Qed.

(** On the seeded table: three keyboards and sixty mice at a wrong price, of
    which fifty are in stock; then the same two items while the table cannot
    be reached. *)
Lemma C6_witness :
  ValidateOrder.validate_items cpython Sample.table
    (VList [Sample.priced "p3" (VInt 3) 75;
            Sample.priced "p2" (VInt 60) 24.5]) []
  = (Ok ["Item 2: Insufficient stock for p2 (requested: 60, available: 50)";
         "Item 2: Price mismatch for p2 (expected: 25.0, received: 24.5)"],
     [GetItem (VStr "p3"); GetItem (VStr "p2")])
  /\ ValidateOrder.validate_items cpython Sample.unreachable
       (VList [Sample.priced "p3" (VInt 3) 75;
               Sample.priced "p2" (VInt 60) 24.5]) []
     = (Ok ["Item 1: Error validating product - Could not connect to the endpoint URL";
            "Item 2: Error validating product - Could not connect to the endpoint URL"],
        [GetItem (VStr "p3"); GetItem (VStr "p2")])
  /\ ValidateOrder.validate_item cpython Sample.table 1
       (Sample.priced "p2" (VInt 60) 24.5)
       {| ValidateOrder.calls := [GetItem (VStr "p3")];
          ValidateOrder.errors := [] |}
     = (Ok tt,
        {| ValidateOrder.calls := [GetItem (VStr "p3"); GetItem (VStr "p2")];
           ValidateOrder.errors :=
             ["Item 2: Insufficient stock for p2 (requested: 60, available: 50)";
              "Item 2: Price mismatch for p2 (expected: 25.0, received: 24.5)"]
        |}).
Proof.
  split; [vm_compute; reflexivity|].
  split; [vm_compute; reflexivity|].
  pose proof (C6_item_errors_are_local cpython Sample.table) as [Hstock _].
  unfold Sample.priced.
  rewrite (Hstock 1%nat _ _ (VStr "p2") (VInt 60) 60
             (snd (Sample.product "p2" "Wireless Mouse" 25 50
                     "Ergonomic wireless mouse with long battery life."))
             (VDecimal 50 0) 50);
    first [reflexivity | lia | (vm_compute; reflexivity)].
Defined.




(** C8, as the code has it.  The envelope a handler returns is the envelope it
    was given with the handler's own key set to its result: every other key
    keeps its place and its value (items and totalAmount among them, and for
    the payment the validationResult of the validator), and when the key was
    not there it is appended as the one new key. *)
Theorem C8_envelope_is_extended (py : PyRuntime)
    (table : trace -> value -> lookup) (g : ProcessPayment.gateway) :
  (forall event context t0 t out,
     dict_wf event ->
     ValidateOrder.lambda_handler py table event context t0 = (Ok out, t) ->
     out = dict_set "validationResult"
             (ValidateOrder.validation_result context true []) event
     /\ (forall k, k <> "validationResult" -> dict_get k out = dict_get k event)
     /\ (dict_get "validationResult" event = None ->
         out = event ++ [("validationResult",
                          ValidateOrder.validation_result context true [])]))
  /\ (forall event context out,
        dict_wf event ->
        ProcessPayment.lambda_handler py g event context = Ok out ->
        exists p,
          charge py g event = Ok p
          /\ out = dict_set "paymentResult" (VDict p) event
          /\ (forall k, k <> "paymentResult" -> dict_get k out = dict_get k event)
          /\ dict_get "validationResult" out
             = dict_get "validationResult" event
          /\ (dict_get "paymentResult" event = None ->
              out = event ++ [("paymentResult", VDict p)])).
Proof.
  split.
  - intros event context t0 t out Hwf H.
    destruct (lambda_handler_returns py table _ _ _ _ _ H) as [_ ->].
    unfold ValidateOrder.response. rewrite dict_update_copy by assumption.
    change (ValidateOrder.is_valid []) with true.
    split; [reflexivity|]. split.
    + intros k Hk. now apply dict_get_set_other.
    + apply dict_set_absent.
  - intros event context out Hwf.
    rewrite payment_handler_after_charge.
    destruct (charge py g event) as [p|e] eqn:E; [|discriminate].
    destruct (PrimFloat.ltb _ _); [|discriminate].
    intros H. inversion H. rewrite dict_update_copy by assumption.
    exists p. split; [reflexivity|]. split; [reflexivity|].
    split; [|split].
    + intros k Hk. now apply dict_get_set_other.
    + apply dict_get_set_other. discriminate.
    + apply dict_set_absent.
Qed.

(** The order of two mice through both handlers, the charge succeeding. *)
Lemma C8_witness :
  exists validated paid t,
    ValidateOrder.lambda_handler cpython Sample.table Sample.two_mice
      Sample.context [] = (Ok validated, t)
    /\ validated
       = Sample.two_mice
         ++ [("validationResult",
              ValidateOrder.validation_result Sample.context true [])]
    /\ ProcessPayment.lambda_handler cpython Sample.gateway_ok validated
         Sample.context = Ok paid
    /\ dict_keys paid
       = ["orderId"; "userId"; "items"; "totalAmount"; "validationResult";
          "paymentResult"]
    /\ dict_get "validationResult" paid = dict_get "validationResult" validated.
Proof.
  eexists. eexists. eexists.
  split; [vm_compute; reflexivity|].
  split.
  { refine (proj2 (proj2 (proj1 (C8_envelope_is_extended cpython Sample.table
                                   Sample.gateway_ok)
                            Sample.two_mice Sample.context [] _ _ _ _)) _).
    - repeat constructor; cbn; intuition discriminate.
    - vm_compute. reflexivity.
    - reflexivity. }
  split; [vm_compute; reflexivity|].
  split; reflexivity.
Defined.

(** C8 as the specification states it fails: an envelope that already carries
    a validationResult is returned with the same keys, none appended, and with
    that field overwritten. *)
Lemma C8_counterexample :
  exists out t,
    ValidateOrder.lambda_handler cpython Sample.table
      (Sample.two_mice
       ++ [("validationResult",
            VDict [("isValid", VBool false);
                   ("errors", VList [VStr "Item 1: Product p2 not found"])])])
      Sample.context [] = (Ok out, t)
    /\ dict_keys out
       = dict_keys
           (Sample.two_mice
            ++ [("validationResult",
                 VDict [("isValid", VBool false);
                        ("errors",
                         VList [VStr "Item 1: Product p2 not found"])])])
    /\ dict_get "validationResult" out
       = Some (ValidateOrder.validation_result Sample.context true [])
    /\ dict_get "validationResult" out
       <> dict_get "validationResult"
            (Sample.two_mice
             ++ [("validationResult",
                  VDict [("isValid", VBool false);
                         ("errors",
                          VList [VStr "Item 1: Product p2 not found"])])]).
Proof.
  eexists. eexists. split; [vm_compute; reflexivity|].
  split; [reflexivity|]. split; [reflexivity|]. discriminate.
Qed.

(** C9.  The refund of any transaction identifier and amount is a result with
    the status 'refunded', the refundId "ref-" followed by the identifier
    without its first four characters, the identifier itself as
    originalTransactionId, and the amount; for an identifier "txn-<suffix>" the
    refundId is "ref-<suffix>".  The function has no path on which it fails. *)
Theorem C9_refund (g : ProcessPayment.gateway) (transaction_id : string)
    (amount : value) :
  dict_get "status" (ProcessPayment.refund_payment g transaction_id amount)
  = Some (VStr "refunded")
  /\ dict_get "refundId"
       (ProcessPayment.refund_payment g transaction_id amount)
     = Some (VStr ("ref-" ++ ProcessPayment.string_from 4 transaction_id))
  /\ dict_get "originalTransactionId"
       (ProcessPayment.refund_payment g transaction_id amount)
     = Some (VStr transaction_id)
  /\ dict_get "amount" (ProcessPayment.refund_payment g transaction_id amount)
     = Some amount
  /\ (forall (a b c d : ascii) (suffix : string),
        transaction_id = String a (String b (String c (String d suffix))) ->
        dict_get "refundId"
          (ProcessPayment.refund_payment g transaction_id amount)
        = Some (VStr ("ref-" ++ suffix)))
  /\ (forall suffix,
        dict_get "refundId"
          (ProcessPayment.refund_payment g ("txn-" ++ suffix) amount)
        = Some (VStr ("ref-" ++ suffix)))
  /\ ((String.length transaction_id <= 4)%nat ->
      dict_get "refundId"
        (ProcessPayment.refund_payment g transaction_id amount)
      = Some (VStr "ref-")).
Proof.
  repeat split; try reflexivity.
  - intros a b c d suffix ->. reflexivity.
  - destruct transaction_id as [|a [|b [|c [|d [|e s]]]]]; cbn;
      intros H; try reflexivity; lia.
Qed.

(** The example of the specification. *)
Lemma C9_witness :
  ProcessPayment.refund_payment Sample.gateway_ok "txn-abc123" (VFloat 59.98)
  = [("status", VStr "refunded"); ("refundId", VStr "ref-abc123");
     ("originalTransactionId", VStr "txn-abc123");
     ("refundedAt", VStr "2024-01-16T10:00:00.000000Z");
     ("amount", VFloat 59.98);
     ("message", VStr "Payment refunded successfully")]
  /\ dict_get "refundId"
       (ProcessPayment.refund_payment Sample.gateway_ok "txn-abc123"
          (VFloat 59.98))
     = Some (VStr "ref-abc123").
Proof.
  split; [reflexivity|].
  exact (proj1 (proj2 (proj2 (proj2 (proj2 (proj2
           (C9_refund Sample.gateway_ok "txn-abc123" (VFloat 59.98)))))))
           "abc123").
Defined.

(** C10, as the code has it.  An item without a price adds nothing to the
    recomputed total, so when no item carries a price the recomputed total is
    0.0, and for a claimed total that [float()] reads the reconciliation passes
    exactly when the absolute value of the claimed total does not exceed 0.01;
    otherwise it reports the mismatch against the expected total 0.0 (printed
    0.00). *)
Theorem C10_unpriced_total (py : PyRuntime) (order : dict)
    (items : list value) (order_total : float) :
  py_iter py (dict_get_default "items" (VList []) order) = Ok items ->
  Forall (fun item => py_contains py "price" item = Ok false) items ->
  py_float py (dict_get_default "totalAmount" (VInt 0) order) = Ok order_total ->
  ValidateOrder.calculate_total py items 0%float = Ok 0%float
  /\ ValidateOrder.validate_total_amount py order
     = (if PrimFloat.ltb 0.01%float (PrimFloat.abs order_total)
        then [ValidateOrder.total_mismatch py 0%float order_total]
        else [])
  /\ (ValidateOrder.validate_total_amount py order = []
      <-> PrimFloat.ltb 0.01%float (PrimFloat.abs order_total) = false).
Proof.
  intros Hi Hn Ht.
  pose proof (calculate_total_no_price py items 0%float Hn) as Hc.
  split; [exact Hc|].
  rewrite (validate_total_amount_eq py order items 0%float order_total)
    by assumption.
  rewrite differ_zero. unfold tolerance.
  destruct (PrimFloat.ltb 0.01%float (PrimFloat.abs order_total)).
  - split; [reflexivity|]. split; discriminate.
  - split; [reflexivity|]. split; reflexivity.
Qed.

(** Two mice without a price: the totals 0.01 and -0.01 pass, 0.02 does not. *)
Lemma C10_witness :
  ValidateOrder.validate_total_amount cpython
    (Sample.order (VList [Sample.unpriced "p2" (VInt 2)]) (VFloat 0.01)) = []
  /\ ValidateOrder.validate_total_amount cpython
       (Sample.order (VList [Sample.unpriced "p2" (VInt 2)]) (VFloat (-0.01)))
     = []
  /\ ValidateOrder.validate_total_amount cpython
       (Sample.order (VList [Sample.unpriced "p2" (VInt 2)]) (VFloat 0.02))
     = ["Total amount mismatch: expected 0.00, received 0.02"].
Proof.
  split; [|split].
  - refine (proj2 (proj2 (proj2 (C10_unpriced_total cpython _
                                   [Sample.unpriced "p2" (VInt 2)] 0.01%float
                                   _ _ _))) _);
      try reflexivity.
    repeat constructor.
  - vm_compute. reflexivity.
  - vm_compute. reflexivity.
Defined.

(** C10 as the specification states it fails: the claimed total -5.0 is at
    most 0.01, no item carries a price, and the reconciliation reports a
    mismatch. *)
Lemma C10_counterexample :
  PrimFloat.leb (-5)%float 0.01%float = true
  /\ ValidateOrder.validate_total_amount cpython
       (Sample.order (VList [Sample.unpriced "p2" (VInt 2)]) (VFloat (-5)))
     = ["Total amount mismatch: expected 0.00, received -5.00"].
Proof. split; vm_compute; reflexivity. Qed.

(** * Further properties of the two handlers *)

(** Case analysis on the innermost scrutinee of the goal. *)
Ltac case_step :=
  match goal with
  | |- context [match ?x with _ => _ end] =>
      lazymatch x with
      | context [match _ with _ => _ end] => fail
      | _ => idtac
      end;
      match type of x with
      | result _ => destruct x eqn:?
      | option _ => destruct x eqn:?
      | bool => destruct x eqn:?
      | lookup => destruct x eqn:?
      | exn_class => destruct x eqn:?
      end
  end.

Lemma app_eq_self {A : Type} (l added : list A) :
  l ++ added = l -> added = [].
Proof.
  intros H. apply (app_inv_head l). now rewrite app_nil_r.
Qed.

Section AcceptanceFacts.

Import ValidateOrder.

Variable py : PyRuntime.
Variable table : trace -> value -> lookup.

Arguments missing_product_id : simpl never.
Arguments missing_quantity : simpl never.
Arguments quantity_not_positive : simpl never.
Arguments invalid_quantity : simpl never.
Arguments product_not_found : simpl never.
Arguments insufficient_stock : simpl never.
Arguments price_mismatch : simpl never.
Arguments product_fault : simpl never.

(** An item that is not a dict never passes without an error. *)
Lemma validate_item_not_dict (idx : nat) (item : value) (fr fr' : frame) :
  (forall d, item <> VDict d) ->
  validate_item py table idx item fr = (Ok tt, fr') ->
  errors fr' <> errors fr.
Proof.
  intros Hnd.
  unfold validate_item, try_except, lift, raise, append_error, modify,
    get_item, is_ValueError_or_TypeError.
  destruct item; try (exfalso; eapply Hnd; reflexivity); cbn;
    repeat (case_step; cbn); intros H; inversion H; subst; cbn;
    intros Heq; apply app_eq_self in Heq; discriminate.
Qed.

(** What the catalog part finds is empty only for a product that is there, in
    stock and at the price. *)
Lemma catalog_findings_nil (idx : nat) (product_id : value) (quantity : Z)
    (item : dict) (answer : lookup) :
  catalog_findings py idx product_id quantity item answer = [] ->
  exists product,
    answer = Item product
    /\ (dict_get "stock" product = None
        \/ exists stock available_stock,
             dict_get "stock" product = Some stock
             /\ py_int py stock = Ok available_stock
             /\ quantity <= available_stock)
    /\ (dict_get "price" item = None
        \/ exists price db_price order_price,
             dict_get "price" item = Some price
             /\ py_float py (dict_get_default "price" (VInt 0) product)
                = Ok db_price
             /\ py_float py price = Ok order_price
             /\ differ db_price order_price = false).
Proof.
  unfold catalog_findings, stock_finding, price_finding.
  destruct answer as [e| |product]; try discriminate.
  intros H. exists product. split; [reflexivity|].
  assert (Hprice :
            forall stock_errors,
              stock_errors ++
              match
                match dict_get "price" item with
                | Some price =>
                    match
                      py_float py (dict_get_default "price" (VInt 0) product)
                    with
                    | Ok db_price =>
                        match py_float py price with
                        | Ok order_price =>
                            Ok (if differ db_price order_price
                                then [price_mismatch py (position idx)
                                        product_id db_price order_price]
                                else [])
                        | Raise e => Raise e
                        end
                    | Raise e => Raise e
                    end
                | None => Ok []
                end
              with
              | Ok price_errors => price_errors
              | Raise e => [product_fault (position idx) e]
              end = [] ->
              stock_errors = []
              /\ (dict_get "price" item = None
                  \/ exists price db_price order_price,
                       dict_get "price" item = Some price
                       /\ py_float py
                            (dict_get_default "price" (VInt 0) product)
                          = Ok db_price
                       /\ py_float py price = Ok order_price
                       /\ differ db_price order_price = false)).
  { intros stock_errors Hnil. apply app_eq_nil in Hnil as [Hs Hp].
    split; [exact Hs|].
    destruct (dict_get "price" item) as [price|] eqn:Epr; [|now left].
    destruct (py_float py (dict_get_default "price" (VInt 0) product))
      as [db|e] eqn:Edb; [|cbn in Hp; discriminate Hp].
    destruct (py_float py price) as [op|e] eqn:Eop;
      [|cbn in Hp; discriminate Hp].
    destruct (differ db op) eqn:Ed; [cbn in Hp; discriminate Hp|].
    right. exists price, db, op. auto. }
  destruct (dict_get "stock" product) as [stock|] eqn:Es.
  - destruct (py_int py stock) as [available|e] eqn:Ea; [|cbn in H; discriminate H].
    apply Hprice in H as [Hs Hp]. split; [|exact Hp].
    destruct (available <? quantity) eqn:El; [cbn in Hs; discriminate Hs|].
    apply Z.ltb_ge in El. right. exists stock, available. auto.
  - apply Hprice in H as [_ Hp]. split; [now left | exact Hp].
Qed.

Lemma catalog_findings_clean (idx : nat) (product_id : value) (quantity : Z)
    (item product : dict) :
  (dict_get "stock" product = None
   \/ exists stock available_stock,
        dict_get "stock" product = Some stock
        /\ py_int py stock = Ok available_stock
        /\ quantity <= available_stock) ->
  (dict_get "price" item = None
   \/ exists price db_price order_price,
        dict_get "price" item = Some price
        /\ py_float py (dict_get_default "price" (VInt 0) product) = Ok db_price
        /\ py_float py price = Ok order_price
        /\ differ db_price order_price = false) ->
  catalog_findings py idx product_id quantity item (Item product) = [].
Proof.
  intros Hs Hp. unfold catalog_findings, stock_finding, price_finding.
  destruct Hs as [Hs|(stock & available & Hs & Ha & Hle)]; rewrite Hs;
    [|rewrite Ha; apply Z.ltb_ge in Hle; rewrite Hle];
    (destruct Hp as [Hp|(price & db & op & Hp & Hdb & Hop & Hd)]; rewrite Hp;
     [|rewrite Hdb, Hop, Hd]); reflexivity.
Qed.

(** One item passes without an error exactly when it is clean. *)
Lemma validate_item_clean (idx : nat) (item : value) (fr fr' : frame) :
  validate_item py table idx item fr = (Ok tt, fr') /\ errors fr' = errors fr
  <-> exists key,
        clean_item py table item (calls fr) key
        /\ fr' = {| calls := calls fr ++ [GetItem key]; errors := errors fr |}.
Proof.
  split.
  - intros [Hrun Herr].
    destruct item as [| | | | | | |d].
    1-7: exfalso; revert Herr;
      eapply validate_item_not_dict; [|exact Hrun]; discriminate.
    destruct (dict_get "productId" d) as [product_id|] eqn:Ep.
    2:{ exfalso. revert Hrun.
        unfold validate_item, lift, append_error, modify. cbn.
        unfold dict_mem. rewrite Ep. cbn. intros H. inversion H. subst.
        cbn in Herr. apply app_eq_self in Herr. discriminate. }
    destruct (dict_get "quantity" d) as [q|] eqn:Eq.
    2:{ exfalso. revert Hrun.
        unfold validate_item, lift, append_error, modify. cbn.
        unfold dict_mem. rewrite Ep, Eq. cbn. intros H. inversion H. subst.
        cbn in Herr. apply app_eq_self in Herr. discriminate. }
    destruct (py_int py q) as [quantity|e] eqn:Ei.
    2:{ exfalso. revert Hrun.
        unfold validate_item, try_except, lift, raise, append_error, modify.
        cbn. unfold dict_mem. rewrite Ep, Eq. cbn. rewrite Ei. cbn.
        destruct (is_ValueError_or_TypeError e); cbn; intros H;
          inversion H; subst.
        cbn in Herr. apply app_eq_self in Herr. discriminate. }
    rewrite (validate_item_parsed py table idx d fr product_id q quantity)
      in Hrun by assumption.
    inversion Hrun as [Hfr]. subst fr'. cbn in Herr.
    apply app_eq_self in Herr. apply app_eq_nil in Herr as [Hpos Hcat].
    destruct (quantity <=? 0) eqn:El; [discriminate|].
    apply Z.leb_gt in El.
    destruct (catalog_findings_nil _ _ _ _ _ Hcat) as (product & Ht & Hs & Hp).
    exists product_id. split.
    + exists d, q, quantity, product. repeat split; auto.
    + rewrite Hcat. cbn. now rewrite app_nil_r.
  - intros (key & (d & q & quantity & product & -> & Hp & Hq & Hi & Hpos
                   & Ht & Hs & Hpr) & ->).
    rewrite (validate_item_parsed py table idx d fr key q quantity)
      by assumption.
    rewrite Ht, (catalog_findings_clean idx key quantity d product Hs Hpr).
    apply Z.leb_gt in Hpos. rewrite Hpos. cbn. rewrite app_nil_r. auto.
Qed.

End AcceptanceFacts.

Section AcceptedOrders.

Import ValidateOrder.

Variable py : PyRuntime.
Variable table : trace -> value -> lookup.

Arguments ValidateOrder.validate_item : simpl never.
Arguments ValidateOrder.validate_items : simpl never.
Arguments ValidateOrder.validate_total_amount : simpl never.

Lemma frame_eta (fr : frame) :
  fr = {| calls := calls fr; errors := errors fr |}.
Proof. now destruct fr. Qed.

(** The loop over the items ends without an error exactly when the items are
    clean one after the other. *)
Lemma validate_items_from_clean (idx : nat) (items : list value)
    (fr fr' : frame) :
  validate_items_from py table idx items fr = (Ok tt, fr')
  /\ errors fr' = errors fr
  <-> exists keys,
        clean_items py table items (calls fr) keys
        /\ fr' = {| calls := calls fr ++ map GetItem keys;
                    errors := errors fr |}.
Proof.
  revert idx fr fr'. induction items as [|item rest IH]; intros idx fr fr'.
  - cbn. split.
    + intros [H _]. inversion H. subst. exists []. cbn.
      rewrite app_nil_r. split; [exact I | apply frame_eta].
    + intros ([|k ks] & Hc & ->); [|contradiction]. cbn.
      rewrite app_nil_r. rewrite <- frame_eta. auto.
  - rewrite validate_items_from_cons. split.
    + intros [Hrun Herr].
      pose proof (validate_item_grows py table idx item fr) as [_ (a1 & He1 & _)].
      destruct (validate_item py table idx item fr) as [[[]|e] fr1] eqn:E1;
        [|discriminate].
      cbn [snd] in He1.
      destruct (validate_items_from_grows py table (S idx) rest fr1)
        as (ks & groups & _ & He2 & _).
      rewrite Hrun in He2. cbn [snd] in He2.
      rewrite He2, He1, <- app_assoc in Herr.
      apply app_eq_self in Herr. apply app_eq_nil in Herr as [Ha1 Hgroups].
      subst a1. rewrite app_nil_r in He1.
      destruct (proj1 (validate_item_clean py table idx item fr fr1)
                  (conj E1 He1)) as (key & Hclean & Hfr1).
      assert (Herr' : errors fr' = errors fr1)
        by (rewrite He2, Hgroups; apply app_nil_r).
      destruct (proj1 (IH (S idx) fr1 fr') (conj Hrun Herr'))
        as (keys & Hrest & Hfr').
      exists (key :: keys). subst fr1. cbn in *. split; [auto|].
      now rewrite <- app_assoc in Hfr'.
    + intros ([|key keys] & Hc & ->); [contradiction|].
      destruct Hc as [Hclean Hrest].
      destruct (proj2 (validate_item_clean py table idx item fr
                         {| calls := calls fr ++ [GetItem key];
                            errors := errors fr |}))
        as [E1 _]; [exists key; auto|].
      rewrite E1.
      destruct (proj2 (IH (S idx)
                         {| calls := calls fr ++ [GetItem key];
                            errors := errors fr |}
                         {| calls := (calls fr ++ [GetItem key])
                                     ++ map GetItem keys;
                            errors := errors fr |}))
        as [E2 _]; [exists keys; auto|].
      cbn [map]. rewrite E2. rewrite <- app_assoc. auto.
Qed.

Lemma validate_items_of_list (items : list value) (t : trace) :
  ValidateOrder.validate_items py table (VList items) t =
    match validate_items_from py table 0 items {| calls := t; errors := [] |}
    with
    | (Ok _, fr) => (Ok (errors fr), calls fr)
    | (Raise e, fr) => (Raise e, calls fr)
    end.
Proof.
  unfold ValidateOrder.validate_items. cbn.
  destruct (validate_items_from py table 0 items _) as [[u|e] fr]; reflexivity.
Qed.

(** The structural check passes exactly when the four fields are there and
    not null and 'items' is a list that is not empty. *)
Lemma validate_required_fields_nil (order : dict) :
  validate_required_fields order = []
  <-> (forall field, In field required_fields ->
                     field_missing order field = false)
      /\ exists item rest, dict_get "items" order = Some (VList (item :: rest)).
Proof.
  rewrite validate_required_fields_eq. unfold items_shape, required_fields.
  cbn [filter In].
  assert (Hitems : field_missing order "items" =
                   match dict_get "items" order with
                   | None | Some VNone => true
                   | Some _ => false
                   end) by reflexivity.
  split.
  - intros H.
    destruct (dict_get "items" order) as [[| | | | | |[|x l]|]|];
      rewrite Hitems in *;
      destruct (field_missing order "orderId") eqn:E1;
      destruct (field_missing order "userId") eqn:E2;
      destruct (field_missing order "totalAmount") eqn:E4;
      try discriminate H.
    split; [|eauto].
    intros field Hin.
    repeat (destruct Hin as [<-|Hin]; [assumption|]). contradiction.
  - intros [Hall (x & l & Hi)].
    rewrite (Hall "orderId"), (Hall "userId"), (Hall "items"),
      (Hall "totalAmount") by (cbn; auto).
    rewrite Hi. reflexivity.
Qed.

(** The reconciliation passes exactly when the recomputed and the claimed
    total are read and do not differ. *)
Lemma validate_total_amount_nil (order : dict) :
  validate_total_amount py order = []
  <-> exists items calculated_total order_total,
        py_iter py (dict_get_default "items" (VList []) order) = Ok items
        /\ calculate_total py items 0%float = Ok calculated_total
        /\ py_float py (dict_get_default "totalAmount" (VInt 0) order)
           = Ok order_total
        /\ differ calculated_total order_total = false.
Proof.
  split.
  - unfold validate_total_amount. cbn.
    destruct (py_iter py _) as [items|e] eqn:Ei; cbn; [|discriminate].
    destruct (calculate_total py items 0%float) as [c|e] eqn:Ec; cbn;
      [|discriminate].
    destruct (py_float py _) as [t|e] eqn:Et; cbn; [|discriminate].
    change (PrimFloat.ltb 0.01%float (PrimFloat.abs (c - t)%float))
      with (differ c t).
    destruct (differ c t) eqn:Ed; cbn; [discriminate|].
    intros _. exists items, c, t. auto.
  - intros (items & c & t & Hi & Hc & Ht & Hd).
    rewrite (validate_total_amount_eq py order items c t) by assumption.
    now rewrite Hd.
Qed.

(** When the handler of the validator returns. *)
Lemma lambda_handler_returns_iff (event : dict) (context : lambda_context)
    (t0 t : trace) (out : dict) :
  lambda_handler py table event context t0 = (Ok out, t)
  <-> exists items keys calculated_total order_total,
        (forall field, In field required_fields ->
                       field_missing event field = false)
        /\ dict_get "items" event = Some (VList items)
        /\ items <> []
        /\ clean_items py table items
             ((t0 ++ [Enter "validate_required_fields"])
              ++ [Enter "validate_items"]) keys
        /\ calculate_total py items 0%float = Ok calculated_total
        /\ py_float py (dict_get_default "totalAmount" (VInt 0) event)
           = Ok order_total
        /\ differ calculated_total order_total = false
        /\ t = (((t0 ++ [Enter "validate_required_fields"])
                 ++ [Enter "validate_items"]) ++ map GetItem keys)
               ++ [Enter "validate_total_amount"]
        /\ out = response event context [].
Proof.
  split.
  - intros H.
    destruct (lambda_handler_returns py table _ _ _ _ _ H) as [Hc ->].
    unfold collect_errors, entering, modify in Hc. cbn in Hc.
    destruct (validate_required_fields event) as [|m ms] eqn:H1; cbn in Hc;
      [|discriminate Hc].
    destruct (ValidateOrder.validate_items py table _ _) as [[errs|e] t2]
      eqn:H2; cbn in Hc; [|discriminate Hc].
    destruct errs as [|m ms]; cbn in Hc; [|discriminate Hc].
    inversion Hc as [[He Ht]]. clear Hc.
    apply validate_required_fields_nil in H1 as [Hall (x & l & Hi)].
    unfold dict_get_default in H2. rewrite Hi in H2.
    rewrite validate_items_of_list in H2.
    destruct (validate_items_from py table 0 (x :: l) _)
      as [[[]|e] fr] eqn:E; [|discriminate].
    inversion H2 as [[Herr Hcalls]].
    destruct (proj1 (validate_items_from_clean 0 (x :: l) _ fr)
                (conj E Herr)) as (keys & Hclean & Hfr).
    apply validate_total_amount_nil in He
      as (items & c & tot & Hit & Hcalc & Htot & Hd).
    unfold dict_get_default in Hit. rewrite Hi in Hit. cbn in Hit.
    inversion Hit. subst items.
    exists (x :: l), keys, c, tot.
    repeat split; auto; try discriminate.
    subst fr. reflexivity.
  - intros (items & keys & c & tot & Hall & Hi & Hne & Hclean & Hcalc & Htot
            & Hd & -> & ->).
    destruct items as [|x l]; [contradiction|].
    rewrite lambda_handler_after_steps.
    assert (H1 : validate_required_fields event = [])
      by (apply validate_required_fields_nil; eauto).
    assert (H3 : validate_total_amount py event = []).
    { apply validate_total_amount_nil. exists (x :: l), c, tot.
      unfold dict_get_default at 1. rewrite Hi. auto. }
    unfold collect_errors, entering, modify. cbn. rewrite H1. cbn.
    unfold dict_get_default at 1. rewrite Hi.
    rewrite validate_items_of_list.
    destruct (proj2 (validate_items_from_clean 0 (x :: l)
                       {| calls := (t0 ++ [Enter "validate_required_fields"])
                                   ++ [Enter "validate_items"];
                          errors := [] |}
                       {| calls := ((t0 ++ [Enter "validate_required_fields"])
                                    ++ [Enter "validate_items"])
                                   ++ map GetItem keys;
                          errors := [] |}))
      as [E _]; [exists keys; auto|].
    rewrite E. cbn. rewrite H3. reflexivity.
Qed.

End AcceptedOrders.

Section MoreValidatorFacts.

Import ValidateOrder.

Variable py : PyRuntime.
Variable table : trace -> value -> lookup.

Arguments missing_product_id : simpl never.
Arguments missing_quantity : simpl never.
Arguments quantity_not_positive : simpl never.
Arguments invalid_quantity : simpl never.
Arguments product_not_found : simpl never.
Arguments insufficient_stock : simpl never.
Arguments price_mismatch : simpl never.
Arguments product_fault : simpl never.

Lemma validate_item_scalar (idx : nat) (item : value) (fr : frame) :
  is_scalar item = true ->
  validate_item py table idx item fr
  = (Raise (fault py TypeError "in" item), fr).
Proof. destruct item; try discriminate; reflexivity. Qed.

Lemma validate_items_from_raises (idx : nat) (xs ys : list value)
    (item : value) (fr : frame) :
  (forall fr1, exists e, validate_item py table (idx + List.length xs) item fr1
                         = (Raise e, fr1)) ->
  exists e fr',
    validate_items_from py table idx (xs ++ item :: ys) fr = (Raise e, fr').
Proof.
  intros Hbad. rewrite validate_items_from_app.
  destruct (validate_items_from py table idx xs fr) as [[u|e] fr1].
  - rewrite validate_items_from_cons.
    destruct (Hbad fr1) as [e ->]. eauto.
  - eauto.
Qed.

(** A call to the table is made for the productId of the item, which is a
    dict. *)
Lemma validate_item_call (idx : nat) (item : value) (fr : frame) :
  calls (snd (validate_item py table idx item fr)) = calls fr
  \/ exists d key,
       item = VDict d /\ dict_get "productId" d = Some key
       /\ calls (snd (validate_item py table idx item fr))
          = calls fr ++ [GetItem key].
Proof.
  destruct item as [| | | | | | |d].
  1-7: left;
    unfold validate_item, try_except, lift, raise, append_error, modify,
      get_item, is_ValueError_or_TypeError; cbn;
    repeat (case_step; cbn); reflexivity.
  destruct (dict_get "productId" d) as [key|] eqn:Ep.
  - assert (H : calls (snd (validate_item py table idx (VDict d) fr)) = calls fr
                \/ calls (snd (validate_item py table idx (VDict d) fr))
                   = calls fr ++ [GetItem key]).
    { unfold validate_item, try_except, lift, raise, append_error, modify,
        get_item, is_ValueError_or_TypeError; cbn.
      unfold dict_mem. rewrite Ep. cbn.
      repeat (case_step; cbn); auto. }
    destruct H as [H|H]; [now left|]. right. exists d, key. auto.
  - left.
    unfold validate_item, try_except, lift, raise, append_error, modify,
      get_item, is_ValueError_or_TypeError; cbn.
    unfold dict_mem. rewrite Ep. reflexivity.
Qed.

End MoreValidatorFacts.

Lemma substring_length_le (n m : nat) (s : string) :
  (String.length (substring n m s) <= m)%nat.
Proof.
  revert n m. induction s as [|c s IH]; intros [|n] [|m]; cbn; try lia.
  - specialize (IH 0%nat m). lia.
  - apply (IH n 0%nat).
  - apply (IH n (S m)).
Qed.

Lemma dict_get_app_absent (k k' : string) (v : value) (d : dict) :
  k' <> k -> dict_get k' (d ++ [(k, v)]) = dict_get k' d.
Proof.
  intros Hne. induction d as [|[k0 v0] d IH]; cbn.
  - destruct (String.eqb k' k) eqn:E; auto.
    apply String.eqb_eq in E. contradiction.
  - destruct (String.eqb k' k0); auto.
Qed.

Lemma dict_wf_app_absent (k : string) (v : value) (d : dict) :
  dict_wf d -> dict_get k d = None -> dict_wf (d ++ [(k, v)]).
Proof.
  unfold dict_wf, dict_keys. intros Hwf Hk.
  apply dict_get_None_not_in in Hk. unfold dict_keys in Hk.
  rewrite map_app. cbn. induction d as [|[k0 v0] d IH]; cbn in *.
  - constructor; [tauto | constructor].
  - inversion Hwf as [|? ? Hn Hwf']; subst. constructor.
    + rewrite in_app_iff. cbn. intros [H|[H|[]]]; [tauto|]. subst. tauto.
    + apply IH; tauto.
Qed.




(** X3.  An item that is a number, a boolean or None is not reported as an
    error: the membership test on it raises a TypeError that nothing catches.
    Whatever the other items are, [validate_items] then ends in an exception
    and so does the handler: no verdict is given, and the errors of the items
    before are not reported. *)
Theorem X3_scalar_item_is_a_fault (py : PyRuntime)
    (table : trace -> value -> lookup) :
  (forall idx item fr,
     is_scalar item = true ->
     ValidateOrder.validate_item py table idx item fr
     = (Raise (fault py TypeError "in" item), fr))
  /\ (forall idx xs item ys fr,
        is_scalar item = true ->
        exists e fr',
          ValidateOrder.validate_items_from py table idx (xs ++ item :: ys) fr
          = (Raise e, fr'))
  /\ (forall event context t0 xs item ys,
        ValidateOrder.validate_required_fields event = [] ->
        dict_get "items" event = Some (VList (xs ++ item :: ys)) ->
        is_scalar item = true ->
        exists e t,
          ValidateOrder.collect_errors py table event t0 = (Raise e, t)
          /\ ValidateOrder.lambda_handler py table event context t0
             = (Raise e, t)).
Proof.
  split; [apply validate_item_scalar|].
  assert (Hloop : forall idx xs item ys fr,
             is_scalar item = true ->
             exists e fr',
               ValidateOrder.validate_items_from py table idx
                 (xs ++ item :: ys) fr = (Raise e, fr')).
  { intros idx xs item ys fr Hs. apply validate_items_from_raises.
    intros fr1. eexists. now apply validate_item_scalar. }
  split; [exact Hloop|].
  intros event context t0 xs item ys H1 Hi Hs.
  rewrite lambda_handler_after_steps.
  unfold ValidateOrder.collect_errors, entering, modify. cbn.
  rewrite H1. cbn. unfold dict_get_default. rewrite Hi.
  rewrite validate_items_of_list.
  destruct (Hloop 0%nat xs item ys
              {| ValidateOrder.calls :=
                   (t0 ++ [Enter "validate_required_fields"])
                   ++ [Enter "validate_items"];
                 ValidateOrder.errors := [] |} Hs) as (e & fr' & ->).
  cbn. eauto.
Qed.

(** An order whose first item has no productId and whose second item is the
    number 5: the error of the first item is lost in the TypeError. *)
Lemma X3_witness :
  ValidateOrder.lambda_handler cpython Sample.table
    (Sample.order (VList [VDict [("quantity", VInt 1)]; VInt 5]) (VFloat 50))
    Sample.context []
  = (Raise (Exn TypeError "argument of type 'int' is not iterable"),
     [Enter "validate_required_fields"; Enter "validate_items"]).
Proof.
  destruct (proj2 (proj2 (X3_scalar_item_is_a_fault cpython Sample.table))
              (Sample.order (VList [VDict [("quantity", VInt 1)]; VInt 5])
                 (VFloat 50))
              Sample.context [] [VDict [("quantity", VInt 1)]] (VInt 5) []
              eq_refl eq_refl eq_refl) as (e & t & _ & H).
  rewrite H. vm_compute in H. inversion H. reflexivity.
Defined.

(** X4.  A quantity that is a float infinity (the JSON number 1e999 is read
    as one) is not reported as invalid: [int()] raises an OverflowError, which
    the handler of the quantity does not catch, and the exception leaves the
    loop with nothing recorded for the item.  A quantity that is a float NaN
    is reported as "Invalid quantity". *)
Theorem X4_infinite_quantity_is_a_fault (py : PyRuntime)
    (table : trace -> value -> lookup) (idx : nat) (item : dict)
    (product_id : value) (f : float) (fr : ValidateOrder.frame) :
  dict_get "productId" item = Some product_id ->
  dict_get "quantity" item = Some (VFloat f) ->
  (forall s, Prim2SF f = S754_infinity s ->
     ValidateOrder.validate_item py table idx (VDict item) fr
     = (Raise (Exn OverflowError "cannot convert float infinity to integer"),
        fr))
  /\ (Prim2SF f = S754_nan ->
      ValidateOrder.validate_item py table idx (VDict item) fr
      = (Ok tt,
         {| ValidateOrder.calls := ValidateOrder.calls fr;
            ValidateOrder.errors :=
              ValidateOrder.errors fr
              ++ [ValidateOrder.invalid_quantity (position idx)] |})).
Proof.
  intros Hp Hq.
  assert (Hcp : py_contains py "productId" (VDict item) = Ok true)
    by (cbn; unfold dict_mem; now rewrite Hp).
  assert (Hcq : py_contains py "quantity" (VDict item) = Ok true)
    by (cbn; unfold dict_mem; now rewrite Hq).
  assert (Hint : (q <- py_getitem py (VDict item) "quantity" ;; py_int py q)
                 = int_of_float f)
    by (cbn; now rewrite Hq).
  split.
  - intros s Hf.
    apply validate_item_escapes; auto.
    rewrite Hint. unfold int_of_float. now rewrite Hf.
  - intros Hf.
    apply validate_item_unparsed
      with (e := Exn ValueError "cannot convert float NaN to integer"); auto.
    rewrite Hint. unfold int_of_float. now rewrite Hf.
Qed.

(** Two mice and infinitely many keyboards: the handler raises the
    OverflowError after the first item was looked up. *)
Lemma X4_witness :
  ValidateOrder.validate_item cpython Sample.table 1
    (Sample.unpriced "p3" (VFloat infinity))
    {| ValidateOrder.calls := [GetItem (VStr "p2")];
       ValidateOrder.errors := [] |}
  = (Raise (Exn OverflowError "cannot convert float infinity to integer"),
     {| ValidateOrder.calls := [GetItem (VStr "p2")];
        ValidateOrder.errors := [] |})
  /\ ValidateOrder.lambda_handler cpython Sample.table
       (Sample.order (VList [Sample.unpriced "p2" (VInt 2);
                             Sample.unpriced "p3" (VFloat infinity)])
          (VFloat 0)) Sample.context []
     = (Raise (Exn OverflowError "cannot convert float infinity to integer"),
        [Enter "validate_required_fields"; Enter "validate_items";
         GetItem (VStr "p2")]).
Proof.
  split; [|vm_compute; reflexivity].
  exact (proj1 (X4_infinite_quantity_is_a_fault cpython Sample.table 1
                  [("productId", VStr "p3"); ("quantity", VFloat infinity)]
                  (VStr "p3") infinity _ eq_refl eq_refl) false eq_refl).
Defined.

(** X5.  The validator reads the four required fields of the event and nothing
    else: two events that agree on orderId, userId, items and totalAmount get
    the same errors, by the same steps and the same calls to the table. *)
Theorem X5_only_the_required_fields_are_read (py : PyRuntime)
    (table : trace -> value -> lookup) (event1 event2 : dict) (t0 : trace) :
  (forall field, In field ValidateOrder.required_fields ->
                 dict_get field event1 = dict_get field event2) ->
  ValidateOrder.collect_errors py table event1 t0
  = ValidateOrder.collect_errors py table event2 t0.
Proof.
  intros H.
  pose proof (H "orderId" ltac:(cbn; auto)) as H1.
  pose proof (H "userId" ltac:(cbn; auto)) as H2.
  pose proof (H "items" ltac:(cbn; auto)) as H3.
  pose proof (H "totalAmount" ltac:(cbn; auto)) as H4.
  assert (Hf : ValidateOrder.validate_required_fields event1
               = ValidateOrder.validate_required_fields event2).
  { unfold ValidateOrder.validate_required_fields,
      ValidateOrder.required_fields. cbn [fold_left].
    now rewrite H1, H2, H3, H4. }
  assert (Ht : ValidateOrder.validate_total_amount py event1
               = ValidateOrder.validate_total_amount py event2).
  { unfold ValidateOrder.validate_total_amount, dict_get_default.
    now rewrite H3, H4. }
  unfold ValidateOrder.collect_errors, dict_get_default.
  now rewrite Hf, Ht, H3.
Qed.

(** The order of two mice, with and without a shipping address. *)
Lemma X5_witness :
  ValidateOrder.collect_errors cpython Sample.table
    (Sample.two_mice
     ++ [("shippingAddress", VDict [("city", VStr "Boston")])]) []
  = ValidateOrder.collect_errors cpython Sample.table Sample.two_mice [].
Proof.
  apply X5_only_the_required_fields_are_read.
  intros field Hin. cbn in Hin.
  repeat (destruct Hin as [<-|Hin]; [reflexivity|]). contradiction.
Defined.

(** X6.  The structural check leaves no error exactly when orderId, userId,
    items and totalAmount are there and not null and 'items' is a list with at
    least one element; nothing else about the fields is checked (orderId and
    userId may be of any type, totalAmount too). *)
Theorem X6_structure_passes_iff (order : dict) :
  ValidateOrder.validate_required_fields order = []
  <-> (forall field, In field ValidateOrder.required_fields ->
                     field_missing order field = false)
      /\ exists item rest, dict_get "items" order = Some (VList (item :: rest)).
Proof. apply validate_required_fields_nil. Qed.

(** X7.  The transaction identifier of a payment result is "txn-" followed by
    the first sixteen characters of the SHA-256 hex digest of
    "<orderId>-<userId>-<milliseconds>", whether the payment succeeded or
    failed; refunding that identifier gives the refund identifier "ref-"
    followed by the same characters, and the refund names the transaction it
    came from. *)
Theorem X7_refund_of_a_payment (py : PyRuntime)
    (g g' : ProcessPayment.gateway) (order_id user_id amount refunded : value)
    (p : dict) :
  ProcessPayment.process_payment py g order_id user_id amount = Ok p ->
  exists digits,
    digits = substring 0 16
               (sha256_hexdigest py
                  (fstr [py_str py order_id; "-"; py_str py user_id; "-";
                         dec (ProcessPayment.time_ms g)]))
    /\ (String.length digits <= 16)%nat
    /\ dict_get "transactionId" p = Some (VStr ("txn-" ++ digits))
    /\ dict_get "refundId"
         (ProcessPayment.refund_payment g' ("txn-" ++ digits) refunded)
       = Some (VStr ("ref-" ++ digits))
    /\ dict_get "originalTransactionId"
         (ProcessPayment.refund_payment g' ("txn-" ++ digits) refunded)
       = dict_get "transactionId" p.
Proof.
  intros H. eexists. split; [reflexivity|].
  split; [apply substring_length_le|].
  assert (Ht : dict_get "transactionId" p
               = Some (VStr (ProcessPayment.generate_transaction_id py g
                               order_id user_id))).
  { revert H. unfold ProcessPayment.process_payment.
    destruct (PrimFloat.ltb _ _).
    - destruct (py_fixed2 py amount); cbn; [|discriminate].
      intros H. inversion H. reflexivity.
    - intros H. inversion H. reflexivity. }
  rewrite Ht. repeat split; reflexivity.
Qed.

(** A charge of the order of two mice, and its refund. *)
Lemma X7_witness :
  exists p,
    ProcessPayment.process_payment cpython Sample.gateway_ok
      (VStr "order-test-001") (VStr "user-123") (VFloat 50) = Ok p
    /\ dict_get "transactionId" p = Some (VStr "txn-180bdc5bfa7ce4d3")
    /\ dict_get "refundId"
         (ProcessPayment.refund_payment Sample.gateway_declined
            "txn-180bdc5bfa7ce4d3" (VFloat 50))
       = Some (VStr "ref-180bdc5bfa7ce4d3").
Proof.
  eexists. split; [vm_compute; reflexivity|].
  destruct (X7_refund_of_a_payment cpython Sample.gateway_ok
              Sample.gateway_declined (VStr "order-test-001")
              (VStr "user-123") (VFloat 50) (VFloat 50) _ eq_refl)
    as (digits & Hd & _ & Ht & Hr & _).
  vm_compute in Hd. subst digits. split; [exact Ht | exact Hr].
Defined.

(** X8.  The payment handler never returns for an envelope whose totalAmount
    cannot be printed with two decimals (a string, None, a list or a dict):
    when the draw is a success the formatting of the message raises, when it
    is a failure the handler raises the decline.  A totalAmount that is a
    numeric string is such a value, although [float()] in the validator reads
    it. *)
Theorem X8_unprintable_amount_is_never_paid (py : PyRuntime)
    (g : ProcessPayment.gateway) (event : dict) (context : lambda_context)
    (e : exn) :
  py_fixed2 py (dict_get_default "totalAmount" (VInt 0) event) = Raise e ->
  (PrimFloat.ltb (ProcessPayment.random_random g) 0.90%float = true ->
   ProcessPayment.lambda_handler py g event context = Raise e)
  /\ (PrimFloat.ltb (ProcessPayment.random_random g) 0.90%float = false ->
      ProcessPayment.lambda_handler py g event context
      = Raise (Exn ValueError
                 (fstr ["Payment failed: ";
                        fstr ["Payment failed: ";
                              ProcessPayment.choice
                                ProcessPayment.failure_reasons
                                (ProcessPayment.random_below g)]])))
  /\ (forall out, ProcessPayment.lambda_handler py g event context <> Ok out)
  /\ (forall s, py_fixed2 py (VStr s) = Raise (fault py ValueError "format" (VStr s))).
Proof.
  intros He.
  assert (H1 : PrimFloat.ltb (ProcessPayment.random_random g) 0.90%float = true ->
               ProcessPayment.lambda_handler py g event context = Raise e).
  { intros Hr. unfold ProcessPayment.lambda_handler,
      ProcessPayment.process_payment.
    rewrite Hr, He. reflexivity. }
  assert (H2 : PrimFloat.ltb (ProcessPayment.random_random g) 0.90%float = false ->
               ProcessPayment.lambda_handler py g event context
               = Raise (Exn ValueError
                          (fstr ["Payment failed: ";
                                 fstr ["Payment failed: ";
                                       ProcessPayment.choice
                                         ProcessPayment.failure_reasons
                                         (ProcessPayment.random_below g)]]))).
  { intros Hr. unfold ProcessPayment.lambda_handler,
      ProcessPayment.process_payment.
    rewrite Hr. reflexivity. }
  repeat split; auto.
  intros out.
  destruct (PrimFloat.ltb (ProcessPayment.random_random g) 0.90%float) eqn:Hr;
    [rewrite H1 | rewrite H2]; auto; discriminate.
Qed.

(** Two mice for the total "50": the validator returns the envelope, the
    payment handler raises on it though the draw is a success. *)
Lemma X8_witness :
  (exists out t,
     ValidateOrder.lambda_handler cpython Sample.table
       (Sample.order (VList [Sample.priced "p2" (VInt 2) 25]) (VStr "50"))
       Sample.context [] = (Ok out, t))
  /\ ProcessPayment.lambda_handler cpython Sample.gateway_ok
       (Sample.order (VList [Sample.priced "p2" (VInt 2) 25]) (VStr "50"))
       Sample.context
     = Raise (Exn ValueError
                "Unknown format code 'f' for object of type 'str'").
Proof.
  split; [eexists; eexists; vm_compute; reflexivity|].
  apply (proj1 (X8_unprintable_amount_is_never_paid cpython Sample.gateway_ok
                  (Sample.order (VList [Sample.priced "p2" (VInt 2) 25])
                     (VStr "50"))
                  Sample.context _ eq_refl)).
  vm_compute. reflexivity.
Defined.

(** X9.  The two handlers one after the other: when an envelope that carries
    neither result is returned by the validator and then by the payment
    handler, the outcome is the envelope followed by the validationResult
    (valid, no errors) and the paymentResult, in this order; the payment is
    the charge of the orderId, userId and totalAmount of the envelope, it has
    the status 'success', and its amount is the totalAmount of the envelope. *)
Theorem X9_validated_then_paid (py : PyRuntime)
    (table : trace -> value -> lookup) (g : ProcessPayment.gateway)
    (event validated paid : dict) (context1 context2 : lambda_context)
    (t0 t : trace) :
  dict_wf event ->
  dict_get "validationResult" event = None ->
  dict_get "paymentResult" event = None ->
  ValidateOrder.lambda_handler py table event context1 t0 = (Ok validated, t) ->
  ProcessPayment.lambda_handler py g validated context2 = Ok paid ->
  exists p,
    charge py g event = Ok p
    /\ paid = event
              ++ [("validationResult",
                   ValidateOrder.validation_result context1 true []);
                  ("paymentResult", VDict p)]
    /\ dict_get "status" p = Some (VStr "success")
    /\ dict_get "amount" p = dict_get "totalAmount" event.
Proof.
  intros Hwf Hv Hp Hrun1 Hrun2.
  pose proof Hrun1 as Hiff.
  apply lambda_handler_returns_iff in Hiff
    as (items & keys & c & tot & Hall & _).
  destruct (lambda_handler_returns py table _ _ _ _ _ Hrun1) as [_ ->].
  unfold ValidateOrder.response in Hrun2.
  rewrite dict_update_copy in Hrun2 by assumption.
  rewrite dict_set_absent in Hrun2 by assumption.
  change (ValidateOrder.is_valid []) with true in Hrun2.
  set (v := ValidateOrder.validation_result context1 true []) in *.
  rewrite payment_handler_after_charge in Hrun2.
  assert (Hcharge : charge py g (event ++ [("validationResult", v)])
                    = charge py g event).
  { unfold charge, dict_get_default.
    now rewrite !dict_get_app_absent by discriminate. }
  rewrite Hcharge in Hrun2.
  destruct (charge py g event) as [p|e] eqn:E; [|discriminate].
  destruct (process_payment_shapes py g _ _ _ _ E)
    as [(Hs & _ & Hr)|(_ & _ & _ & Hr)]; rewrite Hr in Hrun2; [|discriminate].
  inversion Hrun2 as [Hpaid]. exists p. split; [reflexivity|].
  rewrite dict_update_copy by (now apply dict_wf_app_absent).
  rewrite dict_set_absent
    by (rewrite dict_get_app_absent by discriminate; assumption).
  rewrite <- app_assoc. split; [reflexivity|]. split; [exact Hs|].
  assert (Htot : field_missing event "totalAmount" = false)
    by (apply Hall; cbn; auto).
  unfold field_missing in Htot.
  revert E. unfold charge, ProcessPayment.process_payment, dict_get_default.
  rewrite Hr.
  destruct (dict_get "totalAmount" event) as [amount|]; [|discriminate].
  destruct (py_fixed2 py amount); cbn; [|discriminate].
  intros H. inversion H. reflexivity.
Qed.

(** The order of two mice through both handlers. *)
Lemma X9_witness :
  exists validated paid t p,
    ValidateOrder.lambda_handler cpython Sample.table Sample.two_mice
      Sample.context [] = (Ok validated, t)
    /\ ProcessPayment.lambda_handler cpython Sample.gateway_ok validated
         Sample.context = Ok paid
    /\ paid = Sample.two_mice
              ++ [("validationResult",
                   ValidateOrder.validation_result Sample.context true []);
                  ("paymentResult", VDict p)]
    /\ dict_get "amount" p = Some (VFloat 50).
Proof.
  destruct (X9_validated_then_paid cpython Sample.table Sample.gateway_ok
              Sample.two_mice
              (ValidateOrder.response Sample.two_mice Sample.context [])
              (dict_set "paymentResult"
                 (VDict
                    [("status", VStr "success");
                     ("transactionId", VStr "txn-180bdc5bfa7ce4d3");
                     ("processedAt", VStr "2024-01-16T10:00:00.000000Z");
                     ("provider", VStr "mock-payment-gateway");
                     ("message",
                      VStr "Payment of $50.00 processed successfully");
                     ("amount", VFloat 50); ("currency", VStr "USD")])
                 (ValidateOrder.response Sample.two_mice Sample.context []))
              Sample.context Sample.context []
              [Enter "validate_required_fields"; Enter "validate_items";
               GetItem (VStr "p2"); Enter "validate_total_amount"])
    as (p & _ & Hpaid & _ & Hamount).
  - repeat constructor; cbn; intuition discriminate.
  - reflexivity.
  - reflexivity.
  - vm_compute. reflexivity.
  - vm_compute. reflexivity.
  - eexists. eexists. eexists. exists p.
    split; [vm_compute; reflexivity|].
    split; [vm_compute; reflexivity|].
    split; [exact Hpaid | exact Hamount].
Defined.

(** X10.  An item that lacks a key: without a productId it gets the error
    "Missing productId" and nothing else, whatever its other keys; with a
    productId and without a quantity it gets "Missing quantity"; in both cases
    the table is not called.  An item whose product the table does not have
    gets, after the error of a quantity that is not positive if there is one,
    the error "Product <id> not found", and neither its stock nor its price is
    checked. *)
Theorem X10_item_without_key_or_product (py : PyRuntime)
    (table : trace -> value -> lookup) :
  (forall idx item fr,
     dict_get "productId" item = None ->
     ValidateOrder.validate_item py table idx (VDict item) fr
     = (Ok tt,
        {| ValidateOrder.calls := ValidateOrder.calls fr;
           ValidateOrder.errors :=
             ValidateOrder.errors fr
             ++ [ValidateOrder.missing_product_id (position idx)] |}))
  /\ (forall idx item fr product_id,
        dict_get "productId" item = Some product_id ->
        dict_get "quantity" item = None ->
        ValidateOrder.validate_item py table idx (VDict item) fr
        = (Ok tt,
           {| ValidateOrder.calls := ValidateOrder.calls fr;
              ValidateOrder.errors :=
                ValidateOrder.errors fr
                ++ [ValidateOrder.missing_quantity (position idx)] |}))
  /\ (forall idx item fr product_id q quantity,
        dict_get "productId" item = Some product_id ->
        dict_get "quantity" item = Some q ->
        py_int py q = Ok quantity ->
        table (ValidateOrder.calls fr) product_id = NoItem ->
        ValidateOrder.validate_item py table idx (VDict item) fr
        = (Ok tt,
           {| ValidateOrder.calls :=
                ValidateOrder.calls fr ++ [GetItem product_id];
              ValidateOrder.errors :=
                ValidateOrder.errors fr
                ++ (if quantity <=? 0
                    then [ValidateOrder.quantity_not_positive (position idx)]
                    else [])
                ++ [ValidateOrder.product_not_found py (position idx)
                      product_id] |})).
Proof.
  split; [|split].
  - intros idx item fr Hp.
    unfold ValidateOrder.validate_item, lift, ValidateOrder.append_error,
      modify. cbn. unfold dict_mem. now rewrite Hp.
  - intros idx item fr product_id Hp Hq.
    unfold ValidateOrder.validate_item, lift, ValidateOrder.append_error,
      modify. cbn. unfold dict_mem. now rewrite Hp, Hq.
  - intros idx item fr product_id q quantity Hp Hq Hi Ht.
    rewrite (validate_item_parsed py table idx item fr product_id q quantity)
      by assumption.
    unfold catalog_findings. now rewrite Ht.
Qed.

(** Three items on the seeded table: one without a productId, one without a
    quantity, one for a product that is not there at a price that is wrong. *)
Lemma X10_witness :
  ValidateOrder.validate_items cpython Sample.table
    (VList [VDict [("price", VFloat 1)];
            VDict [("productId", VStr "p1"); ("price", VFloat 1)];
            Sample.priced "p9" (VInt 1) 1]) []
  = (Ok ["Item 1: Missing productId"; "Item 2: Missing quantity";
         "Item 3: Product p9 not found"],
     [GetItem (VStr "p9")])
  /\ ValidateOrder.validate_item cpython Sample.table 2
       (Sample.priced "p9" (VInt 1) 1)
       {| ValidateOrder.calls := []; ValidateOrder.errors := [] |}
     = (Ok tt,
        {| ValidateOrder.calls := [GetItem (VStr "p9")];
           ValidateOrder.errors := ["Item 3: Product p9 not found"] |}).
Proof.
  split; [vm_compute; reflexivity|].
  unfold Sample.priced.
  rewrite (proj2 (proj2 (X10_item_without_key_or_product cpython Sample.table))
             2%nat _ _ (VStr "p9") (VInt 1) 1); reflexivity.
Defined.

(** X11.  The loop of [validate_items] calls the table at most once for each
    item, and only with the productId of an item that is a dict: it reads no
    other key of the table. *)
Theorem X11_lookups_are_product_ids (py : PyRuntime)
    (table : trace -> value -> lookup) (idx : nat) (items : list value)
    (fr : ValidateOrder.frame) :
  exists keys,
    ValidateOrder.calls
      (snd (ValidateOrder.validate_items_from py table idx items fr))
    = ValidateOrder.calls fr ++ map GetItem keys
    /\ (List.length keys <= List.length items)%nat
    /\ Forall (fun key =>
                 exists d, In (VDict d) items
                           /\ dict_get "productId" d = Some key) keys.
Proof.
  revert idx fr. induction items as [|x xs IH]; intros idx fr.
  - exists []. cbn. rewrite app_nil_r. auto.
  - rewrite validate_items_from_cons.
    pose proof (validate_item_call py table idx x fr) as Hc.
    destruct (ValidateOrder.validate_item py table idx x fr)
      as [[u|e] fr1]; cbn [snd] in *.
    + destruct (IH (S idx) fr1) as (keys & Hk & Hl & Hf).
      assert (Hf' : Forall (fun key =>
                              exists d, In (VDict d) (x :: xs)
                                        /\ dict_get "productId" d = Some key)
                      keys).
      { eapply Forall_impl; [|exact Hf].
        intros key (d & Hin & Hd). exists d. cbn. auto. }
      destruct Hc as [Hc|(d & key & -> & Hd & Hc)]; rewrite Hk, Hc.
      * exists keys. cbn. repeat split; auto.
      * exists (key :: keys). cbn. rewrite <- app_assoc.
        repeat split; auto; [lia|].
        constructor; auto. exists d. cbn. auto.
    + destruct Hc as [Hc|(d & key & -> & Hd & Hc)]; rewrite Hc.
      * exists []. cbn. rewrite app_nil_r. repeat split; auto. lia.
      * exists [key]. cbn. repeat split; auto; [lia|].
        constructor; auto. exists d. cbn. auto.
Qed.

(** X12.  A product of the table that has no 'price' is compared as if its
    price were 0: an item that claims the price [order_price] for it gets the
    price-mismatch error, against the expected price 0.0, exactly when the
    absolute value of the claimed price exceeds 0.01. *)
Theorem X12_missing_catalog_price_is_zero (py : PyRuntime)
    (table : trace -> value -> lookup) (idx : nat) (item : dict)
    (fr : ValidateOrder.frame) (product_id q price : value) (quantity : Z)
    (product : dict) (stock_errors : list string) (order_price : float) :
  dict_get "productId" item = Some product_id ->
  dict_get "quantity" item = Some q ->
  py_int py q = Ok quantity ->
  table (ValidateOrder.calls fr) product_id = Item product ->
  stock_finding py idx product_id quantity product = Ok stock_errors ->
  dict_get "price" product = None ->
  dict_get "price" item = Some price ->
  py_float py price = Ok order_price ->
  ValidateOrder.validate_item py table idx (VDict item) fr =
    (Ok tt,
     {| ValidateOrder.calls := ValidateOrder.calls fr ++ [GetItem product_id];
        ValidateOrder.errors :=
          ValidateOrder.errors fr
          ++ (if quantity <=? 0
              then [ValidateOrder.quantity_not_positive (position idx)]
              else [])
          ++ stock_errors
          ++ (if PrimFloat.ltb 0.01%float (PrimFloat.abs order_price)
              then [ValidateOrder.price_mismatch py (position idx) product_id
                      0%float order_price]
              else []) |}).
Proof.
  intros Hp Hq Hi Ht Hs Hnp Hpr Hop.
  rewrite (validate_item_parsed py table idx item fr product_id q quantity)
    by assumption.
  unfold catalog_findings, price_finding, dict_get_default.
  rewrite Ht, Hs, Hpr, Hnp.
  change (py_float py (VInt 0)) with (@Ok float 0%float).
  rewrite Hop, differ_zero. reflexivity.
Qed.

(** A product without a price, claimed at 0.01 and at 5.0. *)
Lemma X12_witness :
  ValidateOrder.validate_item cpython
    (fun _ _ => Item [("productId", VStr "gift")]) 0
    (Sample.priced "gift" (VInt 1) 0.01)
    {| ValidateOrder.calls := []; ValidateOrder.errors := [] |}
  = (Ok tt,
     {| ValidateOrder.calls := [GetItem (VStr "gift")];
        ValidateOrder.errors := [] |})
  /\ ValidateOrder.validate_item cpython
       (fun _ _ => Item [("productId", VStr "gift")]) 0
       (Sample.priced "gift" (VInt 1) 5)
       {| ValidateOrder.calls := []; ValidateOrder.errors := [] |}
     = (Ok tt,
        {| ValidateOrder.calls := [GetItem (VStr "gift")];
           ValidateOrder.errors :=
             ["Item 1: Price mismatch for gift (expected: 0.0, received: 5.0)"]
        |}).
Proof.
  split; unfold Sample.priced.
  - rewrite (X12_missing_catalog_price_is_zero cpython _ 0 _ _ (VStr "gift")
               (VInt 1) (VFloat 0.01) 1 [("productId", VStr "gift")] []
               0.01%float); reflexivity.
  - rewrite (X12_missing_catalog_price_is_zero cpython _ 0 _ _ (VStr "gift")
               (VInt 1) (VFloat 5) 1 [("productId", VStr "gift")] []
               5%float); reflexivity.
Defined.

(** X13.  The payment handler reads orderId, userId and totalAmount of the
    envelope and nothing else; it does not look at validationResult.  Two
    envelopes that agree on the three fields are charged alike: the handler
    raises the same exception on both, or returns both with the same payment
    result. *)
Theorem X13_payment_ignores_the_verdict (py : PyRuntime)
    (g : ProcessPayment.gateway) (event1 event2 : dict)
    (context1 context2 : lambda_context) :
  dict_get "orderId" event1 = dict_get "orderId" event2 ->
  dict_get "userId" event1 = dict_get "userId" event2 ->
  dict_get "totalAmount" event1 = dict_get "totalAmount" event2 ->
  charge py g event1 = charge py g event2
  /\ (forall e,
        ProcessPayment.lambda_handler py g event1 context1 = Raise e
        <-> ProcessPayment.lambda_handler py g event2 context2 = Raise e)
  /\ (forall out1,
        ProcessPayment.lambda_handler py g event1 context1 = Ok out1 ->
        exists out2,
          ProcessPayment.lambda_handler py g event2 context2 = Ok out2
          /\ dict_get "paymentResult" out2 = dict_get "paymentResult" out1).
Proof.
  intros Ho Hu Ht.
  assert (Hc : charge py g event1 = charge py g event2)
    by (unfold charge, dict_get_default; now rewrite Ho, Hu, Ht).
  split; [exact Hc|].
  rewrite !payment_handler_after_charge, Hc.
  destruct (charge py g event2) as [p|e0].
  - destruct (PrimFloat.ltb _ _).
    + split.
      * intros e. split; intros H; discriminate H.
      * intros out1 H. inversion H. eexists. split; [reflexivity|].
        now rewrite !dict_get_set_same.
    + split.
      * intros e. tauto.
      * intros out1 H. discriminate H.
  - split.
    + intros e. tauto.
    + intros out1 H. discriminate H.
Qed.

(** The order of two mice with a verdict that says it is not valid, and
    without a verdict: both are paid. *)
Lemma X13_witness :
  exists out1 out2,
    ProcessPayment.lambda_handler cpython Sample.gateway_ok
      (Sample.two_mice
       ++ [("validationResult",
            VDict [("isValid", VBool false);
                   ("errors", VList [VStr "Item 1: Product p2 not found"])])])
      Sample.context = Ok out1
    /\ ProcessPayment.lambda_handler cpython Sample.gateway_ok
         Sample.two_mice Sample.context = Ok out2
    /\ dict_get "paymentResult" out2 = dict_get "paymentResult" out1.
Proof.
  eexists.
  destruct (proj2 (proj2 (X13_payment_ignores_the_verdict cpython
                            Sample.gateway_ok
                            (Sample.two_mice
                             ++ [("validationResult",
                                  VDict [("isValid", VBool false);
                                         ("errors",
                                          VList [VStr "Item 1: Product p2 not found"])])])
                            Sample.two_mice Sample.context Sample.context
                            eq_refl eq_refl eq_refl))
              _ ltac:(vm_compute; reflexivity)) as (out2 & H2 & Hp).
  exists out2. split; [reflexivity|]. split; assumption.
Defined.

(** X14.  The text that is hashed into a transaction identifier joins the
    orderId and the userId with "-" and does not tell where one ends: moving a
    part "<y>-" from the end of the orderId to the front of the userId gives
    the same identifier at the same millisecond. *)
Theorem X14_transaction_id_joins_ambiguously (py : PyRuntime)
    (g : ProcessPayment.gateway) (x y z : string) :
  ProcessPayment.generate_transaction_id py g
    (VStr (x ++ "-" ++ y)) (VStr z)
  = ProcessPayment.generate_transaction_id py g
      (VStr x) (VStr (y ++ "-" ++ z)).
Proof.
  unfold ProcessPayment.generate_transaction_id, fstr. cbn.
  now rewrite !string_app_assoc.
Qed.

(** X15.  When the draw is a failure the payment handler raises a ValueError
    whatever the envelope is, and its text is "Payment failed: Payment failed:
    <reason>" for one of the five reasons: the prefix is there twice, once from
    the message of the result and once from the handler. *)
Theorem X15_decline_is_raised_with_its_reason (py : PyRuntime)
    (g : ProcessPayment.gateway) (event : dict) (context : lambda_context) :
  PrimFloat.ltb (ProcessPayment.random_random g) 0.90%float = false ->
  exists reason,
    In reason ProcessPayment.failure_reasons
    /\ ProcessPayment.lambda_handler py g event context
       = Raise (Exn ValueError
                  ("Payment failed: Payment failed: " ++ reason)).
Proof.
  intros Hr.
  exists (ProcessPayment.choice ProcessPayment.failure_reasons
            (ProcessPayment.random_below g)).
  split; [apply choice_in; discriminate|].
  unfold ProcessPayment.lambda_handler, ProcessPayment.process_payment.
  rewrite Hr. reflexivity.
Qed.

(** A declined charge of an empty envelope. *)
Lemma X15_witness :
  ProcessPayment.lambda_handler cpython Sample.gateway_declined []
    Sample.context
  = Raise (Exn ValueError "Payment failed: Payment failed: Card declined").
Proof.
  destruct (X15_decline_is_raised_with_its_reason cpython
              Sample.gateway_declined [] Sample.context eq_refl)
    as (reason & _ & H).
  rewrite H. vm_compute in H. inversion H as [Hreason].
  reflexivity.
Defined.
